(** * OmniHear: the gesture-animation core

    A shallow embedding of [src/RobotHand.ts] (class [RobotHand]),
    [src/RobotAvatar.ts] (class [RobotAvatar]) and [src/ASLAlphabet.ts]
    (the table [ASL_ALPHABET]), and the properties of the playback
    sequencer, the limb animator and the pose library.

    Modelling conventions.
    - A JavaScript number is an exact real or [NaN]: rounding and the two
      infinities are left out, [NaN] and its propagation through the
      arithmetic are kept.
    - Strings are [string]s of 8-bit characters; case mapping is the ASCII
      one.
    - Methods mutate [this]: a method is a function from the object and the
      [World] to the new object and the new [World].  The [World] holds what
      the browser provides: the readings [Date.now()] returns, the draws
      [Math.random()] returns, and the console.
    - Scene construction and rendering (THREE.js) are left out; of the
      skeleton only the joint rotations written by [applyToMesh] are kept.
    - Of the console, the two kinds of entries the properties speak about are
      kept: the "Playing" line of [startAnimation] and the NaN report of
      [update]; the other informational [console.log] lines are left out. *)

From Stdlib Require Import Reals Lra Lia ZArith String Ascii List Bool.
Import ListNotations.

Set Implicit Arguments.

(* ================================================================== *)
(** * JavaScript numbers                                                *)
(* ================================================================== *)

Inductive num : Type :=
| NaN : num
| Fin : R -> num.

Coercion Fin : R >-> num.

Definition num_lift1 (f : R -> R) (a : num) : num :=
  match a with
  | Fin r => Fin (f r)
  | NaN => NaN
  end.

Definition num_lift2 (f : R -> R -> R) (a b : num) : num :=
  match a, b with
  | Fin r, Fin s => Fin (f r s)
  | _, _ => NaN
  end.

Definition num_add : num -> num -> num := num_lift2 Rplus.
Definition num_sub : num -> num -> num := num_lift2 Rminus.
Definition num_mul : num -> num -> num := num_lift2 Rmult.
Definition num_neg : num -> num := num_lift1 Ropp.
Definition Math_sin : num -> num := num_lift1 sin.
Definition Math_cos : num -> num := num_lift1 cos.
Definition Math_abs : num -> num := num_lift1 Rabs.

Definition isNaN (a : num) : bool :=
  match a with
  | NaN => true
  | Fin _ => false
  end.

Declare Scope num_scope.
Delimit Scope num_scope with num.
Bind Scope num_scope with num.
Notation "a + b" := (num_add a b) : num_scope.
Notation "a - b" := (num_sub a b) : num_scope.
Notation "a * b" := (num_mul a b) : num_scope.
Notation "- a" := (num_neg a) : num_scope.

Open Scope R_scope.
Open Scope num_scope.

(** [function lerp(start, end, amt)] *)
Definition lerp (start end_ amt : num) : num :=
  (1 - amt) * start + amt * end_.

(* ================================================================== *)
(** * The browser                                                       *)
(* ================================================================== *)

Inductive Side : Type := left | right.

(** [THREE.Euler], its three angles. *)
Record Euler : Type := mkEuler {
  ex : num;
  ey : num;
  ez : num
}.

Inductive LogEntry : Type :=
| console_log_Playing (type : string)
    (* console.log(`[Avatar] Playing: ${type}`) *)
| console_error_NaN (side : Side) (r : Euler).
    (* console.error(`[RobotHand] NaN Detected! Side: ${this.side}`, r) *)

Record World : Type := mkWorld {
  Date_readings : nat -> Z;    (* the n-th call of Date.now() returns this *)
  dateCalls : nat;             (* calls of Date.now() so far *)
  Math_draws : nat -> R;       (* the n-th call of Math.random() returns this *)
  randomCalls : nat;           (* calls of Math.random() so far *)
  console : list LogEntry      (* oldest entry first *)
}.

Definition Date_now (w : World) : Z * World :=
  (Date_readings w (dateCalls w),
   mkWorld (Date_readings w) (S (dateCalls w))
           (Math_draws w) (randomCalls w) (console w)).

Definition Math_random (w : World) : num * World :=
  (Fin (Math_draws w (randomCalls w)),
   mkWorld (Date_readings w) (dateCalls w)
           (Math_draws w) (S (randomCalls w)) (console w)).

Definition console_write (e : LogEntry) (w : World) : World :=
  mkWorld (Date_readings w) (dateCalls w)
          (Math_draws w) (randomCalls w) (console w ++ [e]).

(* ================================================================== *)
(** * ASLAlphabet.ts                                                    *)
(* ================================================================== *)

Record Curls : Type := mkCurls {
  thumb : num;
  index : num;
  middle : num;
  ring : num;
  pinky : num
}.

Definition ASL_ALPHABET : list (string * Curls) :=
  [ ("a", mkCurls 0.1 1.5 1.5 1.5 1.5);
    ("b", mkCurls 1.5 0.0 0.0 0.0 0.0);
    ("c", mkCurls 0.5 0.5 0.5 0.5 0.5);
    ("d", mkCurls 1.5 0.0 1.5 1.5 1.5);
    ("e", mkCurls 1.5 1.5 1.5 1.5 1.5);
    ("f", mkCurls 1.5 1.2 0.0 0.0 0.0);
    ("g", mkCurls 0.5 0.2 1.5 1.5 1.5);
    ("h", mkCurls 1.5 0.2 0.2 1.5 1.5);
    ("i", mkCurls 1.4 1.5 1.5 1.5 0.0);
    ("j", mkCurls 1.4 1.5 1.5 1.5 0.0);
    ("k", mkCurls 0.5 0.0 0.5 1.5 1.5);
    ("l", mkCurls 0.0 0.0 1.5 1.5 1.5);
    ("m", mkCurls 1.2 1.2 1.2 1.2 1.5);
    ("n", mkCurls 1.2 1.2 1.2 1.5 1.5);
    ("o", mkCurls 1.2 1.2 1.2 1.2 1.2);
    ("p", mkCurls 0.5 0.5 0.0 1.5 1.5);
    ("q", mkCurls 0.5 0.5 1.5 1.5 1.5);
    ("r", mkCurls 1.5 0.1 0.1 1.5 1.5);
    ("s", mkCurls 1.2 1.4 1.4 1.4 1.4);
    ("t", mkCurls 0.5 1.2 1.5 1.5 1.5);
    ("u", mkCurls 1.5 0.0 0.0 1.5 1.5);
    ("v", mkCurls 1.5 0.0 0.0 1.5 1.5);
    ("w", mkCurls 1.2 0.0 0.0 0.0 1.5);
    ("x", mkCurls 1.2 0.8 1.5 1.5 1.5);
    ("y", mkCurls 0.0 1.5 1.5 1.5 0.0);
    ("z", mkCurls 1.2 0.0 1.5 1.5 1.5);
    ("0", mkCurls 1.2 1.2 1.2 1.2 1.2);
    ("1", mkCurls 1.5 0.0 1.5 1.5 1.5);
    ("2", mkCurls 1.5 0.0 0.0 1.5 1.5);
    ("3", mkCurls 0.0 0.0 0.0 1.5 1.5);
    ("4", mkCurls 1.5 0.0 0.0 0.0 0.0);
    ("5", mkCurls 0.0 0.0 0.0 0.0 0.0);
    ("6", mkCurls 0.0 1.5 1.5 1.5 0.0);
    ("7", mkCurls 0.0 1.5 1.5 0.0 1.5);
    ("8", mkCurls 0.0 1.5 0.0 1.5 1.5);
    ("9", mkCurls 0.0 0.8 1.5 1.5 1.5) ]%string.

(** [obj[key]] on an object literal used as a table: the value of the first
    entry with that key, [None] for [undefined].  Only the table's own entries
    are looked at. *)
Fixpoint js_get {A : Type} (key : string) (obj : list (string * A)) : option A :=
  match obj with
  | [] => None
  | (k, v) :: rest => if String.eqb k key then Some v else js_get key rest
  end.

(* ================================================================== *)
(** * RobotHand.ts: the hand                                            *)
(* ================================================================== *)

(** [type FingerName = 'thumb' | 'index' | 'middle' | 'ring' | 'pinky'] *)
Inductive FingerName : Type := Thumb | Index | Middle | Ring | Pinky.

Definition FingerName_eqb (f g : FingerName) : bool :=
  match f, g with
  | Thumb, Thumb | Index, Index | Middle, Middle
  | Ring, Ring | Pinky, Pinky => true
  | _, _ => false
  end.

Definition getCurl (f : FingerName) (c : Curls) : num :=
  match f with
  | Thumb => thumb c
  | Index => index c
  | Middle => middle c
  | Ring => ring c
  | Pinky => pinky c
  end.

Definition putCurl (f : FingerName) (v : num) (c : Curls) : Curls :=
  match f with
  | Thumb => mkCurls v (index c) (middle c) (ring c) (pinky c)
  | Index => mkCurls (thumb c) v (middle c) (ring c) (pinky c)
  | Middle => mkCurls (thumb c) (index c) v (ring c) (pinky c)
  | Ring => mkCurls (thumb c) (index c) (middle c) v (pinky c)
  | Pinky => mkCurls (thumb c) (index c) (middle c) (ring c) v
  end.

(** The shape of [targetState] and of [currentState]. *)
Record PoseState : Type := mkPoseState {
  wristRot : Euler;
  fingerCurls : Curls
}.

Record RobotHand : Type := mkRobotHand {
  side : Side;
  wrist : Euler;                               (* this.wrist.rotation *)
  fingers : list (FingerName * list num);      (* finger -> rotation.x of each segment *)
  targetState : PoseState;
  currentState : PoseState;
  animState : string;
  animStartTime : Z
}.

Definition zeroPose : PoseState :=
  mkPoseState (mkEuler 0 0 0) (mkCurls 0 0 0 0 0).

(** The constructor: [buildHand] gives every finger three segments, all
    rotations at their default zero. *)
Definition newRobotHand (s : Side) : RobotHand :=
  mkRobotHand s (mkEuler 0 0 0)
    (map (fun f => (f, [Fin 0; Fin 0; Fin 0])) [Thumb; Index; Middle; Ring; Pinky])
    zeroPose zeroPose "IDLE" 0%Z.

Definition withTarget (t : PoseState) (h : RobotHand) : RobotHand :=
  mkRobotHand (side h) (wrist h) (fingers h) t (currentState h)
              (animState h) (animStartTime h).

Definition withCurrent (c : PoseState) (h : RobotHand) : RobotHand :=
  mkRobotHand (side h) (wrist h) (fingers h) (targetState h) c
              (animState h) (animStartTime h).

Definition withAnimState (s : string) (h : RobotHand) : RobotHand :=
  mkRobotHand (side h) (wrist h) (fingers h) (targetState h) (currentState h)
              s (animStartTime h).

(** A statement of a method of the hand. *)
Definition Stmt : Type := RobotHand -> World -> RobotHand * World.

Definition seq (s1 s2 : Stmt) : Stmt :=
  fun h w => let (h', w') := s1 h w in s2 h' w'.

Declare Scope stmt_scope.
Delimit Scope stmt_scope with stmt.
Bind Scope stmt_scope with Stmt.
Notation "s1 ;; s2" := (seq s1 s2) (at level 61, right associativity) : stmt_scope.
Open Scope stmt_scope.

Definition skip : Stmt := fun h w => (h, w).

(** [[...].forEach(f => body)] over finger names. *)
Definition forEach (l : list FingerName) (body : FingerName -> Stmt) : Stmt :=
  fold_right (fun f rest => seq (body f) rest) skip l.

(** The methods of [class RobotHand]. *)
Module Hand.

(** [setFace(finger, curl)] *)
Definition setFace (finger : FingerName) (curl : num) : Stmt :=
  fun h w =>
    (withTarget (mkPoseState (wristRot (targetState h))
                             (putCurl finger curl (fingerCurls (targetState h)))) h,
     w).

(** [setWrist(x, y, z)] *)
Definition setWrist (x y z : num) : Stmt :=
  fun h w =>
    (withTarget (mkPoseState (mkEuler x y z) (fingerCurls (targetState h))) h, w).

(** [poseHand(pose)] *)
Definition poseHand (pose : Curls) : Stmt :=
  (fun h w => (withAnimState "POSE" h, w)) ;;
  setFace Thumb (thumb pose) ;;
  setFace Index (index pose) ;;
  setFace Middle (middle pose) ;;
  setFace Ring (ring pose) ;;
  setFace Pinky (pinky pose) ;;
  setWrist (-0.2) 0 0.

(** [triggerAnimation(type)] of the hand *)
Definition triggerAnimation (type : string) : Stmt :=
  fun h w =>
    let (now, w') := Date_now w in
    (mkRobotHand (side h) (wrist h) (fingers h) (targetState h) (currentState h)
                 type now,
     w').

(** The helpers local to [updateLogic]. *)
Definition flatHand : Stmt :=
  forEach [Thumb; Index; Middle; Ring; Pinky] (fun f => setFace f 0).

Definition fist : Stmt :=
  forEach [Thumb; Index; Middle; Ring; Pinky] (fun f => setFace f 1.5).

Definition pointIndex : Stmt :=
  setFace Index 0 ;;
  forEach [Thumb; Middle; Ring; Pinky] (fun f => setFace f 1.5).

Definition thumbsUp : Stmt :=
  setFace Thumb 0 ;;
  forEach [Index; Middle; Ring; Pinky] (fun f => setFace f 1.5).

(** The branch of [updateLogic] for [IDLE] and [POSE]. *)
Definition idleSway (time : num) : Stmt :=
  let sway := Math_sin (time * 1.5) * 0.05 in
  setWrist (sway * 0.5) 0 sway ;;
  forEach [Thumb; Index; Middle; Ring; Pinky] (fun f =>
    setFace f (0.1 + Math_sin (time + (if FingerName_eqb f Thumb then 0 else 2)) * 0.05)).

(** [Math.random()] used inside an expression: draw, then go on. *)
Definition withRandom (k : num -> Stmt) : Stmt :=
  fun h w => let (r, w') := Math_random w in k r h w'.

(* ------------------------------------------------------------------ *)
(** ** The gesture catalog: the [case]s of the [switch] in [updateLogic],
       in source order.  Labels that share a body share a definition. *)
(* ------------------------------------------------------------------ *)

(** case 'HELLO' *)
Definition gesture_HELLO (time : num) : Stmt :=
  let helloMove := Math_sin (time * 5) * 0.4 in
  setWrist (- 0.3 + helloMove) 0 (helloMove * 0.3) ;;
  flatHand.

(** case 'GOODBYE' *)
Definition gesture_GOODBYE (time : num) : Stmt :=
  let byeWave := Math_sin (time * 8) * 0.5 in
  setWrist 0 0 byeWave ;;
  flatHand.

(** case 'YES' *)
Definition gesture_YES (time : num) : Stmt :=
  let yesNod := Math_sin (time * 6) * 0.4 in
  setWrist yesNod 0 0 ;;
  fist.

(** case 'NO' *)
Definition gesture_NO (time : num) : Stmt :=
  let noSnap := Math_abs (Math_sin (time * 8)) in
  setWrist 0 0 (noSnap * 0.2) ;;
  setFace Thumb (noSnap * 0.5) ;;
  setFace Index (noSnap * 0.5) ;;
  setFace Middle (noSnap * 0.5) ;;
  setFace Ring 1.5 ;;
  setFace Pinky 1.5.

(** case 'THANK' *)
Definition gesture_THANK (time : num) : Stmt :=
  let thankMove := Math_sin (time * 4) * 0.5 in
  setWrist (thankMove - 0.2) 0 0 ;;
  flatHand.

(** case 'PLEASE' *)
Definition gesture_PLEASE (time : num) : Stmt :=
  let pleaseCircleX := Math_sin (time * 4) * 0.3 in
  let pleaseCircleY := Math_cos (time * 4) * 0.3 in
  setWrist pleaseCircleX pleaseCircleY 0 ;;
  flatHand.

(** case 'SORRY' *)
Definition gesture_SORRY (time : num) : Stmt :=
  let sorryCircle := Math_sin (time * 3) * 0.3 in
  let sorryCircle2 := Math_cos (time * 3) * 0.2 in
  setWrist sorryCircle sorryCircle2 0 ;;
  fist.

(** case 'I' / case 'ME' *)
Definition gesture_I (time : num) : Stmt :=
  setWrist 0.3 0 0 ;;
  pointIndex.

(** case 'YOU' *)
Definition gesture_YOU (time : num) : Stmt :=
  setWrist (- 0.2) 0 0 ;;
  pointIndex.

(** case 'MY' *)
Definition gesture_MY (time : num) : Stmt :=
  setWrist 0.5 0 0 ;;
  flatHand.

(** case 'HE' / case 'SHE' / case 'IT' *)
Definition gesture_HE (time : num) : Stmt :=
  setWrist 0 0.3 0 ;;
  pointIndex.

(** case 'WE' *)
Definition gesture_WE (time : num) : Stmt :=
  let weMotion := Math_sin (time * 3) * 0.3 in
  setWrist 0 weMotion 0 ;;
  pointIndex.

(** case 'THEY' *)
Definition gesture_THEY (time : num) : Stmt :=
  let theyMotion := Math_sin (time * 3) * 0.4 in
  setWrist 0 theyMotion 0 ;;
  pointIndex.

(** case 'WHAT' *)
Definition gesture_WHAT (time : num) : Stmt :=
  let whatShake := Math_sin (time * 6) * 0.3 in
  setWrist 0 whatShake 0 ;;
  flatHand.

(** case 'WHERE' *)
Definition gesture_WHERE (time : num) : Stmt :=
  let whereShake := Math_sin (time * 5) * 0.4 in
  setWrist 0 0 whereShake ;;
  pointIndex.

(** case 'WHEN' *)
Definition gesture_WHEN (time : num) : Stmt :=
  let whenCircle := Math_sin (time * 4) in
  setWrist 0 (whenCircle * 0.2) 0 ;;
  pointIndex.

(** case 'WHO' *)
Definition gesture_WHO (time : num) : Stmt :=
  let whoCircle := Math_sin (time * 5) in
  setWrist 0 0 (whoCircle * 0.2) ;;
  setFace Thumb 0.5 ;;
  setFace Index 0.5 ;;
  forEach [Middle; Ring; Pinky] (fun f => setFace f 1.5).

(** case 'WHY' *)
Definition gesture_WHY (time : num) : Stmt :=
  let whyMotion := Math_sin (time * 4) * 0.3 in
  setWrist whyMotion 0 0 ;;
  setFace Middle 0 ;;
  forEach [Thumb; Index; Ring; Pinky] (fun f => setFace f 1.5).

(** case 'HOW' *)
Definition gesture_HOW (time : num) : Stmt :=
  let howRotate := Math_sin (time * 5) * 0.4 in
  setWrist howRotate 0 0 ;;
  fist.

(** case 'GO' *)
Definition gesture_GO (time : num) : Stmt :=
  let goMotion := Math_sin (time * 6) * 0.5 in
  setWrist 0 0 goMotion ;;
  pointIndex.

(** case 'COME' *)
Definition gesture_COME (time : num) : Stmt :=
  let comeMotion := Math_sin (time * 6) * 0.5 in
  setWrist comeMotion 0 0 ;;
  pointIndex.

(** case 'EAT' *)
Definition gesture_EAT (time : num) : Stmt :=
  let eatMotion := Math_abs (Math_sin (time * 5)) in
  setWrist (eatMotion * 0.3) 0 0 ;;
  setFace Thumb 0.5 ;;
  forEach [Index; Middle; Ring; Pinky] (fun f => setFace f 1.2).

(** case 'DRINK' *)
Definition gesture_DRINK (time : num) : Stmt :=
  let drinkTilt := Math_sin (time * 3) * 0.3 in
  setWrist (drinkTilt - 0.2) 0 0 ;;
  setFace Thumb 0.8 ;;
  forEach [Index; Middle; Ring; Pinky] (fun f => setFace f 0.8).

(** case 'SLEEP' *)
Definition gesture_SLEEP (time : num) : Stmt :=
  setWrist 0.3 0 0 ;;
  flatHand.

(** case 'WORK' *)
Definition gesture_WORK (time : num) : Stmt :=
  let workTap := Math_abs (Math_sin (time * 8)) in
  setWrist 0 0 (workTap * 0.3) ;;
  fist.

(** case 'PLAY' *)
Definition gesture_PLAY (time : num) : Stmt :=
  let playShake := Math_sin (time * 8) * 0.4 in
  setWrist 0 0 playShake ;;
  setFace Thumb 0 ;;
  setFace Pinky 0 ;;
  forEach [Index; Middle; Ring] (fun f => setFace f 1.5).

(** case 'LEARN' *)
Definition gesture_LEARN (time : num) : Stmt :=
  let learnMotion := Math_sin (time * 4) in
  setWrist (learnMotion * 0.3) 0 0 ;;
  flatHand.

(** case 'KNOW' *)
Definition gesture_KNOW (time : num) : Stmt :=
  let knowTap := Math_abs (Math_sin (time * 6)) in
  setWrist (knowTap * 0.2) 0 0 ;;
  flatHand.

(** case 'THINK' *)
Definition gesture_THINK (time : num) : Stmt :=
  let thinkCircle := Math_sin (time * 3) in
  setWrist (thinkCircle * 0.1) 0 0 ;;
  pointIndex.

(** case 'SEE' *)
Definition gesture_SEE (time : num) : Stmt :=
  let seeMotion := Math_sin (time * 5) * 0.3 in
  setWrist 0 0 seeMotion ;;
  setFace Index 0 ;;
  setFace Middle 0 ;;
  forEach [Thumb; Ring; Pinky] (fun f => setFace f 1.5).

(** case 'HEAR' *)
Definition gesture_HEAR (time : num) : Stmt :=
  let hearPoint := Math_abs (Math_sin (time * 4)) in
  setWrist (hearPoint * 0.2) 0 0 ;;
  pointIndex.

(** case 'FEEL' *)
Definition gesture_FEEL (time : num) : Stmt :=
  let feelRub := Math_sin (time * 3) in
  setWrist (feelRub * 0.2) 0 0 ;;
  setFace Middle 0 ;;
  forEach [Thumb; Index; Ring; Pinky] (fun f => setFace f 1.5).

(** case 'UNDERSTAND' *)
Definition gesture_UNDERSTAND (time : num) : Stmt :=
  let understandFlick := Math_abs (Math_sin (time * 6)) in
  setWrist 0 0 (understandFlick * 0.3) ;;
  pointIndex.

(** case 'REMEMBER' *)
Definition gesture_REMEMBER (time : num) : Stmt :=
  let rememberTap := Math_abs (Math_sin (time * 5)) in
  setWrist (rememberTap * 0.2) 0 0 ;;
  thumbsUp.

(** case 'FORGET' *)
Definition gesture_FORGET (time : num) : Stmt :=
  let forgetWipe := Math_sin (time * 4) in
  setWrist 0 (forgetWipe * 0.3) 0 ;;
  flatHand.

(** case 'HAPPY' *)
Definition gesture_HAPPY (time : num) : Stmt :=
  let happyBounce := Math_abs (Math_sin (time * 6)) * 0.3 in
  setWrist happyBounce 0 0 ;;
  flatHand.

(** case 'SAD' *)
Definition gesture_SAD (time : num) : Stmt :=
  setWrist (- 0.3) 0 0 ;;
  flatHand.

(** case 'HUNGRY' *)
Definition gesture_HUNGRY (time : num) : Stmt :=
  let hungryRub := Math_sin (time * 4) in
  setWrist (hungryRub * 0.3) 0 0 ;;
  setFace Thumb 0.5 ;;
  forEach [Index; Middle; Ring; Pinky] (fun f => setFace f 0.8).

(** case 'THIRSTY' *)
Definition gesture_THIRSTY (time : num) : Stmt :=
  let thirstyDrag := Math_sin (time * 3) in
  setWrist (thirstyDrag * 0.2) 0 0 ;;
  pointIndex.

(** case 'GOOD' *)
Definition gesture_GOOD (time : num) : Stmt :=
  let goodMotion := Math_sin (time * 4) * 0.3 in
  setWrist 0 0 goodMotion ;;
  flatHand.

(** case 'BAD' *)
Definition gesture_BAD (time : num) : Stmt :=
  let badMotion := Math_sin (time * 5) * 0.3 in
  setWrist 0 0 badMotion ;;
  flatHand.

(** case 'WANT' *)
Definition gesture_WANT (time : num) : Stmt :=
  let wantPull := Math_sin (time * 4) * 0.4 in
  setWrist wantPull 0 0 ;;
  setFace Thumb 0.6 ;;
  forEach [Index; Middle; Ring; Pinky] (fun f => setFace f 0.6).

(** case 'NEED' *)
Definition gesture_NEED (time : num) : Stmt :=
  let needBend := Math_abs (Math_sin (time * 6)) * 0.5 in
  setWrist needBend 0 0 ;;
  setFace Index 0.8 ;;
  forEach [Thumb; Middle; Ring; Pinky] (fun f => setFace f 1.5).

(** case 'LIKE' *)
Definition gesture_LIKE (time : num) : Stmt :=
  let likePull := Math_sin (time * 4) * 0.3 in
  setWrist likePull 0 0 ;;
  setFace Thumb 0.3 ;;
  setFace Middle 0.3 ;;
  forEach [Index; Ring; Pinky] (fun f => setFace f 1.5).

(** case 'LOVE' *)
Definition gesture_LOVE (time : num) : Stmt :=
  let loveHug := Math_sin (time * 2) * 0.2 in
  setWrist (0.3 + loveHug) 0 0 ;;
  fist.

(** case 'HELP' *)
Definition gesture_HELP (time : num) : Stmt :=
  let helpLift := Math_sin (time * 4) * 0.4 in
  setWrist helpLift 0 0 ;;
  thumbsUp ;;
  thumbsUp.

(** case 'MOTHER' / case 'MOM' *)
Definition gesture_MOTHER (time : num) : Stmt :=
  let motherTap := Math_abs (Math_sin (time * 6)) * 0.3 in
  setWrist motherTap 0 0 ;;
  setFace Thumb 0 ;;
  forEach [Index; Middle; Ring; Pinky] (fun f => setFace f 0).

(** case 'FATHER' / case 'DAD' *)
Definition gesture_FATHER (time : num) : Stmt :=
  let dadTap := Math_abs (Math_sin (time * 6)) * 0.3 in
  setWrist (dadTap + 0.3) 0 0 ;;
  setFace Thumb 0 ;;
  forEach [Index; Middle; Ring; Pinky] (fun f => setFace f 0).

(** case 'SISTER' *)
Definition gesture_SISTER (time : num) : Stmt :=
  let sisTap := Math_sin (time * 4) * 0.3 in
  setWrist sisTap 0 0 ;;
  fist.

(** case 'BROTHER' *)
Definition gesture_BROTHER (time : num) : Stmt :=
  let broTap := Math_sin (time * 4) * 0.4 in
  setWrist (broTap + 0.2) 0 0 ;;
  setFace Thumb 0 ;;
  setFace Index 0 ;;
  forEach [Middle; Ring; Pinky] (fun f => setFace f 1.5).

(** case 'FAMILY' *)
Definition gesture_FAMILY (time : num) : Stmt :=
  let famCircleX := Math_sin (time * 3) * 0.4 in
  let famCircleY := Math_cos (time * 3) * 0.3 in
  setWrist famCircleX famCircleY 0 ;;
  setFace Thumb 0.5 ;;
  setFace Index 0.5 ;;
  forEach [Middle; Ring; Pinky] (fun f => setFace f 0).

(** case 'FRIEND' *)
Definition gesture_FRIEND (time : num) : Stmt :=
  let friendHook := Math_sin (time * 4) * 0.4 in
  setWrist 0 friendHook 0 ;;
  setFace Index 0.7 ;;
  forEach [Thumb; Middle; Ring; Pinky] (fun f => setFace f 1.5).

(** case 'BABY' *)
Definition gesture_BABY (time : num) : Stmt :=
  let babyRock := Math_sin (time * 3) * 0.4 in
  setWrist 0 babyRock 0 ;;
  flatHand.

(** case 'CHILD' / case 'KIDS' *)
Definition gesture_CHILD (time : num) : Stmt :=
  let childPat := Math_abs (Math_sin (time * 5)) * 0.3 in
  setWrist 0 0 childPat ;;
  flatHand.

(** case 'PERSON' *)
Definition gesture_PERSON (time : num) : Stmt :=
  let personDown := Math_sin (time * 3) * 0.3 in
  setWrist personDown 0 0 ;;
  setFace Thumb 0.5 ;;
  setFace Index 0.3 ;;
  setFace Middle 0 ;;
  forEach [Ring; Pinky] (fun f => setFace f 1.5).

(** case 'PEOPLE' *)
Definition gesture_PEOPLE (time : num) : Stmt :=
  let peopleAlt := Math_sin (time * 5) * 0.4 in
  setWrist 0 peopleAlt 0 ;;
  setFace Thumb 0.5 ;;
  setFace Index 0.3 ;;
  setFace Middle 0 ;;
  forEach [Ring; Pinky] (fun f => setFace f 1.5).

(** case 'HOUSE' / case 'SCHOOL' / case 'BIG' *)
Definition gesture_HOUSE (time : num) : Stmt :=
  let bigSpread := Math_sin (time * 3) * 0.3 in
  setWrist 0 0 bigSpread ;;
  flatHand.

(** case 'SMALL' *)
Definition gesture_SMALL (time : num) : Stmt :=
  let smallClose := Math_sin (time * 5) * 0.2 in
  setWrist 0 0 smallClose ;;
  setFace Thumb 0.5 ;;
  setFace Index 0.5 ;;
  forEach [Middle; Ring; Pinky] (fun f => setFace f 1.5).

(** case 'MORE' *)
Definition gesture_MORE (time : num) : Stmt :=
  let moreMotion := Math_sin (time * 5) in
  setWrist (moreMotion * 0.3) 0 0 ;;
  setFace Thumb 0.5 ;;
  forEach [Index; Middle; Ring; Pinky] (fun f => setFace f 0.5).

(** case 'DONE' / case 'FINISH' *)
Definition gesture_DONE (time : num) : Stmt :=
  let doneShake := Math_sin (time * 8) * 0.4 in
  setWrist 0 0 doneShake ;;
  flatHand.

(** case 'NOT' *)
Definition gesture_NOT (time : num) : Stmt :=
  let notFlick := Math_sin (time * 6) in
  setWrist 0 0 (notFlick * 0.4) ;;
  thumbsUp.

(** case 'AGAIN' *)
Definition gesture_AGAIN (time : num) : Stmt :=
  let againBounce := Math_sin (time * 6) in
  setWrist (againBounce * 0.3) 0 0 ;;
  flatHand.

(** case 'ALWAYS' / case 'NEVER' / case 'SOMETIMES' *)
Definition gesture_ALWAYS (time : num) : Stmt :=
  let freqMotion := Math_sin (time * 4) * 0.3 in
  setWrist 0 freqMotion 0 ;;
  pointIndex.

(** case 'HERE' / case 'THERE' / case 'UP' / case 'DOWN' / case 'IN' / case 'OUT' *)
Definition gesture_HERE (time : num) : Stmt :=
  let dirMotion := Math_sin (time * 5) * 0.3 in
  setWrist 0 0 dirMotion ;;
  pointIndex.

(** case 'CAN' / case 'WILL' / case 'MUST' / case 'SHOULD' *)
Definition gesture_CAN (time : num) : Stmt :=
  let modalMotion := Math_sin (time * 6) * 0.3 in
  setWrist modalMotion 0 0 ;;
  fist.

(** case 'AND' / case 'BUT' / case 'OR' / case 'IF' / case 'BECAUSE' *)
Definition gesture_AND (time : num) : Stmt :=
  let conjMotion := Math_sin (time * 4) * 0.2 in
  setWrist 0 conjMotion 0 ;;
  flatHand.

(** case 'NAME' *)
Definition gesture_NAME (time : num) : Stmt :=
  let nameTap := Math_abs (Math_sin (time * 10)) in
  setWrist 0 0 (nameTap * 0.3) ;;
  setFace Index 0 ;;
  setFace Middle 0 ;;
  forEach [Thumb; Ring; Pinky] (fun f => setFace f 1.5).

(** case 'PARK' *)
Definition gesture_PARK (time : num) : Stmt :=
  let parkSpread := Math_sin (time * 4) * 0.5 in
  setWrist 0 parkSpread 0 ;;
  flatHand.

(** case 'HOUSE' / case 'HOME' *)
Definition gesture_HOUSE_2 (time : num) : Stmt :=
  let houseAngle := Math_sin (time * 3) * 0.2 in
  setWrist (0.4 + houseAngle) 0 0.3 ;;
  flatHand.

(** case 'SCHOOL' *)
Definition gesture_SCHOOL_2 (time : num) : Stmt :=
  let schoolClap := Math_abs (Math_sin (time * 8)) in
  setWrist (schoolClap * 0.4) 0 0 ;;
  flatHand.

(** case 'STORE' / case 'SHOP' *)
Definition gesture_STORE (time : num) : Stmt :=
  let storeRub := Math_sin (time * 6) * 0.4 in
  setWrist storeRub 0 0 ;;
  setFace Thumb 0.5 ;;
  setFace Index 0.5 ;;
  forEach [Middle; Ring; Pinky] (fun f => setFace f 1.5).

(** case 'HOSPITAL' *)
Definition gesture_HOSPITAL (time : num) : Stmt :=
  let hospCross := Math_sin (time * 4) * 0.3 in
  setWrist hospCross 0 hospCross ;;
  setFace Index 0 ;;
  setFace Middle 0 ;;
  forEach [Thumb; Ring; Pinky] (fun f => setFace f 1.5).

(** case 'CHURCH' *)
Definition gesture_CHURCH (time : num) : Stmt :=
  let churchPoint := Math_sin (time * 2) * 0.2 in
  setWrist (0.5 + churchPoint) 0 0 ;;
  pointIndex.

(** case 'BEACH' *)
Definition gesture_BEACH (time : num) : Stmt :=
  let beachWave := Math_sin (time * 3) * 0.5 in
  setWrist beachWave 0 (beachWave * 0.5) ;;
  flatHand.

(** case 'COFFEE' *)
Definition gesture_COFFEE (time : num) : Stmt :=
  let coffeeGrind := Math_sin (time * 5) * 0.4 in
  setWrist 0 coffeeGrind 0 ;;
  fist.

(** case 'MILK' *)
Definition gesture_MILK (time : num) : Stmt :=
  let milkSqueeze := Math_abs (Math_sin (time * 6)) in
  setWrist 0 0 (milkSqueeze * 0.3) ;;
  setFace Thumb (0.5 + milkSqueeze * 0.3) ;;
  forEach [Index; Middle; Ring; Pinky] (fun f => setFace f (0.5 + milkSqueeze * 0.3)).

(** case 'PIZZA' *)
Definition gesture_PIZZA (time : num) : Stmt :=
  let pizzaZ := Math_sin (time * 8) * 0.4 in
  setWrist 0 pizzaZ pizzaZ ;;
  pointIndex.

(** case 'COOKIE' *)
Definition gesture_COOKIE (time : num) : Stmt :=
  let cookieCut := Math_sin (time * 5) * 0.4 in
  setWrist 0 0 cookieCut ;;
  setFace Thumb 0.8 ;;
  forEach [Index; Middle; Ring; Pinky] (fun f => setFace f 0.8).

(** case 'CAR' *)
Definition gesture_CAR (time : num) : Stmt :=
  let carSteer := Math_sin (time * 4) * 0.5 in
  setWrist 0 carSteer 0 ;;
  fist.

(** case 'PHONE' / case 'TELEPHONE' *)
Definition gesture_PHONE (time : num) : Stmt :=
  let phoneHold := Math_sin (time * 3) * 0.2 in
  setWrist (phoneHold + 0.3) 0 0 ;;
  setFace Thumb 0 ;;
  setFace Pinky 0 ;;
  forEach [Index; Middle; Ring] (fun f => setFace f 1.5).

(** case 'COMPUTER' *)
Definition gesture_COMPUTER (time : num) : Stmt :=
  let compType := Math_abs (Math_sin (time * 10)) in
  setWrist 0 0 (compType * 0.3) ;;
  setFace Index (0.2 + compType * 0.3) ;;
  setFace Middle (0.2 + compType * 0.3) ;;
  forEach [Thumb; Ring; Pinky] (fun f => setFace f 1.2).

(** case 'BOOK' *)
Definition gesture_BOOK (time : num) : Stmt :=
  let bookOpen := Math_sin (time * 4) * 0.5 in
  setWrist 0 bookOpen 0 ;;
  flatHand.

(** case 'DOOR' *)
Definition gesture_DOOR (time : num) : Stmt :=
  let doorSwing := Math_sin (time * 3) * 0.6 in
  setWrist 0 doorSwing 0 ;;
  flatHand.

(** case 'CHAIR' *)
Definition gesture_CHAIR (time : num) : Stmt :=
  let chairSit := Math_sin (time * 4) * 0.3 in
  setWrist chairSit 0 0 ;;
  setFace Index 0.5 ;;
  setFace Middle 0.5 ;;
  forEach [Thumb; Ring; Pinky] (fun f => setFace f 1.5).

(** case 'TABLE' *)
Definition gesture_TABLE (time : num) : Stmt :=
  let tableSurface := Math_sin (time * 3) * 0.3 in
  setWrist tableSurface 0 0 ;;
  flatHand.

(** case 'BED' *)
Definition gesture_BED (time : num) : Stmt :=
  let bedSleep := Math_sin (time * 2) * 0.3 in
  setWrist (bedSleep + 0.3) 0 0 ;;
  flatHand.

(** case 'MONEY' *)
Definition gesture_MONEY (time : num) : Stmt :=
  let moneyRub := Math_sin (time * 8) * 0.3 in
  setWrist moneyRub 0 0 ;;
  setFace Thumb 0.3 ;;
  setFace Index 0.3 ;;
  setFace Middle 0.3 ;;
  forEach [Ring; Pinky] (fun f => setFace f 1.5).

(** case 'BOWL' *)
Definition gesture_BOWL (time : num) : Stmt :=
  let bowlCurve := Math_sin (time * 3) * 0.2 in
  setWrist bowlCurve 0 0.3 ;;
  setFace Thumb 0.5 ;;
  forEach [Index; Middle; Ring; Pinky] (fun f => setFace f 0.6).

(** case 'RUN' *)
Definition gesture_RUN (time : num) : Stmt :=
  let runMotion := Math_sin (time * 10) * 0.6 in
  setWrist (runMotion * 0.3) 0 runMotion ;;
  pointIndex.

(** case 'WALK' *)
Definition gesture_WALK (time : num) : Stmt :=
  let walkStep := Math_sin (time * 6) * 0.4 in
  setWrist (walkStep * 0.3) 0 walkStep ;;
  flatHand.

(** case 'JUMP' *)
Definition gesture_JUMP (time : num) : Stmt :=
  let jumpUp := Math_abs (Math_sin (time * 6)) * 0.6 in
  setWrist (jumpUp * 0.5) 0 0 ;;
  flatHand.

(** case 'SWIM' *)
Definition gesture_SWIM (time : num) : Stmt :=
  let swimStroke := Math_sin (time * 4) * 0.6 in
  setWrist swimStroke 0 0 ;;
  flatHand.

(** case 'FLY' *)
Definition gesture_FLY (time : num) : Stmt :=
  let flyFlap := Math_sin (time * 5) * 0.5 in
  setWrist flyFlap 0 (flyFlap * 0.3) ;;
  flatHand.

(** case 'DANCE' *)
Definition gesture_DANCE (time : num) : Stmt :=
  let danceMove := Math_sin (time * 7) * 0.5 in
  setWrist danceMove (danceMove * 0.5) 0 ;;
  setFace Index 0.5 ;;
  setFace Middle 0.5.

(** case 'PUSH' *)
Definition gesture_PUSH (time : num) : Stmt :=
  let pushOut := Math_sin (time * 5) * 0.5 in
  setWrist 0 0 pushOut ;;
  flatHand.

(** case 'PULL' *)
Definition gesture_PULL (time : num) : Stmt :=
  let pullIn := Math_sin (time * 5) * - 0.5 in
  setWrist 0 0 pullIn ;;
  fist.

(** case 'THROW' *)
Definition gesture_THROW (time : num) : Stmt :=
  let throwOut := Math_sin (time * 8) * 0.6 in
  setWrist 0 (throwOut * 0.5) throwOut ;;
  flatHand.

(** case 'CATCH' *)
Definition gesture_CATCH (time : num) : Stmt :=
  let catchIn := Math_abs (Math_sin (time * 6)) * 0.5 in
  setWrist 0 0 catchIn ;;
  fist.

(** case 'HIT' *)
Definition gesture_HIT (time : num) : Stmt :=
  let hitStrike := Math_abs (Math_sin (time * 10)) * 0.6 in
  setWrist hitStrike 0 hitStrike ;;
  fist.

(** case 'KICK' *)
Definition gesture_KICK (time : num) : Stmt :=
  let kickLeg := Math_sin (time * 7) * 0.5 in
  setWrist kickLeg 0 0 ;;
  flatHand.

(** case 'CLIMB' *)
Definition gesture_CLIMB (time : num) : Stmt :=
  let climbUp := Math_sin (time * 5) * 0.5 in
  setWrist 0 climbUp 0 ;;
  fist.

(** case 'FALL' *)
Definition gesture_FALL (time : num) : Stmt :=
  let fallDown := Math_sin (time * 6) * - 0.5 in
  setWrist 0 fallDown 0 ;;
  flatHand.

(** case 'CARRY' *)
Definition gesture_CARRY (time : num) : Stmt :=
  let carryHold := Math_sin (time * 4) * 0.3 in
  setWrist carryHold 0 0 ;;
  flatHand.

(** case 'LIFT' *)
Definition gesture_LIFT (time : num) : Stmt :=
  let liftUp := Math_sin (time * 4) * 0.5 in
  setWrist 0 liftUp 0 ;;
  flatHand.

(** case 'DROP' *)
Definition gesture_DROP (time : num) : Stmt :=
  let dropDown := Math_sin (time * 8) * - 0.6 in
  setWrist 0 dropDown 0 ;;
  flatHand.

(** case 'MOVE' *)
Definition gesture_MOVE (time : num) : Stmt :=
  let moveSide := Math_sin (time * 4) * 0.4 in
  setWrist moveSide 0 0 ;;
  flatHand.

(** case 'TURN' *)
Definition gesture_TURN (time : num) : Stmt :=
  let turnRot := Math_sin (time * 3) * 0.5 in
  setWrist turnRot (turnRot * 0.5) 0 ;;
  pointIndex.

(** case 'SPIN' *)
Definition gesture_SPIN (time : num) : Stmt :=
  let spinRot := Math_sin (time * 8) in
  setWrist 0 (spinRot * 0.5) 0 ;;
  pointIndex.

(** case 'ROLL' *)
Definition gesture_ROLL (time : num) : Stmt :=
  let rollRot := Math_sin (time * 5) in
  setWrist (rollRot * 0.3) (rollRot * 0.3) 0 ;;
  fist.

(** case 'SLIDE' *)
Definition gesture_SLIDE (time : num) : Stmt :=
  let slideSmooth := Math_sin (time * 3) * 0.6 in
  setWrist slideSmooth 0 0 ;;
  flatHand.

(** case 'SHAKE' *)
Definition gesture_SHAKE (time : num) : Stmt :=
  let shakeVigorous := Math_sin (time * 12) * 0.3 in
  setWrist shakeVigorous 0 0 ;;
  fist.

(** case 'WAVE' *)
Definition gesture_WAVE (time : num) : Stmt :=
  let waveHand := Math_sin (time * 6) * 0.5 in
  setWrist waveHand 0 0 ;;
  flatHand.

(** case 'POINT' *)
Definition gesture_POINT (time : num) : Stmt :=
  let pointDir := Math_sin (time * 4) * 0.4 in
  setWrist 0 0 pointDir ;;
  pointIndex.

(** case 'GRAB' *)
Definition gesture_GRAB (time : num) : Stmt :=
  let grabClose := Math_abs (Math_sin (time * 5)) in
  setWrist 0 0 (grabClose * 0.2) ;;
  fist.

(** case 'HOLD' *)
Definition gesture_HOLD (time : num) : Stmt :=
  setWrist 0 0.2 0 ;;
  fist.

(** case 'RELEASE' *)
Definition gesture_RELEASE (time : num) : Stmt :=
  let releaseOpen := Math_sin (time * 5) in
  setWrist 0 0 (releaseOpen * 0.2) ;;
  flatHand.

(** case 'BREAK' *)
Definition gesture_BREAK (time : num) : Stmt :=
  let breakSnap := Math_sin (time * 8) * 0.4 in
  setWrist breakSnap 0 0 ;;
  fist.

(** case 'FIX' *)
Definition gesture_FIX (time : num) : Stmt :=
  let fixTap := Math_abs (Math_sin (time * 8)) * 0.3 in
  setWrist fixTap 0 0 ;;
  setFace Index 0.5 ;;
  setFace Middle 0.5.

(** case 'BUILD' *)
Definition gesture_BUILD (time : num) : Stmt :=
  let buildStack := Math_sin (time * 5) * 0.4 in
  setWrist 0 buildStack 0 ;;
  flatHand.

(** case 'CREATE' *)
Definition gesture_CREATE (time : num) : Stmt :=
  let createFlow := Math_sin (time * 3) * 0.4 in
  setWrist createFlow (createFlow * 0.2) 0 ;;
  setFace Index 0.3 ;;
  setFace Middle 0.3 ;;
  setFace Ring 0.3 ;;
  setFace Pinky 0.3.

(** case 'DESTROY' *)
Definition gesture_DESTROY (time : num) : Stmt :=
  let destroyCrush := Math_sin (time * 5) * 0.5 in
  setWrist 0 0 destroyCrush ;;
  fist.

(** case 'OPEN' *)
Definition gesture_OPEN (time : num) : Stmt :=
  let openHands := Math_sin (time * 4) * 0.6 in
  setWrist openHands 0 0 ;;
  flatHand.

(** case 'CLOSE' *)
Definition gesture_CLOSE (time : num) : Stmt :=
  let closeHands := Math_sin (time * 4) * - 0.6 in
  setWrist closeHands 0 0 ;;
  flatHand.

(** case 'CUT' *)
Definition gesture_CUT (time : num) : Stmt :=
  let cutScissor := Math_sin (time * 8) * 0.3 in
  setWrist 0 cutScissor 0 ;;
  setFace Index 0 ;;
  setFace Middle 0 ;;
  forEach [Ring; Pinky; Thumb] (fun f => setFace f 1.5).

(** case 'POUR' *)
Definition gesture_POUR (time : num) : Stmt :=
  let pourTilt := Math_sin (time * 4) * 0.5 in
  setWrist pourTilt 0 0 ;;
  setFace Thumb 0.5 ;;
  forEach [Index; Middle; Ring; Pinky] (fun f => setFace f 0.5).

(** case 'MIX' *)
Definition gesture_MIX (time : num) : Stmt :=
  let mixCircle := Math_sin (time * 6) * 0.3 in
  setWrist mixCircle mixCircle 0 ;;
  setFace Thumb 0.5 ;;
  forEach [Index; Middle; Ring; Pinky] (fun f => setFace f 0.5).

(** case 'STIR' *)
Definition gesture_STIR (time : num) : Stmt :=
  let stirCircle := Math_sin (time * 7) * 0.2 in
  setWrist stirCircle stirCircle 0 ;;
  fist.

(** case 'COOK' *)
Definition gesture_COOK (time : num) : Stmt :=
  let cookFlip := Math_sin (time * 5) * 0.4 in
  setWrist 0 cookFlip 0 ;;
  flatHand.

(** case 'BAKE' *)
Definition gesture_BAKE (time : num) : Stmt :=
  let bakeSlide := Math_sin (time * 3) * 0.5 in
  setWrist 0 0 bakeSlide ;;
  flatHand.

(** case 'FRY' *)
Definition gesture_FRY (time : num) : Stmt :=
  let frySizzle := Math_sin (time * 10) * 0.1 in
  setWrist frySizzle 0 0 ;;
  flatHand.

(** case 'BOIL' *)
Definition gesture_BOIL (time : num) : Stmt :=
  let boilBubble := Math_sin (time * 8) * 0.2 in
  setWrist 0 boilBubble 0 ;;
  setFace Thumb 0.5 ;;
  forEach [Index; Middle; Ring; Pinky] (fun f => setFace f (0.2 + Math_sin (time * 10) * 0.1)).

(** case 'WASH' *)
Definition gesture_WASH (time : num) : Stmt :=
  let washRub := Math_sin (time * 6) * 0.3 in
  setWrist 0 0 washRub ;;
  fist.

(** case 'CLEAN' *)
Definition gesture_CLEAN (time : num) : Stmt :=
  let cleanWipe := Math_sin (time * 4) * 0.6 in
  setWrist cleanWipe 0 0 ;;
  flatHand.

(** case 'WIPE' *)
Definition gesture_WIPE (time : num) : Stmt :=
  let wipeSide := Math_sin (time * 5) * 0.5 in
  setWrist wipeSide 0 0 ;;
  flatHand.

(** case 'SCRUB' *)
Definition gesture_SCRUB (time : num) : Stmt :=
  let scrubHard := Math_sin (time * 8) * 0.3 in
  setWrist scrubHard scrubHard 0 ;;
  fist.

(** case 'FOLD' *)
Definition gesture_FOLD (time : num) : Stmt :=
  let foldOver := Math_sin (time * 3) * 0.4 in
  setWrist foldOver 0 0 ;;
  flatHand.

(** case 'HANG' *)
Definition gesture_HANG (time : num) : Stmt :=
  let hangHook := Math_sin (time * 4) * 0.2 in
  setWrist 0 hangHook 0 ;;
  setFace Index 0.8 ;;
  forEach [Thumb; Middle; Ring; Pinky] (fun f => setFace f 1.5).

(** case 'PACK' *)
Definition gesture_PACK (time : num) : Stmt :=
  let packStuff := Math_sin (time * 5) * 0.3 in
  setWrist 0 0 packStuff ;;
  flatHand ;;
  setFace Thumb 1.0 ;;
  forEach [Index; Middle; Ring; Pinky] (fun f => setFace f 1.0).

(** case 'UNPACK' *)
Definition gesture_UNPACK (time : num) : Stmt :=
  let unpackOut := Math_sin (time * 5) * - 0.3 in
  setWrist 0 0 unpackOut ;;
  flatHand.

(** case 'WRAP' *)
Definition gesture_WRAP (time : num) : Stmt :=
  let wrapAround := Math_sin (time * 4) * 0.3 in
  setWrist wrapAround 0 0 ;;
  flatHand.

(** case 'UNWRAP' *)
Definition gesture_UNWRAP (time : num) : Stmt :=
  let unwrapOpen := Math_sin (time * 4) * - 0.3 in
  setWrist unwrapOpen 0 0 ;;
  flatHand.

(** case 'TIE' *)
Definition gesture_TIE (time : num) : Stmt :=
  let tieKnot := Math_sin (time * 5) * 0.2 in
  setWrist tieKnot 0 0 ;;
  setFace Thumb 0.5 ;;
  setFace Index 1.5 ;;
  forEach [Middle; Ring; Pinky] (fun f => setFace f 1.5).

(** case 'UNTIE' *)
Definition gesture_UNTIE (time : num) : Stmt :=
  let untiePull := Math_sin (time * 5) * - 0.2 in
  setWrist untiePull 0 0 ;;
  setFace Thumb 0.5 ;;
  setFace Index 1.5 ;;
  forEach [Middle; Ring; Pinky] (fun f => setFace f 1.5).

(** case 'TALK' *)
Definition gesture_TALK (time : num) : Stmt :=
  let talkTap := Math_abs (Math_sin (time * 8)) * 0.2 in
  setWrist talkTap 0 0 ;;
  pointIndex ;;
  setFace Middle 0 ;;
  setFace Ring 0 ;;
  setFace Pinky 0.

(** case 'SPEAK' *)
Definition gesture_SPEAK (time : num) : Stmt :=
  let speakOut := Math_sin (time * 5) * 0.3 in
  setWrist speakOut 0 0 ;;
  flatHand.

(** case 'SAY' *)
Definition gesture_SAY (time : num) : Stmt :=
  let sayChin := Math_sin (time * 4) * 0.2 in
  setWrist sayChin 0 0 ;;
  pointIndex.

(** case 'TELL' *)
Definition gesture_TELL (time : num) : Stmt :=
  let tellOut := Math_sin (time * 4) * 0.4 in
  setWrist 0 0 tellOut ;;
  pointIndex.

(** case 'ASK' *)
Definition gesture_ASK (time : num) : Stmt :=
  let askPray := Math_sin (time * 3) * 0.3 in
  setWrist 0 askPray 0 ;;
  flatHand.

(** case 'ANSWER' *)
Definition gesture_ANSWER (time : num) : Stmt :=
  let answerOut := Math_sin (time * 4) * 0.4 in
  setWrist answerOut 0 0 ;;
  pointIndex.

(** case 'CALL' *)
Definition gesture_CALL (time : num) : Stmt :=
  let callPhone := Math_sin (time * 3) * 0.2 in
  setWrist (callPhone + 0.3) 0 0 ;;
  setFace Thumb 0 ;;
  setFace Pinky 0 ;;
  forEach [Index; Middle; Ring] (fun f => setFace f 1.5).

(** case 'SHOUT' *)
Definition gesture_SHOUT (time : num) : Stmt :=
  let shoutWide := Math_sin (time * 5) * 0.5 in
  setWrist shoutWide 0 (shoutWide * 0.5) ;;
  setFace Thumb 0.5 ;;
  forEach [Index; Middle; Ring; Pinky] (fun f => setFace f 0.5).

(** case 'WHISPER' *)
Definition gesture_WHISPER (time : num) : Stmt :=
  let whisperCover := Math_sin (time * 2) * 0.1 in
  setWrist (whisperCover + 0.2) 0 0.3 ;;
  flatHand.

(** case 'SING' *)
Definition gesture_SING (time : num) : Stmt :=
  let singFlow := Math_sin (time * 4) * 0.4 in
  setWrist singFlow 0 0 ;;
  flatHand.

(** case 'READ' *)
Definition gesture_READ (time : num) : Stmt :=
  let readScan := Math_sin (time * 5) * 0.3 in
  setWrist 0 readScan 0 ;;
  setFace Index 0 ;;
  setFace Middle 0 ;;
  forEach [Thumb; Ring; Pinky] (fun f => setFace f 1.5).

(** case 'WRITE' *)
Definition gesture_WRITE (time : num) : Stmt :=
  let writeScribble := Math_sin (time * 10) * 0.1 in
  setWrist writeScribble writeScribble 0 ;;
  setFace Thumb 0 ;;
  setFace Index 0 ;;
  forEach [Middle; Ring; Pinky] (fun f => setFace f 1.5).

(** case 'DRAW' *)
Definition gesture_DRAW (time : num) : Stmt :=
  let drawLine := Math_sin (time * 4) * 0.3 in
  setWrist drawLine drawLine 0 ;;
  setFace Pinky 0 ;;
  forEach [Thumb; Index; Middle; Ring] (fun f => setFace f 1.5).

(** case 'SIGN' *)
Definition gesture_SIGN (time : num) : Stmt :=
  let signCircle := Math_sin (time * 8) * 0.3 in
  setWrist signCircle signCircle 0 ;;
  pointIndex.

(** case 'COMMUNICATE' *)
Definition gesture_COMMUNICATE (time : num) : Stmt :=
  let commBackForth := Math_sin (time * 6) * 0.4 in
  setWrist 0 0 commBackForth ;;
  setFace Thumb 0.5 ;;
  forEach [Index; Middle; Ring; Pinky] (fun f => setFace f 0.5).

(** case 'EXPLAIN' *)
Definition gesture_EXPLAIN (time : num) : Stmt :=
  let explainPull := Math_sin (time * 5) * 0.3 in
  setWrist 0 0 explainPull ;;
  setFace Thumb 1.0 ;;
  setFace Index 1.0 ;;
  forEach [Middle; Ring; Pinky] (fun f => setFace f 0).

(** case 'DESCRIBE' *)
Definition gesture_DESCRIBE (time : num) : Stmt :=
  let descPull := Math_sin (time * 5) * 0.3 in
  setWrist 0 0 descPull ;;
  setFace Thumb 1.0 ;;
  setFace Index 1.0 ;;
  forEach [Middle; Ring; Pinky] (fun f => setFace f 0).

(** case 'DISCUSS' *)
Definition gesture_DISCUSS (time : num) : Stmt :=
  let discussTap := Math_abs (Math_sin (time * 6)) * 0.2 in
  setWrist discussTap 0 0 ;;
  pointIndex.

(** case 'ARGUE' *)
Definition gesture_ARGUE (time : num) : Stmt :=
  let arguePoint := Math_sin (time * 8) * 0.4 in
  setWrist 0 arguePoint 0 ;;
  pointIndex.

(** case 'AGREE' *)
Definition gesture_AGREE (time : num) : Stmt :=
  let agreeNod := Math_sin (time * 4) * 0.3 in
  setWrist agreeNod 0 0 ;;
  setFace Thumb 0 ;;
  setFace Pinky 0 ;;
  forEach [Index; Middle; Ring] (fun f => setFace f 1.5).

(** case 'DISAGREE' *)
Definition gesture_DISAGREE (time : num) : Stmt :=
  let disagreeShake := Math_sin (time * 6) * 0.3 in
  setWrist (- 0.2) disagreeShake 0 ;;
  pointIndex.

(** case 'PROMISE' *)
Definition gesture_PROMISE (time : num) : Stmt :=
  let promiseSeal := Math_sin (time * 3) * 0.2 in
  setWrist 0 0 promiseSeal ;;
  pointIndex.

(** case 'WARN' *)
Definition gesture_WARN (time : num) : Stmt :=
  let warnTap := Math_abs (Math_sin (time * 6)) * 0.2 in
  setWrist 0 0 warnTap ;;
  flatHand.

(** case 'ADVISE' *)
Definition gesture_ADVISE (time : num) : Stmt :=
  let adviseGive := Math_sin (time * 4) * 0.3 in
  setWrist 0 0 adviseGive ;;
  setFace Thumb 0.8 ;;
  forEach [Index; Middle; Ring; Pinky] (fun f => setFace f 0.8).

(** case 'SUGGEST' *)
Definition gesture_SUGGEST (time : num) : Stmt :=
  let suggestUp := Math_sin (time * 4) * 0.3 in
  setWrist 0 suggestUp 0 ;;
  setFace Index 0 ;;
  setFace Middle 0 ;;
  forEach [Thumb; Ring; Pinky] (fun f => setFace f 1.5).

(** case 'REQUEST' *)
Definition gesture_REQUEST (time : num) : Stmt :=
  let reqPull := Math_sin (time * 4) * - 0.2 in
  setWrist reqPull 0 0 ;;
  flatHand.

(** case 'DEMAND' *)
Definition gesture_DEMAND (time : num) : Stmt :=
  let demandPoint := Math_sin (time * 4) * 0.3 in
  setWrist 0 demandPoint 0 ;;
  pointIndex.

(** case 'ORDER' *)
Definition gesture_ORDER (time : num) : Stmt :=
  let orderPoint := Math_sin (time * 4) * 0.4 in
  setWrist orderPoint 0 0 ;;
  pointIndex.

(** case 'INVITE' *)
Definition gesture_INVITE (time : num) : Stmt :=
  let inviteSweep := Math_sin (time * 4) * - 0.3 in
  setWrist 0 0 inviteSweep ;;
  flatHand.

(** case 'GREET' *)
Definition gesture_GREET (time : num) : Stmt :=
  let greetWave := Math_sin (time * 5) * 0.4 in
  setWrist greetWave 0 0 ;;
  flatHand.

(** case 'INTRODUCE' *)
Definition gesture_INTRODUCE (time : num) : Stmt :=
  let introSweep := Math_sin (time * 4) * 0.3 in
  setWrist introSweep 0 0 ;;
  flatHand.

(** case 'APOLOGIZE' *)
Definition gesture_APOLOGIZE (time : num) : Stmt :=
  let apologyRub := Math_sin (time * 3) * 0.2 in
  setWrist apologyRub 0 0 ;;
  fist.

(** case 'COMPLAIN' *)
Definition gesture_COMPLAIN (time : num) : Stmt :=
  let complainTap := Math_abs (Math_sin (time * 6)) * 0.2 in
  setWrist complainTap 0 0 ;;
  setFace Thumb 0.5 ;;
  forEach [Index; Middle; Ring; Pinky] (fun f => setFace f 0.5).

(** case 'PRAISE' *)
Definition gesture_PRAISE (time : num) : Stmt :=
  let praiseClap := Math_abs (Math_sin (time * 8)) * 0.3 in
  setWrist 0 praiseClap 0 ;;
  flatHand.

(** case 'CRITICIZE' *)
Definition gesture_CRITICIZE (time : num) : Stmt :=
  let critSlash := Math_sin (time * 5) * 0.3 in
  setWrist critSlash (- critSlash) 0 ;;
  pointIndex.

(** case 'THINK' *)
Definition gesture_THINK_2 (time : num) : Stmt :=
  let thinkTap := Math_sin (time * 4) * 0.2 in
  setWrist (thinkTap + 0.3) 0 0 ;;
  pointIndex.

(** case 'KNOW' *)
Definition gesture_KNOW_2 (time : num) : Stmt :=
  let knowingTap := Math_sin (time * 4) * 0.2 in
  setWrist (knowingTap + 0.3) 0 0 ;;
  flatHand.

(** case 'UNDERSTAND' *)
Definition gesture_UNDERSTAND_2 (time : num) : Stmt :=
  let underFlick := Math_abs (Math_sin (time * 6)) * 0.3 in
  setWrist (underFlick + 0.3) 0 0 ;;
  pointIndex.

(** case 'BELIEVE' *)
Definition gesture_BELIEVE (time : num) : Stmt :=
  let believeClasp := Math_sin (time * 3) * 0.3 in
  setWrist believeClasp 0 0 ;;
  flatHand.

(** case 'REMEMBER' *)
Definition gesture_REMEMBER_2 (time : num) : Stmt :=
  let rememberThumb := Math_sin (time * 2) * 0.2 in
  setWrist (rememberThumb + 0.3) 0 0 ;;
  setFace Thumb 0 ;;
  forEach [Index; Middle; Ring; Pinky] (fun f => setFace f 1.5).

(** case 'FORGET' *)
Definition gesture_FORGET_2 (time : num) : Stmt :=
  let forgetSwipe := Math_sin (time * 5) * 0.3 in
  setWrist (forgetSwipe + 0.3) 0 0 ;;
  flatHand.

(** case 'LEARN' *)
Definition gesture_LEARN_2 (time : num) : Stmt :=
  let learnAbsorb := Math_sin (time * 4) * 0.2 in
  setWrist (learnAbsorb + 0.2) 0 0 ;;
  flatHand.

(** case 'TEACH' *)
Definition gesture_TEACH (time : num) : Stmt :=
  let teachOut := Math_sin (time * 4) * 0.3 in
  setWrist (teachOut + 0.3) 0 0 ;;
  setFace Thumb 1.0 ;;
  forEach [Index; Middle; Ring; Pinky] (fun f => setFace f 1.0).

(** case 'DECIDE' *)
Definition gesture_DECIDE (time : num) : Stmt :=
  let decideDown := Math_sin (time * 4) * 0.4 in
  setWrist 0 decideDown 0 ;;
  setFace Thumb 0.5 ;;
  setFace Index 0.5 ;;
  forEach [Middle; Ring; Pinky] (fun f => setFace f 0).

(** case 'CHOOSE' *)
Definition gesture_CHOOSE (time : num) : Stmt :=
  let choosePick := Math_sin (time * 3) * 0.3 in
  setWrist 0 0 choosePick ;;
  setFace Thumb 0.8 ;;
  setFace Index 0.8 ;;
  forEach [Middle; Ring; Pinky] (fun f => setFace f 1.5).

(** case 'IMAGINE' *)
Definition gesture_IMAGINE (time : num) : Stmt :=
  let imagineSpiral := Math_sin (time * 5) * 0.2 in
  setWrist (imagineSpiral + 0.3) imagineSpiral 0 ;;
  setFace Pinky 0 ;;
  forEach [Thumb; Index; Middle; Ring] (fun f => setFace f 1.5).

(** case 'DREAM' *)
Definition gesture_DREAM (time : num) : Stmt :=
  let dreamSquig := Math_sin (time * 4) * 0.3 in
  setWrist (dreamSquig + 0.3) 0 0 ;;
  pointIndex.

(** case 'WONDER' *)
Definition gesture_WONDER (time : num) : Stmt :=
  let wonderCircle := Math_sin (time * 3) * 0.2 in
  setWrist (wonderCircle + 0.3) 0 0 ;;
  pointIndex.

(** case 'GUESS' *)
Definition gesture_GUESS (time : num) : Stmt :=
  let guessSwipe := Math_sin (time * 5) * 0.3 in
  setWrist (guessSwipe + 0.3) 0 0 ;;
  setFace Thumb 0.5 ;;
  forEach [Index; Middle; Ring; Pinky] (fun f => setFace f 0.5).

(** case 'DOUBT' *)
Definition gesture_DOUBT (time : num) : Stmt :=
  let doubtShake := Math_sin (time * 6) * 0.2 in
  setWrist 0 doubtShake 0 ;;
  setFace Index 0 ;;
  setFace Middle 0 ;;
  forEach [Thumb; Ring; Pinky] (fun f => setFace f 1.5).

(** case 'TRUST' *)
Definition gesture_TRUST (time : num) : Stmt :=
  let trustHold := Math_sin (time * 3) * 0.2 in
  setWrist 0 0 trustHold ;;
  fist.

(** case 'HOPE' *)
Definition gesture_HOPE (time : num) : Stmt :=
  let hopeCross := Math_sin (time * 3) * 0.2 in
  setWrist (hopeCross + 0.2) 0 0 ;;
  setFace Index 0 ;;
  setFace Middle 0 ;;
  forEach [Thumb; Ring; Pinky] (fun f => setFace f 1.5).

(** case 'WISH' *)
Definition gesture_WISH (time : num) : Stmt :=
  let wishDown := Math_sin (time * 3) * 0.3 in
  setWrist wishDown 0 0 ;;
  setFace Thumb 0.5 ;;
  forEach [Index; Middle; Ring; Pinky] (fun f => setFace f 0.5).

(** case 'EXPECT' *)
Definition gesture_EXPECT (time : num) : Stmt :=
  let expectFlick := Math_sin (time * 5) * 0.2 in
  setWrist (expectFlick + 0.2) 0 0 ;;
  pointIndex.

(** case 'PLAN' *)
Definition gesture_PLAN (time : num) : Stmt :=
  let planSweep := Math_sin (time * 4) * 0.4 in
  setWrist 0 planSweep 0 ;;
  flatHand.

(** case 'PREPARE' *)
Definition gesture_PREPARE (time : num) : Stmt :=
  let prepShake := Math_sin (time * 6) * 0.2 in
  setWrist 0 prepShake 0 ;;
  setFace Thumb 0.5 ;;
  setFace Index 1.5 ;;
  forEach [Middle; Ring; Pinky] (fun f => setFace f 1.5).

(** case 'CONSIDER' *)
Definition gesture_CONSIDER (time : num) : Stmt :=
  let considerCircle := Math_sin (time * 3) * 0.2 in
  setWrist (considerCircle + 0.2) 0 0 ;;
  setFace Thumb 1.0 ;;
  forEach [Index; Middle; Ring; Pinky] (fun f => setFace f 1.0).

(** case 'REALIZE' *)
Definition gesture_REALIZE (time : num) : Stmt :=
  let realTap := Math_abs (Math_sin (time * 8)) * 0.2 in
  setWrist (realTap + 0.2) 0 0 ;;
  pointIndex.

(** case 'RECOGNIZE' *)
Definition gesture_RECOGNIZE (time : num) : Stmt :=
  let recPoint := Math_sin (time * 4) * 0.3 in
  setWrist (recPoint + 0.2) 0 0 ;;
  pointIndex.

(** case 'NOTICE' *)
Definition gesture_NOTICE (time : num) : Stmt :=
  let noticePoint := Math_sin (time * 4) * 0.3 in
  setWrist 0 0 noticePoint ;;
  setFace Index 0.7 ;;
  forEach [Thumb; Middle; Ring; Pinky] (fun f => setFace f 1.5).

(** case 'FOCUS' *)
Definition gesture_FOCUS (time : num) : Stmt :=
  let focusNarrow := Math_sin (time * 4) * 0.3 in
  setWrist (focusNarrow + 0.2) 0 0 ;;
  flatHand.

(** case 'CONCENTRATE' *)
Definition gesture_CONCENTRATE (time : num) : Stmt :=
  let concCircle := Math_sin (time * 2) * 0.1 in
  setWrist (concCircle + 0.2) 0 0 ;;
  fist.

(** case 'ANALYZE' *)
Definition gesture_ANALYZE (time : num) : Stmt :=
  let analyzeV := Math_sin (time * 4) * 0.3 in
  setWrist 0 analyzeV 0 ;;
  setFace Index 0 ;;
  setFace Middle 0 ;;
  forEach [Thumb; Ring; Pinky] (fun f => setFace f 1.5).

(** case 'COMPARE' *)
Definition gesture_COMPARE (time : num) : Stmt :=
  let compBalance := Math_sin (time * 3) * 0.3 in
  setWrist 0 compBalance 0 ;;
  flatHand.

(** case 'JUDGE' *)
Definition gesture_JUDGE (time : num) : Stmt :=
  let judgeAlt := Math_sin (time * 4) * 0.3 in
  setWrist 0 judgeAlt 0 ;;
  setFace Thumb 0.5 ;;
  setFace Index 0.5 ;;
  forEach [Middle; Ring; Pinky] (fun f => setFace f 0).

(** case 'EVALUATE' *)
Definition gesture_EVALUATE (time : num) : Stmt :=
  let evalCircle := Math_sin (time * 3) * 0.3 in
  setWrist 0 evalCircle 0 ;;
  setFace Thumb 1.5 ;;
  forEach [Index; Middle; Ring; Pinky] (fun f => setFace f 1.5).

(** case 'SEE' *)
Definition gesture_SEE_2 (time : num) : Stmt :=
  let seeTap := Math_sin (time * 5) * 0.2 in
  setWrist (seeTap + 0.2) 0 0 ;;
  setFace Index 0 ;;
  setFace Middle 0 ;;
  forEach [Thumb; Ring; Pinky] (fun f => setFace f 1.5).

(** case 'LOOK' *)
Definition gesture_LOOK (time : num) : Stmt :=
  let lookPoint := Math_sin (time * 4) * 0.3 in
  setWrist 0 0 lookPoint ;;
  setFace Index 0 ;;
  setFace Middle 0 ;;
  forEach [Thumb; Ring; Pinky] (fun f => setFace f 1.5).

(** case 'WATCH' *)
Definition gesture_WATCH (time : num) : Stmt :=
  let watchStare := Math_sin (time * 2) * 0.1 in
  setWrist 0 0 (watchStare + 0.1) ;;
  setFace Index 0 ;;
  setFace Middle 0 ;;
  forEach [Thumb; Ring; Pinky] (fun f => setFace f 1.5).

(** case 'HEAR' *)
Definition gesture_HEAR_2 (time : num) : Stmt :=
  let hearTap := Math_abs (Math_sin (time * 6)) * 0.2 in
  setWrist (hearTap + 0.2) 0 0 ;;
  pointIndex.

(** case 'LISTEN' *)
Definition gesture_LISTEN (time : num) : Stmt :=
  let listenCup := Math_sin (time * 4) * 0.2 in
  setWrist (listenCup + 0.2) 0 0 ;;
  setFace Thumb 0.2 ;;
  forEach [Index; Middle; Ring; Pinky] (fun f => setFace f 0.2).

(** case 'FEEL' *)
Definition gesture_FEEL_2 (time : num) : Stmt :=
  let feelChest := Math_sin (time * 4) * 0.2 in
  setWrist feelChest 0 0 ;;
  setFace Middle 0 ;;
  forEach [Thumb; Index; Ring; Pinky] (fun f => setFace f 1.5).

(** case 'TOUCH' *)
Definition gesture_TOUCH (time : num) : Stmt :=
  let touchTap := Math_abs (Math_sin (time * 6)) * 0.2 in
  setWrist 0 0 touchTap ;;
  setFace Middle 0 ;;
  forEach [Thumb; Index; Ring; Pinky] (fun f => setFace f 1.5).

(** case 'SMELL' *)
Definition gesture_SMELL (time : num) : Stmt :=
  let smellWaft := Math_sin (time * 4) * 0.2 in
  setWrist (smellWaft + 0.2) 0 0 ;;
  flatHand.

(** case 'TASTE' *)
Definition gesture_TASTE (time : num) : Stmt :=
  let tasteTap := Math_abs (Math_sin (time * 6)) * 0.2 in
  setWrist tasteTap 0 0 ;;
  setFace Middle 0 ;;
  forEach [Thumb; Index; Ring; Pinky] (fun f => setFace f 1.5).

(** case 'SENSE' *)
Definition gesture_SENSE (time : num) : Stmt :=
  let senseVibe := Math_sin (time * 10) * 0.1 in
  setWrist senseVibe 0 0 ;;
  flatHand.

(** case 'OBSERVE' *)
Definition gesture_OBSERVE (time : num) : Stmt :=
  let obsStare := Math_sin (time * 3) * 0.2 in
  setWrist 0 0 obsStare ;;
  setFace Index 0 ;;
  setFace Middle 0 ;;
  forEach [Thumb; Ring; Pinky] (fun f => setFace f 1.5).

(** case 'STARE' *)
Definition gesture_STARE (time : num) : Stmt :=
  let stareIntense := Math_sin (time * 2) * 0.1 in
  setWrist 0 0 (stareIntense + 0.2) ;;
  setFace Thumb 1.5 ;;
  forEach [Index; Middle; Ring; Pinky] (fun f => setFace f 0).

(** case 'GLANCE' *)
Definition gesture_GLANCE (time : num) : Stmt :=
  let glanceQuick := Math_sin (time * 8) * 0.3 in
  setWrist (glanceQuick + 0.2) glanceQuick 0 ;;
  setFace Index 0 ;;
  setFace Middle 0.

(** case 'PEEK' *)
Definition gesture_PEEK (time : num) : Stmt :=
  let peekCover := Math_sin (time * 3) * 0.3 in
  setWrist (peekCover + 0.2) 0 0 ;;
  setFace Thumb 1.0 ;;
  forEach [Index; Middle; Ring; Pinky] (fun f => setFace f 1.0).

(** case 'SEARCH' *)
Definition gesture_SEARCH (time : num) : Stmt :=
  let searchCircle := Math_sin (time * 5) * 0.3 in
  setWrist (searchCircle + 0.2) searchCircle 0 ;;
  setFace Thumb 0.5 ;;
  forEach [Index; Middle; Ring; Pinky] (fun f => setFace f 0.5).

(** case 'FIND' *)
Definition gesture_FIND (time : num) : Stmt :=
  let findPick := Math_sin (time * 6) * 0.4 in
  setWrist 0 findPick 0 ;;
  setFace Thumb 0.8 ;;
  setFace Index 0.8 ;;
  forEach [Middle; Ring; Pinky] (fun f => setFace f 0).

(** case 'DISCOVER' *)
Definition gesture_DISCOVER (time : num) : Stmt :=
  let discFound := Math_sin (time * 6) * 0.4 in
  setWrist 0 discFound 0 ;;
  setFace Thumb 1.5 ;;
  forEach [Index; Middle; Ring; Pinky] (fun f => setFace f 1.5).

(** case 'SPOT' *)
Definition gesture_SPOT (time : num) : Stmt :=
  let spotPoint := Math_sin (time * 8) * 0.5 in
  setWrist 0 0 spotPoint ;;
  pointIndex.

(** case 'DETECT' *)
Definition gesture_DETECT (time : num) : Stmt :=
  let detectSense := Math_sin (time * 4) * 0.2 in
  setWrist (detectSense + 0.2) 0 0 ;;
  setFace Middle 0 ;;
  forEach [Thumb; Index; Ring; Pinky] (fun f => setFace f 1.5).

(** case 'BE' *)
Definition gesture_BE (time : num) : Stmt :=
  let beHold := Math_sin (time * 3) * 0.2 in
  setWrist 0 beHold 0 ;;
  flatHand.

(** case 'HAVE' *)
Definition gesture_HAVE (time : num) : Stmt :=
  let haveIn := Math_sin (time * 4) * 0.3 in
  setWrist haveIn 0 0 ;;
  flatHand.

(** case 'BECOME' *)
Definition gesture_BECOME (time : num) : Stmt :=
  let becomeTwist := Math_sin (time * 4) * 0.4 in
  setWrist becomeTwist becomeTwist 0 ;;
  flatHand.

(** case 'STAY' *)
Definition gesture_STAY (time : num) : Stmt :=
  let stayPush := Math_sin (time * 5) * 0.4 in
  setWrist 0 0 stayPush ;;
  setFace Thumb 0 ;;
  setFace Pinky 0 ;;
  forEach [Index; Middle; Ring] (fun f => setFace f 1.5).

(** case 'REMAIN' *)
Definition gesture_REMAIN (time : num) : Stmt :=
  let remainDown := Math_sin (time * 3) * 0.3 in
  setWrist 0 0 remainDown ;;
  setFace Thumb 0 ;;
  setFace Pinky 0 ;;
  forEach [Index; Middle; Ring] (fun f => setFace f 1.5).

(** case 'SEEM' *)
Definition gesture_SEEM (time : num) : Stmt :=
  let seemTurn := Math_sin (time * 4) * 0.2 in
  setWrist seemTurn 0 0 ;;
  flatHand.

(** case 'APPEAR' *)
Definition gesture_APPEAR (time : num) : Stmt :=
  let appearPop := Math_abs (Math_sin (time * 6)) * 0.4 in
  setWrist 0 appearPop 0 ;;
  pointIndex.

(** case 'EXIST' *)
Definition gesture_EXIST (time : num) : Stmt :=
  let existDown := Math_sin (time * 3) * 0.2 in
  setWrist existDown 0 0 ;;
  flatHand.

(** case 'LIVE' *)
Definition gesture_LIVE (time : num) : Stmt :=
  let liveUp := Math_sin (time * 4) * 0.4 in
  setWrist 0 liveUp 0 ;;
  setFace Thumb 0 ;;
  setFace Index 0 ;;
  forEach [Middle; Ring; Pinky] (fun f => setFace f 1.5).

(** case 'DIE' *)
Definition gesture_DIE (time : num) : Stmt :=
  let dieFlip := Math_sin (time * 4) * 0.5 in
  setWrist dieFlip 0 0 ;;
  flatHand.

(** case 'BELONG' *)
Definition gesture_BELONG (time : num) : Stmt :=
  let belongConnect := Math_sin (time * 4) * 0.3 in
  setWrist belongConnect 0 0 ;;
  setFace Thumb 0.8 ;;
  setFace Index 0.8 ;;
  forEach [Middle; Ring; Pinky] (fun f => setFace f 0).

(** case 'CONTAIN' *)
Definition gesture_CONTAIN (time : num) : Stmt :=
  let containCup := Math_sin (time * 3) * 0.3 in
  setWrist 0 containCup 0 ;;
  setFace Thumb 0.5 ;;
  forEach [Index; Middle; Ring; Pinky] (fun f => setFace f 0.5).

(** case 'INCLUDE' *)
Definition gesture_INCLUDE (time : num) : Stmt :=
  let includeSweep := Math_sin (time * 4) * 0.4 in
  setWrist includeSweep 0 0 ;;
  flatHand.

(** case 'INVOLVE' *)
Definition gesture_INVOLVE (time : num) : Stmt :=
  let involveCir := Math_sin (time * 4) * 0.3 in
  setWrist involveCir 0 0 ;;
  setFace Thumb 0.5 ;;
  forEach [Index; Middle; Ring; Pinky] (fun f => setFace f 0.5).

(** case 'REQUIRE' *)
Definition gesture_REQUIRE (time : num) : Stmt :=
  let reqPullIn := Math_sin (time * 5) * 0.3 in
  setWrist reqPullIn 0 0 ;;
  setFace Index 0.7 ;;
  forEach [Thumb; Middle; Ring; Pinky] (fun f => setFace f 1.5).

(** case 'HATE' *)
Definition gesture_HATE (time : num) : Stmt :=
  let hateFlick := Math_sin (time * 6) * 0.4 in
  setWrist hateFlick 0 0 ;;
  setFace Middle 0 ;;
  forEach [Thumb; Index; Ring; Pinky] (fun f => setFace f 1.5).

(** case 'PREFER' *)
Definition gesture_PREFER (time : num) : Stmt :=
  let preferTouch := Math_sin (time * 4) * 0.2 in
  setWrist preferTouch 0 0 ;;
  setFace Middle 0 ;;
  forEach [Thumb; Index; Ring; Pinky] (fun f => setFace f 1.5).

(** case 'DESERVE' *)
Definition gesture_DESERVE (time : num) : Stmt :=
  let deserveTap := Math_sin (time * 5) * 0.3 in
  setWrist 0 0 deserveTap ;;
  flatHand.

(** case 'OWE' *)
Definition gesture_OWE (time : num) : Stmt :=
  let owePoint := Math_sin (time * 4) * 0.3 in
  setWrist owePoint 0 0 ;;
  pointIndex.

(** case 'OWN' *)
Definition gesture_OWN (time : num) : Stmt :=
  let ownIn := Math_sin (time * 3) * 0.3 in
  setWrist ownIn 0 0 ;;
  flatHand.

(** case 'POSSESS' *)
Definition gesture_POSSESS (time : num) : Stmt :=
  let possessChest := Math_sin (time * 3) * 0.3 in
  setWrist possessChest 0 0 ;;
  flatHand.

(** case 'OFFICE' *)
Definition gesture_OFFICE (time : num) : Stmt :=
  let officeWall := Math_sin (time * 4) * 0.3 in
  setWrist 0 officeWall 0 ;;
  setFace Thumb 1.0 ;;
  forEach [Index; Middle; Ring; Pinky] (fun f => setFace f 1.0).

(** case 'GARDEN' *)
Definition gesture_GARDEN (time : num) : Stmt :=
  let gardenBloom := Math_sin (time * 4) * 0.3 in
  setWrist 0 gardenBloom 0 ;;
  setFace Thumb 1.0 ;;
  forEach [Index; Middle; Ring; Pinky] (fun f => setFace f (0.5 + Math_sin (time * 5) * 0.5)).

(** case 'YARD' *)
Definition gesture_YARD (time : num) : Stmt :=
  let yardZone := Math_sin (time * 4) * 0.4 in
  setWrist yardZone 0 0 ;;
  setFace Thumb 0 ;;
  setFace Pinky 0 ;;
  forEach [Index; Middle; Ring] (fun f => setFace f 1.5).

(** case 'MOUNTAIN' *)
Definition gesture_MOUNTAIN (time : num) : Stmt :=
  let mtnSlope := Math_sin (time * 4) * 0.5 in
  setWrist mtnSlope (mtnSlope * 0.5) 0 ;;
  fist.

(** case 'FOREST' *)
Definition gesture_FOREST (time : num) : Stmt :=
  let forestTree := Math_sin (time * 5) * 0.3 in
  setWrist forestTree 0 0 ;;
  flatHand.

(** case 'LAKE' *)
Definition gesture_LAKE (time : num) : Stmt :=
  let lakeSplash := Math_sin (time * 4) * 0.3 in
  setWrist 0 lakeSplash 0 ;;
  setFace Thumb 0 ;;
  setFace Index 0 ;;
  forEach [Middle; Ring; Pinky] (fun f => setFace f 1.5).

(** case 'RIVER' *)
Definition gesture_RIVER (time : num) : Stmt :=
  let riverFlow := Math_sin (time * 3) * 0.4 in
  setWrist riverFlow 0 0 ;;
  setFace Thumb 1.5 ;;
  forEach [Index; Middle; Ring] (fun f => setFace f 0) ;;
  setFace Pinky 1.5.

(** case 'OCEAN' *)
Definition gesture_OCEAN (time : num) : Stmt :=
  let oceanWave := Math_sin (time * 3) * 0.5 in
  setWrist oceanWave 0 (oceanWave * 0.2) ;;
  setFace Thumb 1.5 ;;
  forEach [Index; Middle; Ring] (fun f => setFace f 0) ;;
  setFace Pinky 1.5.

(** case 'RESTAURANT' *)
Definition gesture_RESTAURANT (time : num) : Stmt :=
  let restWipe := Math_sin (time * 5) * 0.3 in
  setWrist restWipe 0 0 ;;
  setFace Index 0 ;;
  setFace Middle 0 ;;
  forEach [Thumb; Ring; Pinky] (fun f => setFace f 1.5).

(** case 'CAFE' *)
Definition gesture_CAFE (time : num) : Stmt :=
  let cafeDrink := Math_sin (time * 4) * 0.2 in
  setWrist cafeDrink 0 0 ;;
  setFace Thumb 0.5 ;;
  forEach [Index; Middle; Ring; Pinky] (fun f => setFace f 0.5).

(** case 'BAR' *)
Definition gesture_BAR (time : num) : Stmt :=
  let barThumb := Math_sin (time * 4) * 0.2 in
  setWrist barThumb 0 0 ;;
  fist.

(** case 'LIBRARY' *)
Definition gesture_LIBRARY (time : num) : Stmt :=
  let libCircle := Math_sin (time * 4) * 0.3 in
  setWrist libCircle libCircle 0 ;;
  setFace Thumb 0 ;;
  setFace Index 0 ;;
  forEach [Middle; Ring; Pinky] (fun f => setFace f 1.5).

(** case 'MUSEUM' *)
Definition gesture_MUSEUM (time : num) : Stmt :=
  let musM := Math_sin (time * 4) * 0.3 in
  setWrist musM 0 0 ;;
  setFace Thumb 1.5 ;;
  forEach [Index; Middle; Ring] (fun f => setFace f 0) ;;
  setFace Pinky 1.5.

(** case 'THEATER' *)
Definition gesture_THEATER (time : num) : Stmt :=
  let theaterActs := Math_sin (time * 4) * 0.4 in
  setWrist theaterActs 0 0 ;;
  fist.

(** case 'CINEMA' *)
Definition gesture_CINEMA (time : num) : Stmt :=
  let cinemaFlick := Math_sin (time * 6) * 0.3 in
  setWrist cinemaFlick 0 0 ;;
  flatHand.

(** case 'GYM' *)
Definition gesture_GYM (time : num) : Stmt :=
  let gymRep := Math_sin (time * 5) * 0.4 in
  setWrist gymRep 0 0 ;;
  fist.

(** case 'STADIUM' *)
Definition gesture_STADIUM (time : num) : Stmt :=
  let stadArena := Math_sin (time * 4) * 0.5 in
  setWrist 0 stadArena 0 ;;
  setFace Thumb 0.5 ;;
  forEach [Index; Middle; Ring; Pinky] (fun f => setFace f 0.5).

(** case 'ARENA' *)
Definition gesture_ARENA (time : num) : Stmt :=
  let arenaArea := Math_sin (time * 4) * 0.5 in
  setWrist 0 arenaArea 0 ;;
  flatHand.

(** case 'BANK' *)
Definition gesture_BANK (time : num) : Stmt :=
  let bankStack := Math_sin (time * 5) * 0.3 in
  setWrist bankStack 0 0 ;;
  setFace Thumb 0 ;;
  forEach [Index; Middle; Ring; Pinky] (fun f => setFace f 0).

(** case 'HOTEL' *)
Definition gesture_HOTEL (time : num) : Stmt :=
  let hotelFlag := Math_sin (time * 4) * 0.3 in
  setWrist 0 hotelFlag 0 ;;
  setFace Index 0 ;;
  setFace Middle 0 ;;
  forEach [Thumb; Ring; Pinky] (fun f => setFace f 1.5).

(** case 'MOTEL' *)
Definition gesture_MOTEL (time : num) : Stmt :=
  let motelM := Math_sin (time * 4) * 0.3 in
  setWrist 0 motelM 0 ;;
  setFace Thumb 1.5 ;;
  setFace Pinky 1.5 ;;
  forEach [Index; Middle; Ring] (fun f => setFace f 0).

(** case 'AIRPORT' *)
Definition gesture_AIRPORT (time : num) : Stmt :=
  let airFly := Math_sin (time * 5) * 0.5 in
  setWrist airFly 0 (airFly * 0.3) ;;
  setFace Thumb 0 ;;
  setFace Index 0 ;;
  setFace Pinky 0 ;;
  forEach [Middle; Ring] (fun f => setFace f 1.5).

(** case 'STATION' *)
Definition gesture_STATION (time : num) : Stmt :=
  let statBase := Math_sin (time * 2) * 0.2 in
  setWrist statBase 0 0 ;;
  flatHand.

(** case 'PORT' *)
Definition gesture_PORT (time : num) : Stmt :=
  let portDock := Math_sin (time * 3) * 0.3 in
  setWrist portDock 0 0 ;;
  flatHand.

(** case 'CITY' *)
Definition gesture_CITY (time : num) : Stmt :=
  let cityTwist := Math_sin (time * 4) * 0.3 in
  setWrist cityTwist cityTwist 0 ;;
  setFace Thumb 0 ;;
  forEach [Index; Middle; Ring; Pinky] (fun f => setFace f 0).

(** case 'TOWN' *)
Definition gesture_TOWN (time : num) : Stmt :=
  let townRoof := Math_sin (time * 3) * 0.3 in
  setWrist townRoof 0 0 ;;
  flatHand.

(** case 'VILLAGE' *)
Definition gesture_VILLAGE (time : num) : Stmt :=
  let villV := Math_sin (time * 3) * 0.3 in
  setWrist villV 0 0 ;;
  setFace Index 0 ;;
  setFace Middle 0 ;;
  forEach [Thumb; Ring; Pinky] (fun f => setFace f 1.5).

(** case 'COUNTRY' *)
Definition gesture_COUNTRY (time : num) : Stmt :=
  let countryRub := Math_sin (time * 4) * 0.3 in
  setWrist countryRub 0 0 ;;
  setFace Thumb 0 ;;
  setFace Pinky 0 ;;
  forEach [Index; Middle; Ring] (fun f => setFace f 1.5).

(** case 'STATE' *)
Definition gesture_STATE (time : num) : Stmt :=
  let stateS := Math_sin (time * 3) * 0.3 in
  setWrist stateS 0 0 ;;
  fist.

(** case 'WORLD' *)
Definition gesture_WORLD (time : num) : Stmt :=
  let worldCir := Math_sin (time * 3) * 0.4 in
  setWrist worldCir worldCir 0 ;;
  setFace Thumb 1.5 ;;
  setFace Pinky 1.5 ;;
  forEach [Index; Middle; Ring] (fun f => setFace f 0).

(** case 'ROOM' *)
Definition gesture_ROOM (time : num) : Stmt :=
  let roomBox := Math_sin (time * 4) * 0.4 in
  setWrist roomBox 0 0 ;;
  flatHand.

(** case 'KITCHEN' *)
Definition gesture_KITCHEN (time : num) : Stmt :=
  let kitchK := Math_sin (time * 4) * 0.3 in
  setWrist kitchK 0 0 ;;
  setFace Thumb 0 ;;
  setFace Index 0 ;;
  setFace Middle 0 ;;
  forEach [Ring; Pinky] (fun f => setFace f 1.5).

(** case 'BATHROOM' *)
Definition gesture_BATHROOM (time : num) : Stmt :=
  let bathT := Math_sin (time * 6) * 0.2 in
  setWrist bathT 0 0 ;;
  setFace Thumb 0.5 ;;
  setFace Index 1.5 ;;
  forEach [Middle; Ring; Pinky] (fun f => setFace f 1.5).

(** case 'BEDROOM' *)
Definition gesture_BEDROOM (time : num) : Stmt :=
  let bedSleep2 := Math_sin (time * 2) * 0.3 in
  setWrist bedSleep2 0 0 ;;
  flatHand.

(** case 'LIVING' *)
Definition gesture_LIVING (time : num) : Stmt :=
  let livingL := Math_sin (time * 3) * 0.3 in
  setWrist livingL 0 0 ;;
  fist.

(** case 'DINING' *)
Definition gesture_DINING (time : num) : Stmt :=
  let dineEat := Math_sin (time * 5) * 0.3 in
  setWrist dineEat 0 0 ;;
  setFace Thumb 0.7 ;;
  forEach [Index; Middle; Ring; Pinky] (fun f => setFace f 0.7).

(** case 'GARAGE' *)
Definition gesture_GARAGE (time : num) : Stmt :=
  let garageCar := Math_sin (time * 4) * 0.3 in
  setWrist garageCar 0 0 ;;
  setFace Thumb 1.5 ;;
  forEach [Index; Middle; Ring; Pinky] (fun f => setFace f 0).

(** case 'BASEMENT' *)
Definition gesture_BASEMENT (time : num) : Stmt :=
  let baseUnder := Math_sin (time * 4) * 0.3 in
  setWrist 0 (- baseUnder) 0 ;;
  thumbsUp.

(** case 'ATTIC' *)
Definition gesture_ATTIC (time : num) : Stmt :=
  let atticTop := Math_sin (time * 4) * 0.3 in
  setWrist 0 atticTop 0 ;;
  fist.

(** case 'FLOOR' *)
Definition gesture_FLOOR (time : num) : Stmt :=
  let floorFlat := Math_sin (time * 4) * 0.4 in
  setWrist floorFlat 0 0 ;;
  flatHand.

(** case 'CEILING' *)
Definition gesture_CEILING (time : num) : Stmt :=
  let ceilUp := Math_sin (time * 4) * 0.4 in
  setWrist ceilUp 0.5 0 ;;
  flatHand.

(** case 'WALL' *)
Definition gesture_WALL (time : num) : Stmt :=
  let wallSide := Math_sin (time * 4) * 0.4 in
  setWrist 0 wallSide 0 ;;
  flatHand.

(** case 'CORNER' *)
Definition gesture_CORNER (time : num) : Stmt :=
  let cornerMeet := Math_sin (time * 3) * 0.2 in
  setWrist cornerMeet 0 0 ;;
  flatHand.

(** case 'HALLWAY' *)
Definition gesture_HALLWAY (time : num) : Stmt :=
  let hallWay := Math_sin (time * 4) * 0.4 in
  setWrist 0 0 hallWay ;;
  flatHand.

(** case 'STAIRS' *)
Definition gesture_STAIRS (time : num) : Stmt :=
  let stairClimb := Math_sin (time * 6) * 0.4 in
  setWrist 0 stairClimb (stairClimb * 0.5) ;;
  setFace Index 0 ;;
  setFace Middle 0 ;;
  forEach [Thumb; Ring; Pinky] (fun f => setFace f 1.5).

(** case 'ELEVATOR' *)
Definition gesture_ELEVATOR (time : num) : Stmt :=
  let elevUp := Math_sin (time * 4) * 0.4 in
  setWrist 0 elevUp 0 ;;
  setFace Thumb 1.5 ;;
  forEach [Index; Middle; Ring; Pinky] (fun f => setFace f 1.5).

(** case 'LOBBY' *)
Definition gesture_LOBBY (time : num) : Stmt :=
  let lobbyL := Math_sin (time * 5) * 0.3 in
  setWrist lobbyL 0 0 ;;
  setFace Thumb 0 ;;
  setFace Index 0 ;;
  forEach [Middle; Ring; Pinky] (fun f => setFace f 1.5).

(** case 'ENTRANCE' *)
Definition gesture_ENTRANCE (time : num) : Stmt :=
  let enterScoop := Math_sin (time * 4) * 0.3 in
  setWrist 0 0 enterScoop ;;
  flatHand.

(** case 'EXIT' *)
Definition gesture_EXIT (time : num) : Stmt :=
  let exitPoint := Math_sin (time * 4) * 0.3 in
  setWrist exitPoint 0 0 ;;
  pointIndex.

(** case 'STREET' / case 'ROAD' / case 'HIGHWAY' / case 'PATH' *)
Definition gesture_STREET (time : num) : Stmt :=
  let roadPath := Math_sin (time * 4) * 0.5 in
  setWrist 0 0 roadPath ;;
  flatHand.

(** case 'SIDEWALK' *)
Definition gesture_SIDEWALK (time : num) : Stmt :=
  let sidePath := Math_sin (time * 4) * 0.4 in
  setWrist sidePath 0 sidePath ;;
  flatHand.

(** case 'BRIDGE' *)
Definition gesture_BRIDGE (time : num) : Stmt :=
  let bridgeArc := Math_sin (time * 3) * 0.3 in
  setWrist 0 bridgeArc 0 ;;
  setFace Index 0 ;;
  setFace Middle 0 ;;
  forEach [Thumb; Ring; Pinky] (fun f => setFace f 1.5).

(** case 'TUNNEL' *)
Definition gesture_TUNNEL (time : num) : Stmt :=
  let tunnelThru := Math_sin (time * 4) * 0.4 in
  setWrist 0 0 tunnelThru ;;
  flatHand.

(** case 'INTERSECTION' *)
Definition gesture_INTERSECTION (time : num) : Stmt :=
  let interCross := Math_sin (time * 3) * 0.2 in
  setWrist interCross 0 0 ;;
  pointIndex.

(** case 'NEIGHBORHOOD' *)
Definition gesture_NEIGHBORHOOD (time : num) : Stmt :=
  let neighborHouse := Math_sin (time * 4) * 0.3 in
  setWrist neighborHouse 0 0 ;;
  flatHand.

(** case 'DOWNTOWN' *)
Definition gesture_DOWNTOWN (time : num) : Stmt :=
  let downT := Math_sin (time * 4) * 0.3 in
  setWrist downT (- downT) 0 ;;
  pointIndex.

(** case 'SUBURB' *)
Definition gesture_SUBURB (time : num) : Stmt :=
  let subArea := Math_sin (time * 4) * 0.4 in
  setWrist subArea 0 0 ;;
  flatHand.

(** case 'SON' *)
Definition gesture_SON (time : num) : Stmt :=
  let sonSalute := Math_sin (time * 4) * 0.3 in
  setWrist (sonSalute + 0.3) 0 0 ;;
  setFace Index 0 ;;
  setFace Middle 0 ;;
  forEach [Thumb; Ring; Pinky] (fun f => setFace f 1.5).

(** case 'DAUGHTER' *)
Definition gesture_DAUGHTER (time : num) : Stmt :=
  let daughtLine := Math_sin (time * 4) * 0.3 in
  setWrist daughtLine 0 0 ;;
  flatHand.

(** case 'PARENT' *)
Definition gesture_PARENT (time : num) : Stmt :=
  let parentP := Math_sin (time * 4) * 0.3 in
  setWrist (parentP + 0.3) 0 0 ;;
  setFace Thumb 1.5 ;;
  setFace Index 0 ;;
  forEach [Middle; Ring; Pinky] (fun f => setFace f 1.5).

(** case 'GRANDMA' / case 'GRANDMOTHER' *)
Definition gesture_GRANDMA (time : num) : Stmt :=
  let gmaBump := Math_sin (time * 4) * 0.3 in
  setWrist gmaBump 0 0 ;;
  flatHand.

(** case 'GRANDPA' / case 'GRANDFATHER' *)
Definition gesture_GRANDPA (time : num) : Stmt :=
  let gpaBump := Math_sin (time * 4) * 0.3 in
  setWrist (gpaBump + 0.3) 0 0 ;;
  flatHand.

(** case 'AUNT' *)
Definition gesture_AUNT (time : num) : Stmt :=
  let auntA := Math_sin (time * 5) * 0.2 in
  setWrist auntA 0 0 ;;
  fist.

(** case 'UNCLE' *)
Definition gesture_UNCLE (time : num) : Stmt :=
  let uncleU := Math_sin (time * 5) * 0.2 in
  setWrist (uncleU + 0.3) 0 0 ;;
  setFace Index 0 ;;
  setFace Middle 0 ;;
  forEach [Thumb; Ring; Pinky] (fun f => setFace f 1.5).

(** case 'COUSIN' *)
Definition gesture_COUSIN (time : num) : Stmt :=
  let cousinC := Math_sin (time * 5) * 0.2 in
  setWrist (cousinC + 0.2) 0 0 ;;
  setFace Thumb 0.5 ;;
  forEach [Index; Middle; Ring; Pinky] (fun f => setFace f 0.5).

(** case 'NIECE' *)
Definition gesture_NIECE (time : num) : Stmt :=
  let nieceN := Math_sin (time * 4) * 0.2 in
  setWrist nieceN 0 0 ;;
  setFace Thumb 1.5 ;;
  forEach [Index; Middle; Ring; Pinky] (fun f => setFace f 1.5).

(** case 'NEPHEW' *)
Definition gesture_NEPHEW (time : num) : Stmt :=
  let nephewN := Math_sin (time * 4) * 0.2 in
  setWrist (nephewN + 0.3) 0 0 ;;
  setFace Thumb 1.5 ;;
  forEach [Index; Middle; Ring; Pinky] (fun f => setFace f 1.5).

(** case 'NEIGHBOR' *)
Definition gesture_NEIGHBOR (time : num) : Stmt :=
  let neighborSide := Math_sin (time * 4) * 0.3 in
  setWrist neighborSide 0 0 ;;
  flatHand.

(** case 'STRANGER' *)
Definition gesture_STRANGER (time : num) : Stmt :=
  let strangerLook := Math_sin (time * 3) * 0.3 in
  setWrist 0 0 strangerLook ;;
  setFace Index 0.5.

(** case 'PERSON' *)
Definition gesture_PERSON_2 (time : num) : Stmt :=
  let personP2 := Math_sin (time * 4) * 0.4 in
  setWrist 0 (- personP2) 0 ;;
  setFace Thumb 1.5 ;;
  setFace Index 0 ;;
  forEach [Middle; Ring; Pinky] (fun f => setFace f 1.5).

(** case 'PEOPLE' *)
Definition gesture_PEOPLE_2 (time : num) : Stmt :=
  let peopleCircle := Math_sin (time * 5) * 0.3 in
  setWrist peopleCircle peopleCircle 0 ;;
  setFace Thumb 1.5 ;;
  setFace Index 0 ;;
  forEach [Middle; Ring; Pinky] (fun f => setFace f 1.5).

(** case 'MAN' *)
Definition gesture_MAN (time : num) : Stmt :=
  let manChest := Math_sin (time * 3) * 0.3 in
  setWrist (manChest + 0.3) 0 0 ;;
  flatHand.

(** case 'WOMAN' *)
Definition gesture_WOMAN (time : num) : Stmt :=
  let womanChin := Math_sin (time * 3) * 0.3 in
  setWrist womanChin 0 0 ;;
  flatHand.

(** case 'BOY' *)
Definition gesture_BOY (time : num) : Stmt :=
  let boyCap := Math_sin (time * 4) * 0.2 in
  setWrist (boyCap + 0.3) 0 0 ;;
  setFace Thumb 0.5 ;;
  forEach [Index; Middle; Ring; Pinky] (fun f => setFace f 0.5).

(** case 'GIRL' *)
Definition gesture_GIRL (time : num) : Stmt :=
  let girlBonnet := Math_sin (time * 4) * 0.2 in
  setWrist girlBonnet 0 0 ;;
  fist.

(** case 'LAPTOP' *)
Definition gesture_LAPTOP (time : num) : Stmt :=
  let laptopOpen := Math_sin (time * 3) * 0.5 in
  setWrist laptopOpen 0 0 ;;
  flatHand.

(** case 'TABLET' *)
Definition gesture_TABLET (time : num) : Stmt :=
  let tabTap := Math_sin (time * 5) * 0.2 in
  setWrist 0 tabTap 0 ;;
  pointIndex.

(** case 'KEYBOARD' *)
Definition gesture_KEYBOARD (time : num) : Stmt :=
  let keyType := Math_sin (time * 12) * 0.1 in
  setWrist 0 0 keyType ;;
  setFace Thumb 0.5 ;;
  forEach [Index; Middle; Ring; Pinky] (fun f => withRandom (fun rnd => setFace f (0.2 + rnd * 0.3))).

(** case 'MOUSE' *)
Definition gesture_MOUSE (time : num) : Stmt :=
  let mouseClick := Math_sin (time * 8) * 0.1 in
  setWrist 0 0 mouseClick ;;
  setFace Index 0.2 ;;
  forEach [Thumb; Middle; Ring; Pinky] (fun f => setFace f 0.5).

(** case 'SCREEN' *)
Definition gesture_SCREEN (time : num) : Stmt :=
  let screenBox := Math_sin (time * 4) * 0.4 in
  setWrist screenBox 0 0 ;;
  setFace Thumb 1.5 ;;
  forEach [Index; Middle; Ring; Pinky] (fun f => setFace f 0).

(** case 'CAMERA' *)
Definition gesture_CAMERA (time : num) : Stmt :=
  let camClick := Math_sin (time * 3) * 0.1 in
  setWrist (camClick + 0.3) 0 0 ;;
  setFace Index 0.5 ;;
  setFace Thumb 0.5.

(** case 'BUS' *)
Definition gesture_BUS (time : num) : Stmt :=
  let busWheel := Math_sin (time * 3) * 0.4 in
  setWrist 0 busWheel 0 ;;
  fist.

(** case 'TRAIN' *)
Definition gesture_TRAIN (time : num) : Stmt :=
  let trainRide := Math_sin (time * 8) * 0.3 in
  setWrist 0 trainRide 0 ;;
  setFace Index 0 ;;
  setFace Middle 0 ;;
  forEach [Thumb; Ring; Pinky] (fun f => setFace f 1.5).

(** case 'PLANE' *)
Definition gesture_PLANE (time : num) : Stmt :=
  let planeFly := Math_sin (time * 5) * 0.5 in
  setWrist (planeFly + 0.3) 0 0 ;;
  setFace Thumb 0 ;;
  setFace Index 0 ;;
  setFace Pinky 0 ;;
  forEach [Middle; Ring] (fun f => setFace f 1.5).

(** case 'BOAT' *)
Definition gesture_BOAT (time : num) : Stmt :=
  let boatRock := Math_sin (time * 3) * 0.4 in
  setWrist 0 boatRock 0 ;;
  flatHand.

(** case 'BICYCLE' *)
Definition gesture_BICYCLE (time : num) : Stmt :=
  let bikePedal := Math_sin (time * 6) * 0.4 in
  setWrist bikePedal 0 0 ;;
  fist.

(** case 'DOOR' *)
Definition gesture_DOOR_2 (time : num) : Stmt :=
  let doorOpen := Math_sin (time * 3) * 0.6 in
  setWrist 0 0 doorOpen ;;
  flatHand.

(** case 'WINDOW' *)
Definition gesture_WINDOW (time : num) : Stmt :=
  let winUp := Math_sin (time * 3) * 0.4 in
  setWrist 0 winUp 0 ;;
  flatHand.

(** case 'CLOTHES' *)
Definition gesture_CLOTHES (time : num) : Stmt :=
  let clothRub := Math_sin (time * 4) * 0.3 in
  setWrist 0 (- clothRub) 0 ;;
  flatHand.

(** case 'SHOES' *)
Definition gesture_SHOES (time : num) : Stmt :=
  let shoeTap := Math_sin (time * 6) * 0.3 in
  setWrist shoeTap 0 0 ;;
  fist.

(** case 'FOOD' *)
Definition gesture_FOOD (time : num) : Stmt :=
  let foodMouth := Math_sin (time * 5) * 0.3 in
  setWrist foodMouth 0 0 ;;
  setFace Thumb 1.0 ;;
  forEach [Index; Middle; Ring; Pinky] (fun f => setFace f 1.0).

(** case 'WATER' *)
Definition gesture_WATER (time : num) : Stmt :=
  let waterTap := Math_sin (time * 4) * 0.2 in
  setWrist waterTap 0 0 ;;
  setFace Thumb 1.5 ;;
  forEach [Index; Middle; Ring] (fun f => setFace f 0) ;;
  setFace Pinky 1.5.

(** case 'DOG' *)
Definition gesture_DOG (time : num) : Stmt :=
  let dogSnap := Math_sin (time * 6) * 0.3 in
  setWrist dogSnap 0 0 ;;
  setFace Middle 0.5 ;;
  setFace Thumb 0.5.

(** case 'CAT' *)
Definition gesture_CAT (time : num) : Stmt :=
  let catWh := Math_sin (time * 4) * 0.3 in
  setWrist catWh 0 0 ;;
  setFace Thumb 0.5 ;;
  forEach [Index; Middle; Ring; Pinky] (fun f => setFace f 0.5).

(** case 'BIRD' *)
Definition gesture_BIRD (time : num) : Stmt :=
  let birdBeak := Math_sin (time * 8) * 0.2 in
  setWrist birdBeak 0 0 ;;
  setFace Index (0.8 * Math_abs (Math_sin (time * 5))) ;;
  setFace Thumb (0.8 * Math_abs (Math_sin (time * 5))).

(** case 'FISH' *)
Definition gesture_FISH (time : num) : Stmt :=
  let fishSwim := Math_sin (time * 6) * 0.4 in
  setWrist 0 fishSwim 0 ;;
  flatHand.

(** case 'HORSE' *)
Definition gesture_HORSE (time : num) : Stmt :=
  let horseEar := Math_sin (time * 5) * 0.2 in
  setWrist (horseEar + 0.3) 0 0 ;;
  setFace Index 0 ;;
  setFace Middle 0 ;;
  forEach [Thumb; Ring; Pinky] (fun f => setFace f 1.5).

(** case 'COW' *)
Definition gesture_COW (time : num) : Stmt :=
  let cowHorn := Math_sin (time * 4) * 0.3 in
  setWrist (cowHorn + 0.3) 0 0 ;;
  setFace Thumb 0 ;;
  setFace Pinky 0 ;;
  forEach [Index; Middle; Ring] (fun f => setFace f 1.5).

(** case 'PIG' *)
Definition gesture_PIG (time : num) : Stmt :=
  let pigChin := Math_sin (time * 5) * 0.2 in
  setWrist pigChin 0 0 ;;
  flatHand.

(** case 'POOL' *)
Definition gesture_POOL (time : num) : Stmt :=
  let poolSwim := Math_sin (time * 5) * 0.5 in
  setWrist poolSwim 0 0 ;;
  flatHand.

(** case 'TIME' *)
Definition gesture_TIME (time : num) : Stmt :=
  let timeTap := Math_sin (time * 4) * 0.2 in
  setWrist 0 timeTap timeTap ;;
  pointIndex.

(** case 'NOW' *)
Definition gesture_NOW (time : num) : Stmt :=
  let nowDown := Math_sin (time * 3) * 0.4 in
  setWrist 0 nowDown 0 ;;
  setFace Thumb 0 ;;
  setFace Pinky 0 ;;
  forEach [Index; Middle; Ring] (fun f => setFace f 1.5).

(** case 'DAY' *)
Definition gesture_DAY (time : num) : Stmt :=
  let dayArc := Math_sin (time * 3) * 0.6 in
  setWrist dayArc 0 0 ;;
  pointIndex.

(** case 'NIGHT' *)
Definition gesture_NIGHT (time : num) : Stmt :=
  let nightCover := Math_sin (time * 3) * 0.4 in
  setWrist 0 0 nightCover ;;
  flatHand.

(** case 'MORNING' *)
Definition gesture_MORNING (time : num) : Stmt :=
  let mornUp := Math_sin (time * 3) * 0.4 in
  setWrist mornUp 0 0 ;;
  flatHand.

(** case 'WEEK' *)
Definition gesture_WEEK (time : num) : Stmt :=
  let weekSlide := Math_sin (time * 4) * 0.4 in
  setWrist 0 weekSlide 0 ;;
  pointIndex.

(** case 'MONTH' *)
Definition gesture_MONTH (time : num) : Stmt :=
  let monthSlide := Math_sin (time * 4) * 0.4 in
  setWrist monthSlide 0 0 ;;
  pointIndex.

(** case 'YEAR' *)
Definition gesture_YEAR (time : num) : Stmt :=
  let yearCircle := Math_sin (time * 3) * 0.4 in
  setWrist yearCircle yearCircle 0 ;;
  fist.

(** case 'TODAY' *)
Definition gesture_TODAY (time : num) : Stmt :=
  let todayBounce := Math_sin (time * 5) * 0.3 in
  setWrist 0 todayBounce 0 ;;
  setFace Thumb 0 ;;
  setFace Pinky 0 ;;
  forEach [Index; Middle; Ring] (fun f => setFace f 1.5).

(** case 'TOMORROW' *)
Definition gesture_TOMORROW (time : num) : Stmt :=
  let tomThm := Math_sin (time * 4) * 0.3 in
  setWrist (tomThm + 0.3) 0 0 ;;
  setFace Thumb 0 ;;
  forEach [Index; Middle; Ring; Pinky] (fun f => setFace f 1.5).

(** case 'YESTERDAY' *)
Definition gesture_YESTERDAY (time : num) : Stmt :=
  let yestThm := Math_sin (time * 4) * 0.3 in
  setWrist (yestThm + 0.3) 0 0 ;;
  setFace Thumb 0 ;;
  forEach [Index; Middle; Ring; Pinky] (fun f => setFace f 1.5).

(** case 'HAPPY' *)
Definition gesture_HAPPY_2 (time : num) : Stmt :=
  let happyUp := Math_sin (time * 4) * 0.5 in
  setWrist happyUp 0 0 ;;
  flatHand.

(** case 'SAD' *)
Definition gesture_SAD_2 (time : num) : Stmt :=
  let sadDown := Math_sin (time * 3) * 0.4 in
  setWrist 0 (- sadDown) 0 ;;
  flatHand.

(** case 'ANGRY' *)
Definition gesture_ANGRY (time : num) : Stmt :=
  let angryClaw := Math_sin (time * 5) * 0.5 in
  setWrist angryClaw 0 0 ;;
  setFace Thumb 0.5 ;;
  forEach [Index; Middle; Ring; Pinky] (fun f => setFace f 0.8).

(** case 'RED' *)
Definition gesture_RED (time : num) : Stmt :=
  let redPull := Math_sin (time * 4) * 0.3 in
  setWrist redPull 0 0 ;;
  pointIndex.

(** case 'BLUE' *)
Definition gesture_BLUE (time : num) : Stmt :=
  let blueShake := Math_sin (time * 10) * 0.3 in
  setWrist blueShake 0 0 ;;
  flatHand.

(** case 'GREEN' *)
Definition gesture_GREEN (time : num) : Stmt :=
  let greenShake := Math_sin (time * 10) * 0.3 in
  setWrist greenShake 0 0 ;;
  setFace Thumb 0 ;;
  setFace Index 0 ;;
  forEach [Middle; Ring; Pinky] (fun f => setFace f 1.5).

(** case 'MANY' *)
Definition gesture_MANY (time : num) : Stmt :=
  let manyWiggle := Math_sin (time * 10) * 0.1 in
  setWrist 0 0 manyWiggle ;;
  flatHand.

(** The labels of the [switch], in source order, each with the body control
    reaches from it. *)
Definition gestureCatalog : list (string * (num -> Stmt)) :=
  [ ("HELLO", gesture_HELLO);
    ("GOODBYE", gesture_GOODBYE);
    ("YES", gesture_YES);
    ("NO", gesture_NO);
    ("THANK", gesture_THANK);
    ("PLEASE", gesture_PLEASE);
    ("SORRY", gesture_SORRY);
    ("I", gesture_I);
    ("ME", gesture_I);
    ("YOU", gesture_YOU);
    ("MY", gesture_MY);
    ("HE", gesture_HE);
    ("SHE", gesture_HE);
    ("IT", gesture_HE);
    ("WE", gesture_WE);
    ("THEY", gesture_THEY);
    ("WHAT", gesture_WHAT);
    ("WHERE", gesture_WHERE);
    ("WHEN", gesture_WHEN);
    ("WHO", gesture_WHO);
    ("WHY", gesture_WHY);
    ("HOW", gesture_HOW);
    ("GO", gesture_GO);
    ("COME", gesture_COME);
    ("EAT", gesture_EAT);
    ("DRINK", gesture_DRINK);
    ("SLEEP", gesture_SLEEP);
    ("WORK", gesture_WORK);
    ("PLAY", gesture_PLAY);
    ("LEARN", gesture_LEARN);
    ("KNOW", gesture_KNOW);
    ("THINK", gesture_THINK);
    ("SEE", gesture_SEE);
    ("HEAR", gesture_HEAR);
    ("FEEL", gesture_FEEL);
    ("UNDERSTAND", gesture_UNDERSTAND);
    ("REMEMBER", gesture_REMEMBER);
    ("FORGET", gesture_FORGET);
    ("HAPPY", gesture_HAPPY);
    ("SAD", gesture_SAD);
    ("HUNGRY", gesture_HUNGRY);
    ("THIRSTY", gesture_THIRSTY);
    ("GOOD", gesture_GOOD);
    ("BAD", gesture_BAD);
    ("WANT", gesture_WANT);
    ("NEED", gesture_NEED);
    ("LIKE", gesture_LIKE);
    ("LOVE", gesture_LOVE);
    ("HELP", gesture_HELP);
    ("MOTHER", gesture_MOTHER);
    ("MOM", gesture_MOTHER);
    ("FATHER", gesture_FATHER);
    ("DAD", gesture_FATHER);
    ("SISTER", gesture_SISTER);
    ("BROTHER", gesture_BROTHER);
    ("FAMILY", gesture_FAMILY);
    ("FRIEND", gesture_FRIEND);
    ("BABY", gesture_BABY);
    ("CHILD", gesture_CHILD);
    ("KIDS", gesture_CHILD);
    ("PERSON", gesture_PERSON);
    ("PEOPLE", gesture_PEOPLE);
    ("HOUSE", gesture_HOUSE);
    ("SCHOOL", gesture_HOUSE);
    ("BIG", gesture_HOUSE);
    ("SMALL", gesture_SMALL);
    ("MORE", gesture_MORE);
    ("DONE", gesture_DONE);
    ("FINISH", gesture_DONE);
    ("NOT", gesture_NOT);
    ("AGAIN", gesture_AGAIN);
    ("ALWAYS", gesture_ALWAYS);
    ("NEVER", gesture_ALWAYS);
    ("SOMETIMES", gesture_ALWAYS);
    ("HERE", gesture_HERE);
    ("THERE", gesture_HERE);
    ("UP", gesture_HERE);
    ("DOWN", gesture_HERE);
    ("IN", gesture_HERE);
    ("OUT", gesture_HERE);
    ("CAN", gesture_CAN);
    ("WILL", gesture_CAN);
    ("MUST", gesture_CAN);
    ("SHOULD", gesture_CAN);
    ("AND", gesture_AND);
    ("BUT", gesture_AND);
    ("OR", gesture_AND);
    ("IF", gesture_AND);
    ("BECAUSE", gesture_AND);
    ("NAME", gesture_NAME);
    ("PARK", gesture_PARK);
    ("HOUSE", gesture_HOUSE_2);
    ("HOME", gesture_HOUSE_2);
    ("SCHOOL", gesture_SCHOOL_2);
    ("STORE", gesture_STORE);
    ("SHOP", gesture_STORE);
    ("HOSPITAL", gesture_HOSPITAL);
    ("CHURCH", gesture_CHURCH);
    ("BEACH", gesture_BEACH);
    ("COFFEE", gesture_COFFEE);
    ("MILK", gesture_MILK);
    ("PIZZA", gesture_PIZZA);
    ("COOKIE", gesture_COOKIE);
    ("CAR", gesture_CAR);
    ("PHONE", gesture_PHONE);
    ("TELEPHONE", gesture_PHONE);
    ("COMPUTER", gesture_COMPUTER);
    ("BOOK", gesture_BOOK);
    ("DOOR", gesture_DOOR);
    ("CHAIR", gesture_CHAIR);
    ("TABLE", gesture_TABLE);
    ("BED", gesture_BED);
    ("MONEY", gesture_MONEY);
    ("BOWL", gesture_BOWL);
    ("RUN", gesture_RUN);
    ("WALK", gesture_WALK);
    ("JUMP", gesture_JUMP);
    ("SWIM", gesture_SWIM);
    ("FLY", gesture_FLY);
    ("DANCE", gesture_DANCE);
    ("PUSH", gesture_PUSH);
    ("PULL", gesture_PULL);
    ("THROW", gesture_THROW);
    ("CATCH", gesture_CATCH);
    ("HIT", gesture_HIT);
    ("KICK", gesture_KICK);
    ("CLIMB", gesture_CLIMB);
    ("FALL", gesture_FALL);
    ("CARRY", gesture_CARRY);
    ("LIFT", gesture_LIFT);
    ("DROP", gesture_DROP);
    ("MOVE", gesture_MOVE);
    ("TURN", gesture_TURN);
    ("SPIN", gesture_SPIN);
    ("ROLL", gesture_ROLL);
    ("SLIDE", gesture_SLIDE);
    ("SHAKE", gesture_SHAKE);
    ("WAVE", gesture_WAVE);
    ("POINT", gesture_POINT);
    ("GRAB", gesture_GRAB);
    ("HOLD", gesture_HOLD);
    ("RELEASE", gesture_RELEASE);
    ("BREAK", gesture_BREAK);
    ("FIX", gesture_FIX);
    ("BUILD", gesture_BUILD);
    ("CREATE", gesture_CREATE);
    ("DESTROY", gesture_DESTROY);
    ("OPEN", gesture_OPEN);
    ("CLOSE", gesture_CLOSE);
    ("CUT", gesture_CUT);
    ("POUR", gesture_POUR);
    ("MIX", gesture_MIX);
    ("STIR", gesture_STIR);
    ("COOK", gesture_COOK);
    ("BAKE", gesture_BAKE);
    ("FRY", gesture_FRY);
    ("BOIL", gesture_BOIL);
    ("WASH", gesture_WASH);
    ("CLEAN", gesture_CLEAN);
    ("WIPE", gesture_WIPE);
    ("SCRUB", gesture_SCRUB);
    ("FOLD", gesture_FOLD);
    ("HANG", gesture_HANG);
    ("PACK", gesture_PACK);
    ("UNPACK", gesture_UNPACK);
    ("WRAP", gesture_WRAP);
    ("UNWRAP", gesture_UNWRAP);
    ("TIE", gesture_TIE);
    ("UNTIE", gesture_UNTIE);
    ("TALK", gesture_TALK);
    ("SPEAK", gesture_SPEAK);
    ("SAY", gesture_SAY);
    ("TELL", gesture_TELL);
    ("ASK", gesture_ASK);
    ("ANSWER", gesture_ANSWER);
    ("CALL", gesture_CALL);
    ("SHOUT", gesture_SHOUT);
    ("WHISPER", gesture_WHISPER);
    ("SING", gesture_SING);
    ("READ", gesture_READ);
    ("WRITE", gesture_WRITE);
    ("DRAW", gesture_DRAW);
    ("SIGN", gesture_SIGN);
    ("COMMUNICATE", gesture_COMMUNICATE);
    ("EXPLAIN", gesture_EXPLAIN);
    ("DESCRIBE", gesture_DESCRIBE);
    ("DISCUSS", gesture_DISCUSS);
    ("ARGUE", gesture_ARGUE);
    ("AGREE", gesture_AGREE);
    ("DISAGREE", gesture_DISAGREE);
    ("PROMISE", gesture_PROMISE);
    ("WARN", gesture_WARN);
    ("ADVISE", gesture_ADVISE);
    ("SUGGEST", gesture_SUGGEST);
    ("REQUEST", gesture_REQUEST);
    ("DEMAND", gesture_DEMAND);
    ("ORDER", gesture_ORDER);
    ("INVITE", gesture_INVITE);
    ("GREET", gesture_GREET);
    ("INTRODUCE", gesture_INTRODUCE);
    ("APOLOGIZE", gesture_APOLOGIZE);
    ("COMPLAIN", gesture_COMPLAIN);
    ("PRAISE", gesture_PRAISE);
    ("CRITICIZE", gesture_CRITICIZE);
    ("THINK", gesture_THINK_2);
    ("KNOW", gesture_KNOW_2);
    ("UNDERSTAND", gesture_UNDERSTAND_2);
    ("BELIEVE", gesture_BELIEVE);
    ("REMEMBER", gesture_REMEMBER_2);
    ("FORGET", gesture_FORGET_2);
    ("LEARN", gesture_LEARN_2);
    ("TEACH", gesture_TEACH);
    ("DECIDE", gesture_DECIDE);
    ("CHOOSE", gesture_CHOOSE);
    ("IMAGINE", gesture_IMAGINE);
    ("DREAM", gesture_DREAM);
    ("WONDER", gesture_WONDER);
    ("GUESS", gesture_GUESS);
    ("DOUBT", gesture_DOUBT);
    ("TRUST", gesture_TRUST);
    ("HOPE", gesture_HOPE);
    ("WISH", gesture_WISH);
    ("EXPECT", gesture_EXPECT);
    ("PLAN", gesture_PLAN);
    ("PREPARE", gesture_PREPARE);
    ("CONSIDER", gesture_CONSIDER);
    ("REALIZE", gesture_REALIZE);
    ("RECOGNIZE", gesture_RECOGNIZE);
    ("NOTICE", gesture_NOTICE);
    ("FOCUS", gesture_FOCUS);
    ("CONCENTRATE", gesture_CONCENTRATE);
    ("ANALYZE", gesture_ANALYZE);
    ("COMPARE", gesture_COMPARE);
    ("JUDGE", gesture_JUDGE);
    ("EVALUATE", gesture_EVALUATE);
    ("SEE", gesture_SEE_2);
    ("LOOK", gesture_LOOK);
    ("WATCH", gesture_WATCH);
    ("HEAR", gesture_HEAR_2);
    ("LISTEN", gesture_LISTEN);
    ("FEEL", gesture_FEEL_2);
    ("TOUCH", gesture_TOUCH);
    ("SMELL", gesture_SMELL);
    ("TASTE", gesture_TASTE);
    ("SENSE", gesture_SENSE);
    ("OBSERVE", gesture_OBSERVE);
    ("STARE", gesture_STARE);
    ("GLANCE", gesture_GLANCE);
    ("PEEK", gesture_PEEK);
    ("SEARCH", gesture_SEARCH);
    ("FIND", gesture_FIND);
    ("DISCOVER", gesture_DISCOVER);
    ("SPOT", gesture_SPOT);
    ("DETECT", gesture_DETECT);
    ("BE", gesture_BE);
    ("HAVE", gesture_HAVE);
    ("BECOME", gesture_BECOME);
    ("STAY", gesture_STAY);
    ("REMAIN", gesture_REMAIN);
    ("SEEM", gesture_SEEM);
    ("APPEAR", gesture_APPEAR);
    ("EXIST", gesture_EXIST);
    ("LIVE", gesture_LIVE);
    ("DIE", gesture_DIE);
    ("BELONG", gesture_BELONG);
    ("CONTAIN", gesture_CONTAIN);
    ("INCLUDE", gesture_INCLUDE);
    ("INVOLVE", gesture_INVOLVE);
    ("REQUIRE", gesture_REQUIRE);
    ("HATE", gesture_HATE);
    ("PREFER", gesture_PREFER);
    ("DESERVE", gesture_DESERVE);
    ("OWE", gesture_OWE);
    ("OWN", gesture_OWN);
    ("POSSESS", gesture_POSSESS);
    ("OFFICE", gesture_OFFICE);
    ("GARDEN", gesture_GARDEN);
    ("YARD", gesture_YARD);
    ("MOUNTAIN", gesture_MOUNTAIN);
    ("FOREST", gesture_FOREST);
    ("LAKE", gesture_LAKE);
    ("RIVER", gesture_RIVER);
    ("OCEAN", gesture_OCEAN);
    ("RESTAURANT", gesture_RESTAURANT);
    ("CAFE", gesture_CAFE);
    ("BAR", gesture_BAR);
    ("LIBRARY", gesture_LIBRARY);
    ("MUSEUM", gesture_MUSEUM);
    ("THEATER", gesture_THEATER);
    ("CINEMA", gesture_CINEMA);
    ("GYM", gesture_GYM);
    ("STADIUM", gesture_STADIUM);
    ("ARENA", gesture_ARENA);
    ("BANK", gesture_BANK);
    ("HOTEL", gesture_HOTEL);
    ("MOTEL", gesture_MOTEL);
    ("AIRPORT", gesture_AIRPORT);
    ("STATION", gesture_STATION);
    ("PORT", gesture_PORT);
    ("CITY", gesture_CITY);
    ("TOWN", gesture_TOWN);
    ("VILLAGE", gesture_VILLAGE);
    ("COUNTRY", gesture_COUNTRY);
    ("STATE", gesture_STATE);
    ("WORLD", gesture_WORLD);
    ("ROOM", gesture_ROOM);
    ("KITCHEN", gesture_KITCHEN);
    ("BATHROOM", gesture_BATHROOM);
    ("BEDROOM", gesture_BEDROOM);
    ("LIVING", gesture_LIVING);
    ("DINING", gesture_DINING);
    ("GARAGE", gesture_GARAGE);
    ("BASEMENT", gesture_BASEMENT);
    ("ATTIC", gesture_ATTIC);
    ("FLOOR", gesture_FLOOR);
    ("CEILING", gesture_CEILING);
    ("WALL", gesture_WALL);
    ("CORNER", gesture_CORNER);
    ("HALLWAY", gesture_HALLWAY);
    ("STAIRS", gesture_STAIRS);
    ("ELEVATOR", gesture_ELEVATOR);
    ("LOBBY", gesture_LOBBY);
    ("ENTRANCE", gesture_ENTRANCE);
    ("EXIT", gesture_EXIT);
    ("STREET", gesture_STREET);
    ("ROAD", gesture_STREET);
    ("HIGHWAY", gesture_STREET);
    ("PATH", gesture_STREET);
    ("SIDEWALK", gesture_SIDEWALK);
    ("BRIDGE", gesture_BRIDGE);
    ("TUNNEL", gesture_TUNNEL);
    ("INTERSECTION", gesture_INTERSECTION);
    ("NEIGHBORHOOD", gesture_NEIGHBORHOOD);
    ("DOWNTOWN", gesture_DOWNTOWN);
    ("SUBURB", gesture_SUBURB);
    ("SON", gesture_SON);
    ("DAUGHTER", gesture_DAUGHTER);
    ("PARENT", gesture_PARENT);
    ("GRANDMA", gesture_GRANDMA);
    ("GRANDMOTHER", gesture_GRANDMA);
    ("GRANDPA", gesture_GRANDPA);
    ("GRANDFATHER", gesture_GRANDPA);
    ("AUNT", gesture_AUNT);
    ("UNCLE", gesture_UNCLE);
    ("COUSIN", gesture_COUSIN);
    ("NIECE", gesture_NIECE);
    ("NEPHEW", gesture_NEPHEW);
    ("NEIGHBOR", gesture_NEIGHBOR);
    ("STRANGER", gesture_STRANGER);
    ("PERSON", gesture_PERSON_2);
    ("PEOPLE", gesture_PEOPLE_2);
    ("MAN", gesture_MAN);
    ("WOMAN", gesture_WOMAN);
    ("BOY", gesture_BOY);
    ("GIRL", gesture_GIRL);
    ("LAPTOP", gesture_LAPTOP);
    ("TABLET", gesture_TABLET);
    ("KEYBOARD", gesture_KEYBOARD);
    ("MOUSE", gesture_MOUSE);
    ("SCREEN", gesture_SCREEN);
    ("CAMERA", gesture_CAMERA);
    ("BUS", gesture_BUS);
    ("TRAIN", gesture_TRAIN);
    ("PLANE", gesture_PLANE);
    ("BOAT", gesture_BOAT);
    ("BICYCLE", gesture_BICYCLE);
    ("DOOR", gesture_DOOR_2);
    ("WINDOW", gesture_WINDOW);
    ("CLOTHES", gesture_CLOTHES);
    ("SHOES", gesture_SHOES);
    ("FOOD", gesture_FOOD);
    ("WATER", gesture_WATER);
    ("DOG", gesture_DOG);
    ("CAT", gesture_CAT);
    ("BIRD", gesture_BIRD);
    ("FISH", gesture_FISH);
    ("HORSE", gesture_HORSE);
    ("COW", gesture_COW);
    ("PIG", gesture_PIG);
    ("POOL", gesture_POOL);
    ("TIME", gesture_TIME);
    ("NOW", gesture_NOW);
    ("DAY", gesture_DAY);
    ("NIGHT", gesture_NIGHT);
    ("MORNING", gesture_MORNING);
    ("WEEK", gesture_WEEK);
    ("MONTH", gesture_MONTH);
    ("YEAR", gesture_YEAR);
    ("TODAY", gesture_TODAY);
    ("TOMORROW", gesture_TOMORROW);
    ("YESTERDAY", gesture_YESTERDAY);
    ("HAPPY", gesture_HAPPY_2);
    ("SAD", gesture_SAD_2);
    ("ANGRY", gesture_ANGRY);
    ("RED", gesture_RED);
    ("BLUE", gesture_BLUE);
    ("GREEN", gesture_GREEN);
    ("MANY", gesture_MANY) ]%string.

(** [switch (state)]: the body of the first label equal to [state]. *)
Definition select_case (state : string) (cases : list (string * (num -> Stmt)))
  : option (num -> Stmt) :=
  js_get state cases.

(** [word.charCodeAt(0)]: [None] stands for the [NaN] of the empty string. *)
Definition charCodeAt0 (word : string) : option nat :=
  match word with
  | EmptyString => None
  | String c _ => Some (nat_of_ascii c)
  end.

Definition num_of_nat (n : nat) : num := Fin (INR n).

(** The [default:] branch of the [switch]. *)
Definition defaultGesture (word : string) (time : num) : Stmt :=
  let wordHash := (String.length word mod 5)%nat in
  let speed := 4 + num_of_nat wordHash in
  let amplitude : num := 0.5 in
  let motion := Math_sin (time * speed) * amplitude in
  let firstChar := option_map (fun c => (c mod 4)%nat) (charCodeAt0 word) in
  match firstChar with
  | Some 0%nat =>
      setWrist motion 0 (motion * 0.5) ;;
      flatHand
  | Some 1%nat =>
      setWrist 0 (motion * 0.5) motion ;;
      pointIndex
  | Some 2%nat =>
      setWrist (motion * 0.7) 0 0 ;;
      fist
  | _ =>
      setWrist 0 motion (motion * 0.3) ;;
      thumbsUp
  end.

(** [updateLogic(time)] *)
Definition updateLogic (time : num) : Stmt :=
  fun h w =>
    let state := animState h in
    if String.eqb state "IDLE" || String.eqb state "POSE" then
      idleSway time h w
    else
      match select_case state gestureCatalog with
      | Some gesture => gesture time h w
      | None => defaultGesture state time h w
      end.

(** [updateLerp()] *)
Definition updateLerp : Stmt :=
  let factor : num := 0.25 in
  (fun h w =>
     let c := currentState h in
     let t := targetState h in
     (withCurrent
        (mkPoseState
           (mkEuler (lerp (ex (wristRot c)) (ex (wristRot t)) factor)
                    (lerp (ey (wristRot c)) (ey (wristRot t)) factor)
                    (lerp (ez (wristRot c)) (ez (wristRot t)) factor))
           (fingerCurls c)) h, w)) ;;
  forEach [Thumb; Index; Middle; Ring; Pinky] (fun f h w =>
    let c := currentState h in
    let t := targetState h in
    (withCurrent
       (mkPoseState (wristRot c)
          (putCurl f (lerp (getCurl f (fingerCurls c)) (getCurl f (fingerCurls t)) factor)
                   (fingerCurls c))) h, w)).

(** [this.fingers[f]]: the segments of a finger, when the hand has it. *)
Fixpoint fingerObj (f : FingerName) (fs : list (FingerName * list num))
  : option (list num) :=
  match fs with
  | [] => None
  | (g, segs) :: rest => if FingerName_eqb g f then Some segs else fingerObj f rest
  end.

Fixpoint putSegments (f : FingerName) (segs : list num)
    (fs : list (FingerName * list num)) : list (FingerName * list num) :=
  match fs with
  | [] => []
  | (g, old) :: rest =>
      if FingerName_eqb g f then (g, segs) :: rest
      else (g, old) :: putSegments f segs rest
  end.

(** The body of the [for] loop of [applyToMesh]. *)
Definition applyFinger (f : FingerName) : Stmt :=
  fun h w =>
    let curl := getCurl f (fingerCurls (currentState h)) in
    match fingerObj f (fingers h) with
    | None => (h, w)
    | Some segments =>
        (mkRobotHand (side h) (wrist h)
                     (putSegments f (map (fun _ => curl) segments) (fingers h))
                     (targetState h) (currentState h) (animState h) (animStartTime h),
         w)
    end.

(** [applyToMesh()] *)
Definition applyToMesh : Stmt :=
  (fun h w =>
     (mkRobotHand (side h) (wristRot (currentState h)) (fingers h)
                  (targetState h) (currentState h) (animState h) (animStartTime h),
      w)) ;;
  forEach [Thumb; Index; Middle; Ring; Pinky] applyFinger.

(** The NaN guard of [update]. *)
Definition resetWristOnNaN : Stmt :=
  fun h w =>
    let r := wristRot (currentState h) in
    if isNaN (ex r) || isNaN (ey r) || isNaN (ez r) then
      (withCurrent (mkPoseState (mkEuler 0 0 0) (fingerCurls (currentState h))) h,
       console_write (console_error_NaN (side h) r) w)
    else (h, w).

(** [update(time)] *)
Definition update (time : num) : Stmt :=
  updateLogic time ;;
  updateLerp ;;
  resetWristOnNaN ;;
  applyToMesh.

End Hand.

(* ================================================================== *)
(** * String methods used by the sequencer                              *)
(* ================================================================== *)

(** [s.split(sep)] for a one-character separator. *)
Fixpoint split (sep : ascii) (s : string) : list string :=
  match s with
  | EmptyString => [EmptyString]
  | String c rest =>
      if Ascii.eqb c sep then EmptyString :: split sep rest
      else match split sep rest with
           | piece :: pieces => String c piece :: pieces
           | [] => [String c EmptyString]
           end
  end.

Definition upper_ascii (c : ascii) : ascii :=
  let n := nat_of_ascii c in
  if (97 <=? n)%nat && (n <=? 122)%nat then ascii_of_nat (n - 32) else c.

Definition lower_ascii (c : ascii) : ascii :=
  let n := nat_of_ascii c in
  if (65 <=? n)%nat && (n <=? 90)%nat then ascii_of_nat (n + 32) else c.

Fixpoint map_string (f : ascii -> ascii) (s : string) : string :=
  match s with
  | EmptyString => EmptyString
  | String c rest => String (f c) (map_string f rest)
  end.

Definition toUpperCase : string -> string := map_string upper_ascii.
Definition toLowerCase : string -> string := map_string lower_ascii.

(** [s.startsWith(p)] *)
Definition startsWith (s p : string) : bool := String.prefix p s.

(** Truthiness of a string: only the empty string is falsy. *)
Definition truthy (s : string) : bool :=
  match s with
  | EmptyString => false
  | String _ _ => true
  end.

(* ================================================================== *)
(** * RobotAvatar.ts: the sequencer                                     *)
(* ================================================================== *)

(** The element [#current-sign]: its text and its [style.opacity]. *)
Record SignDisplay : Type := mkSignDisplay {
  textContent : string;
  opacity : string
}.

Record RobotAvatar : Type := mkRobotAvatar {
  leftHand : RobotHand;
  rightHand : RobotHand;
  animationQueue : list string;
  isAnimating : bool;
  currentAnimationEnd : Z;
  signDisplay : option SignDisplay
}.

(** The constructor; [display] is what [document.getElementById('current-sign')]
    returned. *)
Definition newRobotAvatar (display : option SignDisplay) : RobotAvatar :=
  mkRobotAvatar (newRobotHand left) (newRobotHand right) [] false 0%Z display.

Definition AStmt : Type := RobotAvatar -> World -> RobotAvatar * World.

(** The methods of [class RobotAvatar]. *)
Module Avatar.

Definition withHands (l r : RobotHand) (a : RobotAvatar) : RobotAvatar :=
  mkRobotAvatar l r (animationQueue a) (isAnimating a)
                (currentAnimationEnd a) (signDisplay a).

Definition withQueue (q : list string) (a : RobotAvatar) : RobotAvatar :=
  mkRobotAvatar (leftHand a) (rightHand a) q (isAnimating a)
                (currentAnimationEnd a) (signDisplay a).

Definition withIsAnimating (b : bool) (a : RobotAvatar) : RobotAvatar :=
  mkRobotAvatar (leftHand a) (rightHand a) (animationQueue a) b
                (currentAnimationEnd a) (signDisplay a).

Definition withEnd (e : Z) (a : RobotAvatar) : RobotAvatar :=
  mkRobotAvatar (leftHand a) (rightHand a) (animationQueue a) (isAnimating a)
                e (signDisplay a).

Definition withDisplay (d : option SignDisplay) (a : RobotAvatar) : RobotAvatar :=
  mkRobotAvatar (leftHand a) (rightHand a) (animationQueue a) (isAnimating a)
                (currentAnimationEnd a) d.

(** [showCurrentSign(text)] *)
Definition showCurrentSign (text : string) (a : RobotAvatar) : RobotAvatar :=
  match signDisplay a with
  | Some _ => withDisplay (Some (mkSignDisplay text "1")) a
  | None => a
  end.

(** [hideCurrentSign()] *)
Definition hideCurrentSign (a : RobotAvatar) : RobotAvatar :=
  match signDisplay a with
  | Some d => withDisplay (Some (mkSignDisplay (textContent d) "0")) a
  | None => a
  end.

(** [triggerAnimation(input)]; [englishToASLGloss] lives in [ASLGloss.ts]
    and is taken as it comes. *)
Definition triggerAnimation (englishToASLGloss : string -> list string)
    (input : string) : AStmt :=
  fun a w =>
    let glossWords := englishToASLGloss input in
    (fold_left (fun a word => withQueue (animationQueue a ++ [word]) a) glossWords a,
     w).

(** What the two branches of [startAnimation] hand on to its last lines. *)
Record Started : Type := mkStarted {
  st_avatar : RobotAvatar;
  st_world : World;
  st_duration : Z;
  st_displayText : string
}.

(** [startAnimation(type)], the [if (type.startsWith('CHAR_')) ... else ...]:
    the hands are set and [duration] and [displayText] chosen. *)
Definition startAnimation_dispatch (type : string) (a : RobotAvatar) (w : World)
  : Started :=
  if startsWith type "CHAR_" then
    let char := toUpperCase (nth 1 (split "_" type) EmptyString) in
    match js_get (toLowerCase char) ASL_ALPHABET with
    | Some pose =>
        let (r, w1) := Hand.poseHand pose (rightHand a) w in
        let (l, w2) := Hand.triggerAnimation "IDLE" (leftHand a) w1 in
        mkStarted (withHands l r a) w2 400 char
    | None => mkStarted a w 800 char
    end
  else
    let (l, w1) := Hand.triggerAnimation type (leftHand a) w in
    let (r, w2) := Hand.triggerAnimation type (rightHand a) w1 in
    mkStarted (withHands l r a) w2 800 type.

(** [startAnimation(type)] *)
Definition startAnimation (type : string) : AStmt :=
  fun a w =>
    let w := console_write (console_log_Playing type) w in
    let a := withIsAnimating true a in
    let branch := startAnimation_dispatch type a w in
    let a := showCurrentSign (st_displayText branch) (st_avatar branch) in
    let (now, w) := Date_now (st_world branch) in
    (withEnd (now + st_duration branch) a, w).

(** [animate()], first block: "Queue Processing". *)
Definition animate_dequeue : AStmt :=
  fun a w =>
    if negb (isAnimating a) && (0 <? length (animationQueue a))%nat then
      match animationQueue a with
      | nextAnim :: rest =>
          if truthy nextAnim then startAnimation nextAnim (withQueue rest a) w
          else (withQueue rest a, w)
      | [] => (a, w)
      end
    else (a, w).

(** [animate()], second block: "Check if animation finished". *)
Definition animate_finish (now : Z) : AStmt :=
  fun a w =>
    if isAnimating a && (currentAnimationEnd a <? now)%Z then
      let a := withIsAnimating false a in
      if (length (animationQueue a) =? 0)%nat then
        let a := hideCurrentSign a in
        let (l, w1) := Hand.triggerAnimation "IDLE" (leftHand a) w in
        let (r, w2) := Hand.triggerAnimation "IDLE" (rightHand a) w1 in
        (withHands l r a, w2)
      else (a, w)
    else (a, w).

(** [animate()], last block: both hands are updated. *)
Definition animate_hands (time : num) : AStmt :=
  fun a w =>
    let (l, w1) := Hand.update time (leftHand a) w in
    let (r, w2) := Hand.update time (rightHand a) w1 in
    (withHands l r a, w2).

(** [animate()]; [time] is what [this.clock.getElapsedTime()] returned. *)
Definition animate (time : num) : AStmt :=
  fun a w =>
    let (now, w0) := Date_now w in
    let (a1, w1) := animate_dequeue a w0 in
    let (a2, w2) := animate_finish now a1 w1 in
    animate_hands time a2 w2.

End Avatar.

(* ================================================================== *)
(** * Vocabulary of the properties                                      *)
(* ================================================================== *)

(** The eight interpolated components of a pose. *)
Inductive Component : Type :=
| WristX | WristY | WristZ
| Curl (f : FingerName).

Definition component (k : Component) (p : PoseState) : num :=
  match k with
  | WristX => ex (wristRot p)
  | WristY => ey (wristRot p)
  | WristZ => ez (wristRot p)
  | Curl f => getCurl f (fingerCurls p)
  end.




Definition curl_in_range (v : num) : Prop :=
  exists r : R, v = Fin r /\ (0 <= r <= 1.5)%R.

Definition curls_in_range (c : Curls) : Prop :=
  curl_in_range (thumb c) /\ curl_in_range (index c) /\ curl_in_range (middle c) /\
  curl_in_range (ring c) /\ curl_in_range (pinky c).

(** What a statement of the gesture logic may touch: the targets of the hand
    and the count of random draws, nothing else. *)
Definition hand_frame (h h' : RobotHand) : Prop :=
  side h' = side h /\ wrist h' = wrist h /\ fingers h' = fingers h /\
  currentState h' = currentState h /\ animState h' = animState h /\
  animStartTime h' = animStartTime h.

Definition world_frame (w w' : World) : Prop :=
  Date_readings w' = Date_readings w /\ dateCalls w' = dateCalls w /\
  Math_draws w' = Math_draws w /\ console w' = console w.

Definition targets_only (s : Stmt) : Prop :=
  forall h w, hand_frame h (fst (s h w)) /\ world_frame w (snd (s h w)).

(** A gesture that sets all eight targets from [time] alone and leaves the
    world as it is. *)
Definition pure_gesture (g : num -> Stmt) : Prop :=
  forall time h w h0 w0,
    targetState (fst (g time h w)) = targetState (fst (g time h0 w0)) /\
    snd (g time h w) = w.

(** The labels whose body draws random numbers or leaves some targets at
    their previous value. *)
Definition partialTags : list string :=
  ["DANCE"; "FIX"; "CREATE"; "GLANCE"; "STRANGER"; "KEYBOARD"; "CAMERA";
   "DOG"; "BIRD"]%string.

Definition is_partialTag (tag : string) : bool :=
  existsb (String.eqb tag) partialTags.

Ltac run_stmt :=
  cbv beta iota zeta delta
    [seq skip forEach fold_right Hand.setFace Hand.setWrist Hand.flatHand
     Hand.fist Hand.pointIndex Hand.thumbsUp withTarget putCurl fst snd
     targetState wristRot fingerCurls thumb index middle ring pinky
     side wrist fingers currentState animState animStartTime
     Hand.withRandom Math_random Date_readings dateCalls Math_draws
     randomCalls console].

Ltac solve_pure :=
  match goal with
  | |- pure_gesture ?g =>
      unfold g; intros ? ? ? ? ?; run_stmt; split; reflexivity
  end.

Ltac solve_targets_only :=
  match goal with
  | |- targets_only (?g _) =>
      unfold g, targets_only, hand_frame, world_frame; intros ? ?; run_stmt;
      repeat split; reflexivity
  end.

(** The public operations of a hand, for sequences of calls. *)
Inductive HandCall : Type :=
| call_update (time : num)
| call_triggerAnimation (type : string)
| call_poseHand (pose : Curls)
| call_setFace (finger : FingerName) (curl : num)
| call_setWrist (x y z : num).

Definition hand_call (c : HandCall) : Stmt :=
  match c with
  | call_update time => Hand.update time
  | call_triggerAnimation type => Hand.triggerAnimation type
  | call_poseHand pose => Hand.poseHand pose
  | call_setFace finger curl => Hand.setFace finger curl
  | call_setWrist x y z => Hand.setWrist x y z
  end.

Definition hand_calls (cs : list HandCall) : Stmt :=
  fold_right (fun c rest => seq (hand_call c) rest) skip cs.

Definition wrist_has_NaN (r : Euler) : bool :=
  isNaN (ex r) || isNaN (ey r) || isNaN (ez r).

(** The four generic motions of the fallback, as the specification names
    them, each with its wrist motion and its hand shape. *)
Inductive Archetype : Type := Wave | Point | FistPump | ThumbsGesture.

Definition archetype_of_code (code : nat) : Archetype :=
  match (code mod 4)%nat with
  | 0%nat => Wave
  | 1%nat => Point
  | 2%nat => FistPump
  | _ => ThumbsGesture
  end.

Definition archetype_pose (a : Archetype) (motion : num) : PoseState :=
  match a with
  | Wave =>
      mkPoseState (mkEuler motion 0 (motion * 0.5)) (mkCurls 0 0 0 0 0)
  | Point =>
      mkPoseState (mkEuler 0 (motion * 0.5) motion) (mkCurls 1.5 0 1.5 1.5 1.5)
  | FistPump =>
      mkPoseState (mkEuler (motion * 0.7) 0 0) (mkCurls 1.5 1.5 1.5 1.5 1.5)
  | ThumbsGesture =>
      mkPoseState (mkEuler 0 motion (motion * 0.3)) (mkCurls 0 1.5 1.5 1.5 1.5)
  end.

(** The fallback in the specification's words: archetype by the character
    code of the first character mod 4, oscillation speed 4 + (length mod 5). *)
Definition fallback_pose (code len : nat) (time : num) : PoseState :=
  let speed := (4 + len mod 5)%nat in
  archetype_pose (archetype_of_code code)
                 (Math_sin (time * Fin (INR speed)) * 0.5).



(** The targets of the [KEYBOARD] gesture, given the four draws. *)
Definition keyboard_pose (time : num) (d0 d1 d2 d3 : R) : PoseState :=
  mkPoseState (mkEuler 0 0 (Math_sin (time * 12) * 0.1))
              (mkCurls 0.5 (0.2 + Fin d0 * 0.3) (0.2 + Fin d1 * 0.3)
                       (0.2 + Fin d2 * 0.3) (0.2 + Fin d3 * 0.3)).

(** The targets of the idle sway, the branch of [updateLogic] for [IDLE] and
    [POSE]. *)
Definition idle_pose (time : num) : PoseState :=
  let sway := Math_sin (time * 1.5) * 0.05 in
  mkPoseState (mkEuler (sway * 0.5) 0 sway)
              (mkCurls (0.1 + Math_sin (time + 0) * 0.05)
                       (0.1 + Math_sin (time + 2) * 0.05)
                       (0.1 + Math_sin (time + 2) * 0.05)
                       (0.1 + Math_sin (time + 2) * 0.05)
                       (0.1 + Math_sin (time + 2) * 0.05)).

(** A world for the examples: the wall clock advances by 100 ms from one
    reading to the next, every random draw is 0, the console is empty. *)
Definition world0 : World :=
  mkWorld (fun n => (1000 + 100 * Z.of_nat n)%Z) 0 (fun _ => 0%R) 0 [].

(** A gloss for the examples: the words of the input are separated by
    spaces. *)
Definition gloss0 (input : string) : list string := split " " input.

(** What the user sees of the sign display: its text while it is opaque,
    nothing once [hideCurrentSign] has set its opacity to 0 or when the page
    has no such element. *)
Definition visibleSign (a : RobotAvatar) : string :=
  match signDisplay a with
  | Some d => if String.eqb (opacity d) "0" then EmptyString else textContent d
  | None => EmptyString
  end.

Definition at_rest (a : RobotAvatar) : Prop :=
  isAnimating a = false /\
  animState (leftHand a) = "IDLE"%string /\
  animState (rightHand a) = "IDLE"%string /\
  visibleSign a = EmptyString /\
  animationQueue a = [].

(** Frames without calls in between. *)
Definition frames (times : list num) (s : RobotAvatar * World)
  : RobotAvatar * World :=
  fold_left (fun s time => Avatar.animate time (fst s) (snd s)) times s.

(** What happens to an avatar: the page calls [triggerAnimation(input)], or
    the render loop calls [animate()] with the elapsed time of the frame. *)
Inductive Event : Type :=
| Speak (input : string)
| Frame (time : num).

Definition step (englishToASLGloss : string -> list string) (e : Event)
    (s : RobotAvatar * World) : RobotAvatar * World :=
  match e with
  | Speak input => Avatar.triggerAnimation englishToASLGloss input (fst s) (snd s)
  | Frame time => Avatar.animate time (fst s) (snd s)
  end.

Definition run (englishToASLGloss : string -> list string) (evs : list Event)
    (s : RobotAvatar * World) : RobotAvatar * World :=
  fold_left (fun s e => step englishToASLGloss e s) evs s.


(** The tokens [startAnimation] announced on the console, oldest first. *)
Definition played_entry (e : LogEntry) : list string :=
  match e with
  | console_log_Playing type => [type]
  | console_error_NaN _ _ => []
  end.

Definition played (w : World) : list string :=
  flat_map played_entry (console w).

(** The token the next frame begins: the head of the queue, when nothing is
    playing and the head is not the empty string. *)
Definition begun (a : RobotAvatar) : option string :=
  if isAnimating a then None
  else match animationQueue a with
       | nextAnim :: _ => if truthy nextAnim then Some nextAnim else None
       | [] => None
       end.

(** A playback slot: its token, the wall-clock reading [startAnimation] took
    for it, and the end time it recorded. *)
Record Slot : Type := mkSlot {
  slot_token : string;
  slot_start : Z;
  slot_end : Z
}.

(** The slot a frame opens, if it begins a token: the start is the last
    reading of the queue-processing block, the one [startAnimation] adds the
    duration to. *)
Definition frame_slot (s : RobotAvatar * World) : list Slot :=
  match begun (fst s) with
  | Some tok =>
      let s1 := Avatar.animate_dequeue (fst s) (snd (Date_now (snd s))) in
      [mkSlot tok
              (Date_readings (snd s1) (pred (dateCalls (snd s1))))
              (currentAnimationEnd (fst s1))]
  | None => []
  end.

(** The slots opened by a run of events, in order. *)
Fixpoint slots (englishToASLGloss : string -> list string) (evs : list Event)
    (s : RobotAvatar * World) : list Slot :=
  match evs with
  | [] => []
  | e :: rest =>
      match e with
      | Frame _ => frame_slot s
      | Speak _ => []
      end ++ slots englishToASLGloss rest (step englishToASLGloss e s)
  end.


(** The wall clock never runs backwards. *)
Definition monotone_clock (w : World) : Prop :=
  forall i j : nat, (i <= j)%nat -> (Date_readings w i <= Date_readings w j)%Z.



Ltac select_gesture select g :=
  rewrite !(select _ g) by (vm_compute; reflexivity);
  unfold g; run_stmt.

Ltac differ :=
  let C := fresh "C" in
  intro C; injection C; intros; lra.

(* ================================================================== *)
(** * Vocabulary of the further properties                              *)
(* ================================================================== *)

(** The range the gesture logic keeps the wrist angles in. *)
Definition angle_in_range (v : num) : Prop :=
  exists r : R, v = Fin r /\ (-0.8 <= r <= 0.8)%R.

Definition wrist_in_range (e : Euler) : Prop :=
  angle_in_range (ex e) /\ angle_in_range (ey e) /\ angle_in_range (ez e).

Definition pose_in_range (p : PoseState) : Prop :=
  wrist_in_range (wristRot p) /\ curls_in_range (fingerCurls p).

Definition hand_in_range (h : RobotHand) : Prop :=
  pose_in_range (targetState h) /\ pose_in_range (currentState h).

(** [Math.random()] returns a number in [0, 1). *)
Definition draws_in_unit (w : World) : Prop :=
  forall n : nat, (0 <= Math_draws w n < 1)%R.

(** A gesture that keeps the targets in range at every elapsed time that is
    a number. *)
Definition keeps_range (g : num -> Stmt) : Prop :=
  forall (t : R) (h : RobotHand) (w : World),
    draws_in_unit w ->
    pose_in_range (targetState h) ->
    pose_in_range (targetState (fst (g (Fin t) h w))).

Ltac num_ops :=
  cbv beta iota delta
    [num_add num_sub num_mul num_neg num_lift1 num_lift2
     Math_sin Math_cos Math_abs].

Ltac name_term x :=
  let v := fresh "v" in set (v := x) in *; clearbody v.

Ltac bound_trig :=
  repeat match goal with
    | D : forall n : nat, (0 <= ?f n < 1)%R |- context [?f ?n] =>
        pose proof (D n); name_term (f n)
    | |- context [Rabs (sin ?x)] =>
        pose proof (Rabs_pos (sin x));
        pose proof (Rabs_le (sin x) 1 (SIN_bound x));
        name_term (Rabs (sin x))
    | |- context [sin ?x] => pose proof (SIN_bound x); name_term (sin x)
    | |- context [cos ?x] => pose proof (COS_bound x); name_term (cos x)
    end.

Ltac in_range :=
  bound_trig;
  repeat apply conj;
  (eexists; split; [reflexivity | lra]).

Ltac solve_keeps_range :=
  match goal with
  | |- keeps_range ?g =>
      let t := fresh "t" in
      let h := fresh "h" in
      let w := fresh "w" in
      let D := fresh "D" in
      let H := fresh "H" in
      intros t h w D H;
      destruct h as [sd wr fs [[tx ty tz] [c1 c2 c3 c4 c5]] cur st at_];
      destruct w as [dr dc md rc co];
      cbv beta iota delta [draws_in_unit Math_draws] in D;
      cbv beta iota delta
        [pose_in_range curls_in_range curl_in_range targetState fingerCurls
         thumb index middle ring pinky] in H;
      destruct H as [_ (H1 & H2 & H3 & H4 & H5)];
      destruct H1 as [? [-> ?]]; destruct H2 as [? [-> ?]];
      destruct H3 as [? [-> ?]]; destruct H4 as [? [-> ?]];
      destruct H5 as [? [-> ?]];
      unfold g, pose_in_range, wrist_in_range, curls_in_range, angle_in_range,
             curl_in_range;
      run_stmt; num_ops;
      cbv beta iota delta [ex ey ez wristRot fingerCurls thumb index middle ring pinky];
      in_range
  end.

Definition avatar_in_range (a : RobotAvatar) : Prop :=
  hand_in_range (leftHand a) /\ hand_in_range (rightHand a).

(** The elapsed time of every frame is a number. *)
Definition frame_time_is_number (e : Event) : Prop :=
  match e with
  | Frame NaN => False
  | _ => True
  end.

(** The NaN reports on the console, oldest first. *)
Definition NaN_report (e : LogEntry) : list (Side * Euler) :=
  match e with
  | console_error_NaN s r => [(s, r)]
  | console_log_Playing _ => []
  end.

Definition NaN_reports (w : World) : list (Side * Euler) :=
  flat_map NaN_report (console w).

(** The shape of the skeleton: the fingers the hand has, in order, each with
    its number of segments. *)
Definition skeleton (h : RobotHand) : list (FingerName * nat) :=
  map (fun e => (fst e, length (snd e))) (fingers h).

Ltac solve_sets_wrist :=
  match goal with
  | |- forall time h1 w1 h2 w2, wristRot (targetState (fst (?g _ _ _))) = _ =>
      intros ? ? ? ? ?; unfold g; run_stmt; reflexivity
  end.

Ltac solve_ignores_targets :=
  match goal with
  | |- forall time p h w, ?g _ _ _ = _ =>
      intros ? ? ? ?; unfold g; run_stmt; reflexivity
  end.

Ltac solve_keeps_world :=
  intros ? ? ?;
  match goal with
  | |- context [?g _ _ _] =>
      match type of g with
      | num -> Stmt => unfold g; run_stmt; reflexivity
      end
  end.



(** The text of a letter token between CHAR_ and the next underscore. *)
Definition letter_of (rest : string) : string :=
  nth 0 (split "_" rest) EmptyString.

(** The texts on which the case mapping above is that of JavaScript:
    [toUpperCase] and [toLowerCase] map the characters below 128 as
    [upper_ascii] and [lower_ascii] do. *)
Fixpoint is_ASCII (s : string) : bool :=
  match s with
  | EmptyString => true
  | String c rest => (nat_of_ascii c <? 128)%nat && is_ASCII rest
  end.

Ltac all_ascii c :=
  destruct c as [[] [] [] [] [] [] [] []]; vm_compute.

(** Both hands animate the same tag, or the right hand spells a letter while
    the left one idles. *)
Definition lockstep (a : RobotAvatar) : Prop :=
  animState (leftHand a) = animState (rightHand a) \/
  (animState (leftHand a) = "IDLE"%string /\
   animState (rightHand a) = "POSE"%string).


(** The wall clock passes every instant. *)
Definition clock_unbounded (w : World) : Prop :=
  forall z : Z, exists k : nat, (z < Date_readings w k)%Z.

(** The first [n] frames of a schedule of elapsed times. *)
Definition frames_of (times : nat -> num) (n : nat) (s : RobotAvatar * World)
  : RobotAvatar * World :=
  frames (map times (List.seq 0%nat n)) s.

(** Everything queued in [s] has been played and the avatar is at rest. *)
Definition drained (s final : RobotAvatar * World) : Prop :=
  at_rest (fst final) /\
  played (snd final) = played (snd s) ++ animationQueue (fst s).

Definition eventually_drained (times : nat -> num) (s : RobotAvatar * World) : Prop :=
  exists N : nat, forall n : nat, (N <= n)%nat -> drained s (frames_of times n s).

(* ================================================================== *)
(** * The gesture catalog                                               *)
(* ================================================================== *)

Lemma js_get_In (A : Type) (key : string) (obj : list (string * A)) (v : A) :
  js_get key obj = Some v -> In (key, v) obj.
Proof.
  induction obj as [|[k x] rest IH]; simpl; [discriminate|].
  destruct (String.eqb_spec k key) as [->|_].
  - intros [= ->]. now left.
  - intro H. right. now apply IH.
Qed.

Lemma js_get_None (A : Type) (key : string) (obj : list (string * A)) :
  js_get key obj = None <-> ~ In key (map fst obj).
Proof.
  induction obj as [|[k x] rest IH]; simpl.
  - tauto.
  - destruct (String.eqb_spec k key) as [->|Hne].
    + split; [discriminate | intros H; exfalso; apply H; now left].
    + rewrite IH. split; [intros H [E|I]; [now apply Hne | now apply H] | tauto].
Qed.

Lemma catalog_targets_only :
  Forall (fun e => forall time, targets_only (snd e time)) Hand.gestureCatalog.
Proof.
  unfold Hand.gestureCatalog.
  repeat (apply Forall_cons;
          [ intro time; cbv beta iota delta [snd]; solve_targets_only | ]).
  apply Forall_nil.
Qed.

Lemma catalog_pure :
  Forall (fun e => is_partialTag (fst e) = false -> pure_gesture (snd e))
         Hand.gestureCatalog.
Proof.
  unfold Hand.gestureCatalog.
  repeat (apply Forall_cons;
          [ intro H; cbv beta iota delta [fst snd] in *;
            first [ solve_pure | (vm_compute in H; discriminate H) ] | ]).
  apply Forall_nil.
Qed.

Lemma seq_eq (s1 s2 : Stmt) (h : RobotHand) (w : World) :
  seq s1 s2 h w = s2 (fst (s1 h w)) (snd (s1 h w)).
Proof. unfold seq. now destruct (s1 h w). Qed.

Lemma targets_only_idleSway (time : num) : targets_only (Hand.idleSway time).
Proof.
  unfold Hand.idleSway, targets_only, hand_frame, world_frame.
  intros h w. run_stmt. repeat split; reflexivity.
Qed.

Lemma targets_only_defaultGesture (word : string) (time : num) :
  targets_only (Hand.defaultGesture word time).
Proof.
  unfold Hand.defaultGesture, targets_only, hand_frame, world_frame.
  intros h w.
  destruct (option_map _ (Hand.charCodeAt0 word)) as [[|[|[|n]]]|];
    run_stmt; repeat split; reflexivity.
Qed.

Lemma targets_only_updateLogic (time : num) : targets_only (Hand.updateLogic time).
Proof.
  intros h w. unfold Hand.updateLogic.
  destruct (String.eqb (animState h) "IDLE" || String.eqb (animState h) "POSE").
  - apply targets_only_idleSway.
  - unfold Hand.select_case.
    destruct (js_get (animState h) Hand.gestureCatalog) as [g|] eqn:E.
    + apply js_get_In in E.
      pose proof catalog_targets_only as F.
      rewrite Forall_forall in F. exact (F _ E time h w).
    + apply targets_only_defaultGesture.
Qed.

(* ================================================================== *)
(** * The pose library                                                  *)
(* ================================================================== *)



(* ================================================================== *)
(** * Interpolation                                                     *)
(* ================================================================== *)

Lemma lerp_Fin (c t : R) :
  lerp (Fin c) (Fin t) (Fin 0.25) = Fin (c + 0.25 * (t - c))%R.
Proof.
  unfold lerp, num_add, num_sub, num_mul, num_lift2. f_equal. lra.
Qed.

Lemma lerp_NaN_start (t amt : num) : lerp NaN t amt = NaN.
Proof.
  unfold lerp, num_add, num_sub, num_mul, num_lift2.
  now destruct amt, t.
Qed.

Lemma lerp_NaN_end (c amt : num) : lerp c NaN amt = NaN.
Proof.
  unfold lerp, num_add, num_sub, num_mul, num_lift2.
  now destruct amt, c.
Qed.

Lemma updateLerp_component (k : Component) (h : RobotHand) (w : World) :
  component k (currentState (fst (Hand.updateLerp h w))) =
    lerp (component k (currentState h)) (component k (targetState h)) (Fin 0.25).
Proof.
  destruct k as [| | |[]]; reflexivity.
Qed.

Lemma updateLerp_frame (h : RobotHand) (w : World) :
  targetState (fst (Hand.updateLerp h w)) = targetState h /\
  animState (fst (Hand.updateLerp h w)) = animState h /\
  animStartTime (fst (Hand.updateLerp h w)) = animStartTime h /\
  side (fst (Hand.updateLerp h w)) = side h /\
  fingers (fst (Hand.updateLerp h w)) = fingers h /\
  snd (Hand.updateLerp h w) = w.
Proof. repeat split; reflexivity. Qed.






(* ================================================================== *)
(** * The tick of a hand                                                *)
(* ================================================================== *)

Lemma FingerName_eqb_eq (f g : FingerName) : FingerName_eqb f g = true <-> f = g.
Proof. destruct f, g; simpl; split; congruence. Qed.

Lemma FingerName_eqb_refl (f : FingerName) : FingerName_eqb f f = true.
Proof. now destruct f. Qed.

Lemma fingerObj_putSegments (f g : FingerName) (segs : list num)
    (fs : list (FingerName * list num)) :
  Hand.fingerObj g (Hand.putSegments f segs fs) =
    if FingerName_eqb f g
    then match Hand.fingerObj f fs with Some _ => Some segs | None => None end
    else Hand.fingerObj g fs.
Proof.
  induction fs as [|[k old] rest IH]; simpl.
  - now destruct (FingerName_eqb f g).
  - destruct (FingerName_eqb k f) eqn:Ekf; simpl.
    + apply FingerName_eqb_eq in Ekf. subst k.
      now destruct (FingerName_eqb f g).
    + rewrite IH. destruct (FingerName_eqb f g) eqn:Efg.
      * apply FingerName_eqb_eq in Efg. subst g. now rewrite Ekf.
      * reflexivity.
Qed.

Lemma applyFinger_spec (f : FingerName) (h : RobotHand) (w : World) :
  let h' := fst (Hand.applyFinger f h w) in
  (forall g, Hand.fingerObj g (fingers h') =
             if FingerName_eqb f g
             then option_map (map (fun _ => getCurl f (fingerCurls (currentState h))))
                             (Hand.fingerObj f (fingers h))
             else Hand.fingerObj g (fingers h)) /\
  side h' = side h /\ wrist h' = wrist h /\ targetState h' = targetState h /\
  currentState h' = currentState h /\ animState h' = animState h /\
  animStartTime h' = animStartTime h /\
  snd (Hand.applyFinger f h w) = w.
Proof.
  unfold Hand.applyFinger.
  destruct (Hand.fingerObj f (fingers h)) as [segs|] eqn:E; simpl.
  - split; [|repeat split].
    intro g. rewrite fingerObj_putSegments, E. reflexivity.
  - split; [|repeat split].
    intro g. destruct (FingerName_eqb f g) eqn:Efg; [|reflexivity].
    apply FingerName_eqb_eq in Efg. now subst g.
Qed.

Lemma applyToMesh_spec (h : RobotHand) (w : World) :
  let h' := fst (Hand.applyToMesh h w) in
  (forall g, Hand.fingerObj g (fingers h') =
             option_map (map (fun _ => getCurl g (fingerCurls (currentState h))))
                        (Hand.fingerObj g (fingers h))) /\
  side h' = side h /\ wrist h' = wristRot (currentState h) /\
  targetState h' = targetState h /\
  currentState h' = currentState h /\ animState h' = animState h /\
  animStartTime h' = animStartTime h /\
  snd (Hand.applyToMesh h w) = w.
Proof.
  unfold Hand.applyToMesh, forEach. cbn [fold_right].
  rewrite !seq_eq. unfold skip.
  set (h0 := mkRobotHand _ _ _ _ _ _ _).
  cbn [fst snd].
  destruct (applyFinger_spec Thumb h0 w) as (F1 & S1 & W1 & T1 & C1 & A1 & AS1 & E1).
  set (s1 := Hand.applyFinger Thumb h0 w) in *.
  destruct (applyFinger_spec Index (fst s1) (snd s1)) as (F2 & S2 & W2 & T2 & C2 & A2 & AS2 & E2).
  set (s2 := Hand.applyFinger Index (fst s1) (snd s1)) in *.
  destruct (applyFinger_spec Middle (fst s2) (snd s2)) as (F3 & S3 & W3 & T3 & C3 & A3 & AS3 & E3).
  set (s3 := Hand.applyFinger Middle (fst s2) (snd s2)) in *.
  destruct (applyFinger_spec Ring (fst s3) (snd s3)) as (F4 & S4 & W4 & T4 & C4 & A4 & AS4 & E4).
  set (s4 := Hand.applyFinger Ring (fst s3) (snd s3)) in *.
  destruct (applyFinger_spec Pinky (fst s4) (snd s4)) as (F5 & S5 & W5 & T5 & C5 & A5 & AS5 & E5).
  set (s5 := Hand.applyFinger Pinky (fst s4) (snd s4)) in *.
  split.
  { intro g.
    destruct g;
      repeat (first [rewrite F5 | rewrite F4 | rewrite F3 | rewrite F2 | rewrite F1];
              cbn [FingerName_eqb]);
      rewrite ?C4, ?C3, ?C2, ?C1; reflexivity. }
  cbn [h0 side wrist targetState currentState animState animStartTime] in *.
  repeat apply conj; congruence.
Qed.

Lemma lerp_isNaN (c t amt : num) : isNaN c = true -> isNaN (lerp c t amt) = true.
Proof.
  destruct c; [intros _; now rewrite lerp_NaN_start | discriminate].
Qed.

Lemma updateLogic_frame (time : num) (h : RobotHand) (w : World) :
  hand_frame h (fst (Hand.updateLogic time h w)) /\
  world_frame w (snd (Hand.updateLogic time h w)).
Proof. apply targets_only_updateLogic. Qed.

Lemma resetWristOnNaN_spec (h : RobotHand) (w : World) :
  let h' := fst (Hand.resetWristOnNaN h w) in
  let w' := snd (Hand.resetWristOnNaN h w) in
  fingerCurls (currentState h') = fingerCurls (currentState h) /\
  targetState h' = targetState h /\ side h' = side h /\ fingers h' = fingers h /\
  animState h' = animState h /\ animStartTime h' = animStartTime h /\
  Date_readings w' = Date_readings w /\ dateCalls w' = dateCalls w /\
  Math_draws w' = Math_draws w /\ randomCalls w' = randomCalls w /\
  (wrist_has_NaN (wristRot (currentState h)) = true ->
     wristRot (currentState h') = mkEuler 0 0 0 /\
     console w' = console w ++ [console_error_NaN (side h) (wristRot (currentState h))]) /\
  (wrist_has_NaN (wristRot (currentState h)) = false ->
     wristRot (currentState h') = wristRot (currentState h) /\ console w' = console w).
Proof.
  unfold Hand.resetWristOnNaN, wrist_has_NaN.
  destruct (isNaN (ex (wristRot (currentState h))) ||
            isNaN (ey (wristRot (currentState h))) ||
            isNaN (ez (wristRot (currentState h)))); simpl;
    repeat split; try reflexivity; intros; try discriminate; reflexivity.
Qed.

(** What one [update] does, step by step. *)
Lemma update_unfold (time : num) (h : RobotHand) (w : World) :
  Hand.update time h w =
    let s1 := Hand.updateLogic time h w in
    let s2 := Hand.updateLerp (fst s1) (snd s1) in
    let s3 := Hand.resetWristOnNaN (fst s2) (snd s2) in
    Hand.applyToMesh (fst s3) (snd s3).
Proof. unfold Hand.update. now rewrite !seq_eq. Qed.

Lemma update_curl (time : num) (f : FingerName) (h : RobotHand) (w : World) :
  getCurl f (fingerCurls (currentState (fst (Hand.update time h w)))) =
    lerp (getCurl f (fingerCurls (currentState h)))
         (getCurl f (fingerCurls (targetState (fst (Hand.updateLogic time h w)))))
         (Fin 0.25).
Proof.
  rewrite update_unfold. cbv zeta.
  destruct (updateLogic_frame time h w) as [(_ & _ & _ & C & _) _].
  set (s1 := Hand.updateLogic time h w) in *.
  set (s2 := Hand.updateLerp (fst s1) (snd s1)).
  set (s3 := Hand.resetWristOnNaN (fst s2) (snd s2)).
  destruct (applyToMesh_spec (fst s3) (snd s3)) as (_ & _ & _ & _ & C3 & _).
  rewrite C3.
  destruct (resetWristOnNaN_spec (fst s2) (snd s2)) as (C2 & _).
  fold s3 in C2. rewrite C2.
  pose proof (updateLerp_component (Curl f) (fst s1) (snd s1)) as L.
  unfold component in L. fold s2 in L. rewrite L, C. reflexivity.
Qed.

Lemma update_frame (time : num) (h : RobotHand) (w : World) :
  let h' := fst (Hand.update time h w) in
  let w' := snd (Hand.update time h w) in
  animState h' = animState h /\ animStartTime h' = animStartTime h /\
  side h' = side h /\
  targetState h' = targetState (fst (Hand.updateLogic time h w)) /\
  Date_readings w' = Date_readings w /\ dateCalls w' = dateCalls w /\
  Math_draws w' = Math_draws w /\
  wrist h' = wristRot (currentState h') /\
  (forall g, Hand.fingerObj g (fingers h') =
             option_map (map (fun _ => getCurl g (fingerCurls (currentState h'))))
                        (Hand.fingerObj g (fingers h))).
Proof.
  rewrite update_unfold. cbv zeta.
  destruct (updateLogic_frame time h w) as [(S1 & W1 & F1 & C1 & A1 & AS1) (D1 & DC1 & M1 & K1)].
  set (s1 := Hand.updateLogic time h w) in *.
  destruct (updateLerp_frame (fst s1) (snd s1)) as (T2 & A2 & AS2 & S2 & F2 & E2).
  set (s2 := Hand.updateLerp (fst s1) (snd s1)) in *.
  destruct (resetWristOnNaN_spec (fst s2) (snd s2))
    as (C3 & T3 & S3 & F3 & A3 & AS3 & D3 & DC3 & M3 & R3 & _).
  set (s3 := Hand.resetWristOnNaN (fst s2) (snd s2)) in *.
  destruct (applyToMesh_spec (fst s3) (snd s3)) as (F4 & S4 & W4 & T4 & C4 & A4 & AS4 & E4).
  set (s4 := Hand.applyToMesh (fst s3) (snd s3)) in *.
  repeat apply conj; try congruence.
  intro g. rewrite F4, C4, F3, F2, F1. reflexivity.
Qed.

(** C7.  If a component of the current wrist rotation is NaN when [update]
    starts, then [update] returns with the current wrist rotation at (0,0,0),
    exactly one entry added to the console (the [console.error] of the NaN
    guard), and the pose written to the joints: the wrist joint holds (0,0,0)
    and every segment of every finger the hand has holds that finger's
    current curl. *)
Theorem update_recovers_wrist_NaN (time : num) (h : RobotHand) (w : World) :
  wrist_has_NaN (wristRot (currentState h)) = true ->
  let h' := fst (Hand.update time h w) in
  let w' := snd (Hand.update time h w) in
  wristRot (currentState h') = mkEuler 0 0 0 /\
  (exists r, wrist_has_NaN r = true /\
             console w' = console w ++ [console_error_NaN (side h) r]) /\
  wrist h' = mkEuler 0 0 0 /\
  (forall f, Hand.fingerObj f (fingers h') =
             option_map (map (fun _ => getCurl f (fingerCurls (currentState h'))))
                        (Hand.fingerObj f (fingers h))).
Proof.
  intro HN.
  destruct (update_frame time h w) as (_ & _ & _ & _ & _ & _ & _ & Wr & Fg).
  cbv zeta. rewrite Wr.
  assert (K : wristRot (currentState (fst (Hand.update time h w))) = mkEuler 0 0 0 /\
              exists r, wrist_has_NaN r = true /\
                console (snd (Hand.update time h w)) =
                console w ++ [console_error_NaN (side h) r]).
  { rewrite update_unfold. cbv zeta.
    destruct (updateLogic_frame time h w) as [(S1 & _ & _ & C1 & _) (_ & _ & _ & K1)].
    set (s1 := Hand.updateLogic time h w) in *.
    destruct (updateLerp_frame (fst s1) (snd s1)) as (_ & _ & _ & S2 & _ & E2).
    pose proof (updateLerp_component WristX (fst s1) (snd s1)) as LX.
    pose proof (updateLerp_component WristY (fst s1) (snd s1)) as LY.
    pose proof (updateLerp_component WristZ (fst s1) (snd s1)) as LZ.
    unfold component in LX, LY, LZ. rewrite C1 in LX, LY, LZ.
    set (s2 := Hand.updateLerp (fst s1) (snd s1)) in *.
    assert (N2 : wrist_has_NaN (wristRot (currentState (fst s2))) = true).
    { unfold wrist_has_NaN in *. rewrite LX, LY, LZ.
      apply orb_true_iff in HN. destruct HN as [HN|HN];
        [apply orb_true_iff in HN; destruct HN as [HN|HN]|];
        rewrite (lerp_isNaN _ _ _ HN); cbn [orb]; now rewrite ?orb_true_r. }
    destruct (resetWristOnNaN_spec (fst s2) (snd s2))
      as (_ & _ & S3 & _ & _ & _ & _ & _ & _ & _ & R3 & _).
    destruct (R3 N2) as [Z3 K3].
    set (s3 := Hand.resetWristOnNaN (fst s2) (snd s2)) in *.
    destruct (applyToMesh_spec (fst s3) (snd s3)) as (_ & _ & _ & _ & C4 & _ & _ & E4).
    rewrite C4, E4. split; [exact Z3|].
    exists (wristRot (currentState (fst s2))). split; [exact N2|].
    rewrite K3, E2, K1, S2, S1. reflexivity. }
  destruct K as [K1 K2].
  repeat apply conj; assumption.
Qed.

Lemma update_recovers_wrist_NaN_witness :
  wristRot (currentState (fst (Hand.update 0
     (withCurrent (mkPoseState (mkEuler 0 NaN 0) (mkCurls 0 0 0 0 0)) (newRobotHand left))
     (mkWorld (fun _ => 0%Z) 0 (fun _ => 0%R) 0 [])))) = mkEuler 0 0 0.
Proof.
  apply (update_recovers_wrist_NaN 0
     (withCurrent (mkPoseState (mkEuler 0 NaN 0) (mkCurls 0 0 0 0 0)) (newRobotHand left))
     (mkWorld (fun _ => 0%Z) 0 (fun _ => 0%R) 0 [])).
  reflexivity.
Defined.

Lemma hand_call_keeps_NaN_curl (f : FingerName) (c : HandCall) (h : RobotHand)
    (w : World) :
  getCurl f (fingerCurls (currentState h)) = NaN ->
  getCurl f (fingerCurls (currentState (fst (hand_call c h w)))) = NaN.
Proof.
  intro H. destruct c as [time|type|pose|g v|x y z]; cbn [hand_call].
  - now rewrite update_curl, H, lerp_NaN_start.
  - exact H.
  - exact H.
  - exact H.
  - exact H.
Qed.

Lemma hand_calls_keep_NaN_curl (f : FingerName) (cs : list HandCall) :
  forall (h : RobotHand) (w : World),
    getCurl f (fingerCurls (currentState h)) = NaN ->
    getCurl f (fingerCurls (currentState (fst (hand_calls cs h w)))) = NaN.
Proof.
  induction cs as [|c cs IH]; intros h w H; [exact H|].
  unfold hand_calls in *. cbn [fold_right]. rewrite seq_eq.
  apply IH. now apply hand_call_keeps_NaN_curl.
Qed.

(** C10, as the code has it.  The NaN guard of [update] looks at the wrist
    only.  A finger curl of the current state that is NaN stays NaN through
    every later call on the hand, whatever the calls; after every [update] it
    is NaN and every segment of that finger holds NaN.  A NaN in a target
    curl reaches the current curl when it is still there as the interpolation
    step runs. *)
Theorem finger_NaN_is_absorbing (f : FingerName) (h : RobotHand) (w : World) :
  getCurl f (fingerCurls (currentState h)) = NaN ->
  (forall cs : list HandCall,
      getCurl f (fingerCurls (currentState (fst (hand_calls cs h w)))) = NaN) /\
  (forall (cs : list HandCall) (time : num),
      let s := hand_calls cs h w in
      let h' := fst (Hand.update time (fst s) (snd s)) in
      getCurl f (fingerCurls (currentState h')) = NaN /\
      Hand.fingerObj f (fingers h') =
        option_map (map (fun _ => NaN)) (Hand.fingerObj f (fingers (fst s))) /\
      wrist_has_NaN (wristRot (currentState h')) = false) /\
  (forall (h0 : RobotHand) (w0 : World),
      getCurl f (fingerCurls (targetState h0)) = NaN ->
      getCurl f (fingerCurls (currentState (fst (Hand.updateLerp h0 w0)))) = NaN).
Proof.
  intro H. split; [|split].
  - intro cs. now apply hand_calls_keep_NaN_curl.
  - intros cs time. cbv zeta.
    pose proof (hand_calls_keep_NaN_curl f cs h w H) as H1.
    set (s := hand_calls cs h w) in *.
    assert (H2 : getCurl f (fingerCurls (currentState (fst (Hand.update time (fst s) (snd s))))) = NaN)
      by now rewrite update_curl, H1, lerp_NaN_start.
    split; [exact H2|]. split.
    + destruct (update_frame time (fst s) (snd s)) as (_ & _ & _ & _ & _ & _ & _ & _ & Fg).
      now rewrite Fg, H2.
    + rewrite update_unfold. cbv zeta.
      set (s1 := Hand.updateLogic time (fst s) (snd s)).
      set (s2 := Hand.updateLerp (fst s1) (snd s1)).
      destruct (resetWristOnNaN_spec (fst s2) (snd s2))
        as (_ & _ & _ & _ & _ & _ & _ & _ & _ & _ & R3 & R3').
      set (s3 := Hand.resetWristOnNaN (fst s2) (snd s2)) in *.
      destruct (applyToMesh_spec (fst s3) (snd s3)) as (_ & _ & _ & _ & C4 & _).
      rewrite C4.
      destruct (wrist_has_NaN (wristRot (currentState (fst s2)))) eqn:E.
      * destruct (R3 eq_refl) as [-> _]. reflexivity.
      * destruct (R3' eq_refl) as [-> _]. exact E.
  - intros h0 w0 H0.
    pose proof (updateLerp_component (Curl f) h0 w0) as L.
    unfold component in L. now rewrite L, H0, lerp_NaN_end.
Qed.

Lemma finger_NaN_is_absorbing_witness :
  Hand.fingerObj Ring
    (fingers (fst (Hand.update 0
       (withCurrent (mkPoseState (mkEuler 0 0 0) (mkCurls 0 0 0 NaN 0))
                    (newRobotHand right))
       (mkWorld (fun _ => 0%Z) 0 (fun _ => 0%R) 0 []))))
  = Some [NaN; NaN; NaN].
Proof.
  pose proof (finger_NaN_is_absorbing Ring
       (withCurrent (mkPoseState (mkEuler 0 0 0) (mkCurls 0 0 0 NaN 0))
                    (newRobotHand right))
       (mkWorld (fun _ => 0%Z) 0 (fun _ => 0%R) 0 []) eq_refl) as [_ [H _]].
  exact (proj1 (proj2 (H [] 0))).
Defined.

(** C10 as written fails for the target state: [update] recomputes the
    targets before it interpolates.  An idle hand with a NaN in the target
    curl of the thumb and a current curl of 0 has a current thumb curl that is
    a number after one [update]. *)
Lemma target_NaN_is_overwritten :
  ~ (forall (f : FingerName) (time : num) (h : RobotHand) (w : World),
        getCurl f (fingerCurls (currentState h)) = NaN \/
        getCurl f (fingerCurls (targetState h)) = NaN ->
        getCurl f (fingerCurls (currentState (fst (Hand.update time h w)))) = NaN).
Proof.
  intro C.
  specialize (C Thumb (Fin 0)
    (withTarget (mkPoseState (mkEuler 0 0 0) (mkCurls NaN 0 0 0 0)) (newRobotHand right))
    (mkWorld (fun _ => 0%Z) 0 (fun _ => 0%R) 0 [])
    (or_intror eq_refl)).
  rewrite update_curl in C.
  vm_compute in C. discriminate C.
Qed.

(* ================================================================== *)
(** * The gesture logic as a function of tag and time                   *)
(* ================================================================== *)

Lemma idleSway_pure : pure_gesture Hand.idleSway.
Proof.
  unfold Hand.idleSway. intros time h w h0 w0. run_stmt. split; reflexivity.
Qed.

Lemma defaultGesture_pure (word : string) : pure_gesture (Hand.defaultGesture word).
Proof.
  unfold Hand.defaultGesture. intros time h w h0 w0.
  destruct (option_map _ (Hand.charCodeAt0 word)) as [[|[|[|n]]]|];
    run_stmt; split; reflexivity.
Qed.

Lemma updateLogic_pure (tag : string) (time : num) (h1 h2 : RobotHand)
    (w1 w2 : World) :
  is_partialTag tag = false ->
  animState h1 = tag -> animState h2 = tag ->
  targetState (fst (Hand.updateLogic time h1 w1)) =
    targetState (fst (Hand.updateLogic time h2 w2)) /\
  snd (Hand.updateLogic time h1 w1) = w1.
Proof.
  intros P E1 E2. unfold Hand.updateLogic. rewrite E1, E2.
  destruct (String.eqb tag "IDLE" || String.eqb tag "POSE").
  - apply idleSway_pure.
  - unfold Hand.select_case.
    destruct (js_get tag Hand.gestureCatalog) as [g|] eqn:E.
    + apply js_get_In in E.
      pose proof catalog_pure as F. rewrite Forall_forall in F.
      exact (F _ E P time h1 w1 h2 w2).
    + apply defaultGesture_pure.
Qed.

Lemma updateLogic_pure_targets (tag : string) (time : num) (h1 h2 : RobotHand)
    (w1 w2 : World) :
  is_partialTag tag = false ->
  animState h1 = tag -> animState h2 = tag ->
  targetState (fst (Hand.updateLogic time h1 w1)) =
    targetState (fst (Hand.updateLogic time h2 w2)).
Proof. intros P E1 E2. now apply (updateLogic_pure time h1 h2 w1 w2 P). Qed.

Lemma update_targets (time : num) (h : RobotHand) (w : World) :
  targetState (fst (Hand.update time h w)) =
    targetState (fst (Hand.updateLogic time h w)).
Proof. apply update_frame. Qed.




Lemma updateLogic_KEYBOARD (time : num) (h : RobotHand) (w : World) :
  animState h = "KEYBOARD"%string ->
  targetState (fst (Hand.updateLogic time h w)) =
    keyboard_pose time (Math_draws w (randomCalls w))
                       (Math_draws w (S (randomCalls w)))
                       (Math_draws w (S (S (randomCalls w))))
                       (Math_draws w (S (S (S (randomCalls w))))) /\
  randomCalls (snd (Hand.updateLogic time h w)) = (randomCalls w + 4)%nat.
Proof.
  intro E. unfold Hand.updateLogic. rewrite E.
  change (String.eqb "KEYBOARD" "IDLE" || String.eqb "KEYBOARD" "POSE") with false.
  replace (Hand.select_case "KEYBOARD" Hand.gestureCatalog)
    with (Some Hand.gesture_KEYBOARD) by reflexivity.
  cbv iota. unfold Hand.gesture_KEYBOARD. run_stmt.
  split; [reflexivity|]. lia.
Qed.




Lemma updateLogic_select (tag : string) (g : num -> Stmt) (time : num)
    (h : RobotHand) (w : World) :
  animState h = tag ->
  String.eqb tag "IDLE" || String.eqb tag "POSE" = false ->
  Hand.select_case tag Hand.gestureCatalog = Some g ->
  Hand.updateLogic time h w = g time h w.
Proof.
  intros E I S. unfold Hand.updateLogic. now rewrite E, I, S.
Qed.

(** The eight gestures that set only some of the fingers: the fingers they
    leave alone keep the target they had, so the targets after a tick depend
    on the targets before it. *)
Lemma partial_gestures_keep_old_targets :
  Forall (fun tag : string =>
    forall (time : num) (w : World),
      targetState (fst (Hand.update time
         (withAnimState tag
            (withTarget (mkPoseState (mkEuler 0 0 0) (mkCurls 0 0 0 0 0))
                        (newRobotHand right))) w)) <>
      targetState (fst (Hand.update time
         (withAnimState tag
            (withTarget (mkPoseState (mkEuler 0 0 0) (mkCurls 1 1 1 1 1))
                        (newRobotHand right))) w)))
    ["DANCE"; "FIX"; "CREATE"; "GLANCE"; "STRANGER"; "CAMERA"; "DOG"; "BIRD"]%string.
Proof.
  apply Forall_cons;
    [intros time w; rewrite !update_targets; select_gesture @updateLogic_select Hand.gesture_DANCE; differ|].
  apply Forall_cons;
    [intros time w; rewrite !update_targets; select_gesture @updateLogic_select Hand.gesture_FIX; differ|].
  apply Forall_cons;
    [intros time w; rewrite !update_targets; select_gesture @updateLogic_select Hand.gesture_CREATE; differ|].
  apply Forall_cons;
    [intros time w; rewrite !update_targets; select_gesture @updateLogic_select Hand.gesture_GLANCE; differ|].
  apply Forall_cons;
    [intros time w; rewrite !update_targets; select_gesture @updateLogic_select Hand.gesture_STRANGER; differ|].
  apply Forall_cons;
    [intros time w; rewrite !update_targets; select_gesture @updateLogic_select Hand.gesture_CAMERA; differ|].
  apply Forall_cons;
    [intros time w; rewrite !update_targets; select_gesture @updateLogic_select Hand.gesture_DOG; differ|].
  apply Forall_cons;
    [intros time w; rewrite !update_targets; select_gesture @updateLogic_select Hand.gesture_BIRD; differ|].
  apply Forall_nil.
Qed.

Lemma defaultGesture_targets (c : ascii) (rest : string) (time : num)
    (h : RobotHand) (w : World) :
  targetState (fst (Hand.defaultGesture (String c rest) time h w)) =
    fallback_pose (nat_of_ascii c) (String.length (String c rest)) time.
Proof.
  unfold Hand.defaultGesture, fallback_pose, archetype_of_code.
  cbn [Hand.charCodeAt0 option_map].
  replace (4 + Hand.num_of_nat (String.length (String c rest) mod 5))
    with (Fin (INR (4 + String.length (String c rest) mod 5))).
  2:{ unfold Hand.num_of_nat, num_add, num_lift2. f_equal.
      rewrite plus_INR. simpl INR. lra. }
  destruct (nat_of_ascii c mod 4)%nat as [|[|[|n]]]; run_stmt; reflexivity.
Qed.

Lemma defaultGesture_empty (time : num) (h : RobotHand) (w : World) :
  targetState (fst (Hand.defaultGesture EmptyString time h w)) =
    fallback_pose 3 0 time.
Proof.
  unfold Hand.defaultGesture, fallback_pose, archetype_of_code.
  cbn [Hand.charCodeAt0 option_map String.length Nat.modulo Nat.divmod fst snd Nat.sub].
  replace (4 + Hand.num_of_nat 0) with (Fin (INR (4 + 0))).
  2:{ unfold Hand.num_of_nat, num_add, num_lift2. f_equal. simpl INR. lra. }
  run_stmt. reflexivity.
Qed.

Lemma updateLogic_default (tag : string) (time : num) (h : RobotHand) (w : World) :
  animState h = tag ->
  tag <> "IDLE"%string -> tag <> "POSE"%string ->
  ~ In tag (map fst Hand.gestureCatalog) ->
  Hand.updateLogic time h w = Hand.defaultGesture tag time h w.
Proof.
  intros E NI NP NC. unfold Hand.updateLogic. rewrite E.
  apply String.eqb_neq in NI, NP. rewrite NI, NP. cbn [orb].
  apply js_get_None in NC. unfold Hand.select_case. now rewrite NC.
Qed.

(** C8.  For a tag that is neither IDLE nor POSE nor a label of the catalog,
    the targets after a tick are the same for any two hands in that state and
    any two worlds, no random number is drawn, and the targets are those of
    the archetype picked by the character code of the first character mod 4
    (wave, point, fist, thumbs for 0, 1, 2, 3), oscillating at speed
    4 + (length mod 5). *)
Theorem default_gesture_deterministic (tag : string) (time : num)
    (h : RobotHand) (w : World) :
  animState h = tag ->
  tag <> "IDLE"%string -> tag <> "POSE"%string ->
  ~ In tag (map fst Hand.gestureCatalog) ->
  (forall (h2 : RobotHand) (w2 : World),
      animState h2 = tag ->
      targetState (fst (Hand.update time h w)) =
        targetState (fst (Hand.update time h2 w2))) /\
  randomCalls (snd (Hand.update time h w)) = randomCalls w /\
  (forall (c : ascii) (rest : string),
      tag = String c rest ->
      targetState (fst (Hand.update time h w)) =
        fallback_pose (nat_of_ascii c) (String.length tag) time).
Proof.
  intros E NI NP NC. split; [|split].
  - intros h2 w2 E2. rewrite !update_targets.
    rewrite (updateLogic_default time h w E NI NP NC).
    rewrite (updateLogic_default time h2 w2 E2 NI NP NC).
    apply defaultGesture_pure.
  - rewrite update_unfold. cbv zeta.
    rewrite (updateLogic_default time h w E NI NP NC).
    destruct (defaultGesture_pure tag time h w h w) as [_ D].
    set (s1 := Hand.defaultGesture tag time h w) in *.
    destruct (updateLerp_frame (fst s1) (snd s1)) as (_ & _ & _ & _ & _ & E2).
    set (s2 := Hand.updateLerp (fst s1) (snd s1)) in *.
    destruct (resetWristOnNaN_spec (fst s2) (snd s2))
      as (_ & _ & _ & _ & _ & _ & _ & _ & _ & R3 & _).
    set (s3 := Hand.resetWristOnNaN (fst s2) (snd s2)) in *.
    destruct (applyToMesh_spec (fst s3) (snd s3)) as (_ & _ & _ & _ & _ & _ & _ & E4).
    now rewrite E4, R3, E2, D.
  - intros c rest ->. rewrite update_targets.
    rewrite (updateLogic_default time h w E NI NP NC).
    apply defaultGesture_targets.
Qed.

Lemma default_gesture_deterministic_witness :
  targetState (fst (Hand.update 0 (withAnimState "XYZZY" (newRobotHand left)) world0)) =
    archetype_pose Wave (Math_sin (0 * Fin (INR 4)) * 0.5).
Proof.
  assert (N : ~ In "XYZZY"%string (map fst Hand.gestureCatalog))
    by (apply js_get_None; vm_compute; reflexivity).
  exact (proj2 (proj2 (@default_gesture_deterministic "XYZZY" 0
                         (withAnimState "XYZZY" (newRobotHand left)) world0 eq_refl
                         ltac:(discriminate) ltac:(discriminate) N))
               "X"%char "YZZY"%string eq_refl).
Defined.

(* ================================================================== *)
(** * The sequencer: one token                                          *)
(* ================================================================== *)

Lemma updateLogic_idle (time : num) (h : RobotHand) (w : World) :
  animState h = "IDLE"%string \/ animState h = "POSE"%string ->
  targetState (fst (Hand.updateLogic time h w)) = idle_pose time.
Proof.
  intro E. unfold Hand.updateLogic.
  replace (String.eqb (animState h) "IDLE" || String.eqb (animState h) "POSE")
    with true by (destruct E as [-> | ->]; reflexivity).
  unfold Hand.idleSway, idle_pose. run_stmt. reflexivity.
Qed.

Lemma update_idle (time : num) (h : RobotHand) (w : World) :
  animState h = "IDLE"%string \/ animState h = "POSE"%string ->
  targetState (fst (Hand.update time h w)) = idle_pose time.
Proof.
  intro E. rewrite update_targets. now apply updateLogic_idle.
Qed.

Lemma poseHand_spec (pose : Curls) (h : RobotHand) (w : World) :
  let h' := fst (Hand.poseHand pose h w) in
  animState h' = "POSE"%string /\
  fingerCurls (targetState h') = pose /\
  wristRot (targetState h') = mkEuler (- 0.2) 0 0 /\
  currentState h' = currentState h /\
  snd (Hand.poseHand pose h w) = w.
Proof.
  unfold Hand.poseHand. run_stmt. destruct pose. repeat split; reflexivity.
Qed.




(* ================================================================== *)
(** * The sequencer: frames                                             *)
(* ================================================================== *)

Lemma animate_hands_eq (time : num) (a : RobotAvatar) (w : World) :
  Avatar.animate_hands time a w =
    let l := Hand.update time (leftHand a) w in
    let r := Hand.update time (rightHand a) (snd l) in
    (Avatar.withHands (fst l) (fst r) a, snd r).
Proof.
  unfold Avatar.animate_hands. cbv zeta.
  destruct (Hand.update time (leftHand a) w) as [l w1]. cbn [fst snd].
  now destruct (Hand.update time (rightHand a) w1).
Qed.

Lemma animate_eq (time : num) (a : RobotAvatar) (w : World) :
  Avatar.animate time a w =
    let now := Date_readings w (dateCalls w) in
    let s1 := Avatar.animate_dequeue a (snd (Date_now w)) in
    let s2 := Avatar.animate_finish now (fst s1) (snd s1) in
    Avatar.animate_hands time (fst s2) (snd s2).
Proof.
  unfold Avatar.animate. cbv zeta. cbn [Date_now fst snd].
  destruct (Avatar.animate_dequeue a _) as [a1 w1]. cbn [fst snd].
  now destruct (Avatar.animate_finish _ a1 w1).
Qed.

Lemma animate_hands_frame (time : num) (a : RobotAvatar) (w : World) :
  let s := Avatar.animate_hands time a w in
  animState (leftHand (fst s)) = animState (leftHand a) /\
  animState (rightHand (fst s)) = animState (rightHand a) /\
  animationQueue (fst s) = animationQueue a /\
  isAnimating (fst s) = isAnimating a /\
  currentAnimationEnd (fst s) = currentAnimationEnd a /\
  signDisplay (fst s) = signDisplay a /\
  Date_readings (snd s) = Date_readings w /\
  dateCalls (snd s) = dateCalls w.
Proof.
  cbv zeta. rewrite animate_hands_eq. cbv zeta.
  pose proof (update_frame time (leftHand a) w) as H1.
  pose proof (update_frame time (rightHand a)
                (snd (Hand.update time (leftHand a) w))) as H2.
  cbv zeta in H1, H2.
  destruct H1 as (A1 & _ & _ & _ & D1 & DC1 & _).
  destruct H2 as (A2 & _ & _ & _ & D2 & DC2 & _).
  generalize dependent (Hand.update time (rightHand a)
                          (snd (Hand.update time (leftHand a) w))).
  generalize dependent (Hand.update time (leftHand a) w).
  intros [l w1] A1 D1 DC1 [r w2] A2 D2 DC2.
  cbn [fst snd leftHand rightHand animationQueue isAnimating currentAnimationEnd
       signDisplay Avatar.withHands] in *.
  repeat apply conj; congruence.
Qed.

Lemma animate_at_rest (time : num) (a : RobotAvatar) (w : World) :
  at_rest a -> at_rest (fst (Avatar.animate time a w)).
Proof.
  intros (I & L & R & V & Q).
  rewrite animate_eq. cbv zeta.
  unfold Avatar.animate_dequeue. rewrite I, Q.
  cbn [negb andb length Nat.ltb Nat.leb fst snd].
  unfold Avatar.animate_finish. rewrite I. cbn [andb fst snd].
  destruct (animate_hands_frame time a (snd (Date_now w)))
    as (L' & R' & Q' & I' & _ & S' & _).
  unfold at_rest, visibleSign. rewrite L', R', Q', I', S'.
  repeat apply conj; assumption.
Qed.

Lemma frames_at_rest (times : list num) :
  forall s : RobotAvatar * World, at_rest (fst s) -> at_rest (fst (frames times s)).
Proof.
  induction times as [|time times IH]; intros s H; [exact H|].
  unfold frames in *. cbn [fold_left]. apply IH. now apply animate_at_rest.
Qed.

Lemma animate_finish_drain (now : Z) (a : RobotAvatar) (w : World) :
  isAnimating a = true ->
  animationQueue a = [] ->
  (currentAnimationEnd a < now)%Z ->
  let a' := fst (Avatar.animate_finish now a w) in
  isAnimating a' = false /\
  animState (leftHand a') = "IDLE"%string /\
  animState (rightHand a') = "IDLE"%string /\
  animationQueue a' = [] /\
  signDisplay a' =
    option_map (fun d => mkSignDisplay (textContent d) "0") (signDisplay a).
Proof.
  intros I Q E. unfold Avatar.animate_finish. rewrite I.
  apply Z.ltb_lt in E. rewrite E. cbn [andb].
  destruct a as [l r q i e [d|]]; cbn [animationQueue] in Q; subst q;
    repeat apply conj; reflexivity.
Qed.

(** C6.  A frame that finds playback running, the recorded end of the slot
    earlier than the wall clock, and the queue empty, leaves playback marked
    as not running, both hands in state IDLE and nothing visible in the sign
    display (its opacity is 0); the queue is still empty; and the same holds
    after any number of further frames with no call of [triggerAnimation] in
    between. *)
Theorem queue_drain_returns_to_rest (time : num) (a : RobotAvatar) (w : World) :
  isAnimating a = true ->
  animationQueue a = [] ->
  (currentAnimationEnd a < Date_readings w (dateCalls w))%Z ->
  at_rest (fst (Avatar.animate time a w)) /\
  (forall d, signDisplay (fst (Avatar.animate time a w)) = Some d ->
             opacity d = "0"%string) /\
  (forall times : list num,
      at_rest (fst (frames times (Avatar.animate time a w)))).
Proof.
  intros I Q E.
  assert (K : at_rest (fst (Avatar.animate time a w)) /\
              forall d, signDisplay (fst (Avatar.animate time a w)) = Some d ->
                        opacity d = "0"%string).
  { rewrite animate_eq. cbv zeta.
    unfold Avatar.animate_dequeue. rewrite I. cbn [negb andb fst snd].
    destruct (@animate_finish_drain _ a (snd (Date_now w)) I Q E) as (I1 & L1 & R1 & Q1 & S1).
    set (s2 := Avatar.animate_finish _ a _) in *.
    destruct (animate_hands_frame time (fst s2) (snd s2))
      as (L' & R' & Q' & I' & _ & S' & _).
    unfold at_rest, visibleSign. rewrite L', R', Q', I', S', S1.
    destruct (signDisplay a) as [d|]; cbn [option_map opacity String.eqb Ascii.eqb Bool.eqb];
      repeat apply conj; try assumption; try reflexivity; intros d0 H;
      [injection H as <-; reflexivity | discriminate H]. }
  destruct K as [K1 K2].
  split; [exact K1|]. split; [exact K2|].
  intro times. now apply frames_at_rest.
Qed.

Lemma queue_drain_returns_to_rest_witness :
  at_rest (fst (Avatar.animate 0
     (mkRobotAvatar (withAnimState "HELLO" (newRobotHand left))
                    (withAnimState "HELLO" (newRobotHand right))
                    [] true 900 (Some (mkSignDisplay "HELLO" "1")))
     world0)).
Proof.
  exact (proj1 (@queue_drain_returns_to_rest 0
     (mkRobotAvatar (withAnimState "HELLO" (newRobotHand left))
                    (withAnimState "HELLO" (newRobotHand right))
                    [] true 900 (Some (mkSignDisplay "HELLO" "1")))
     world0 eq_refl eq_refl eq_refl)).
Defined.

(** C1 fails on the code.  The token CHAR_A is queued and one frame runs at
    elapsed time 0: the frame begins the token, [poseHand] puts the A pose on
    the targets of the right hand, and the [update] of the same frame, finding
    the hand in state POSE, replaces them by the idle sway.  After the frame
    the index target is not the 1.5 of the A pose. *)
Theorem fingerspelled_pose_is_overwritten :
  let s0 := Avatar.triggerAnimation gloss0 "CHAR_A" (newRobotAvatar None) world0 in
  let s1 := Avatar.animate 0 (fst s0) (snd s0) in
  animationQueue (fst s0) = ["CHAR_A"%string] /\
  js_get "a" ASL_ALPHABET = Some (mkCurls 0.1 1.5 1.5 1.5 1.5) /\
  isAnimating (fst s1) = true /\
  animState (rightHand (fst s1)) = "POSE"%string /\
  targetState (rightHand (fst s1)) = idle_pose 0 /\
  index (fingerCurls (targetState (rightHand (fst s1)))) <> Fin 1.5.
Proof.
  cbv zeta.
  set (s0 := Avatar.triggerAnimation gloss0 "CHAR_A" (newRobotAvatar None) world0).
  rewrite animate_eq. cbv zeta.
  set (s2 := Avatar.animate_finish _ _ _).
  destruct (animate_hands_frame 0 (fst s2) (snd s2)) as (_ & R & _ & I & _).
  assert (P : animState (rightHand (fst s2)) = "POSE"%string)
    by (vm_compute; reflexivity).
  assert (T : targetState (rightHand (fst (Avatar.animate_hands 0 (fst s2) (snd s2))))
              = idle_pose 0).
  { rewrite animate_hands_eq. cbv zeta.
    cbn [fst snd rightHand Avatar.withHands].
    apply update_idle. right. exact P. }
  split; [reflexivity|].
  split; [reflexivity|].
  split; [rewrite I; vm_compute; reflexivity|].
  split; [rewrite R; exact P|].
  split; [exact T|].
  rewrite T. unfold idle_pose. cbn [fingerCurls index].
  cbv beta iota delta [num_add num_mul num_lift2 Math_sin num_lift1].
  intro C. injection C as C.
  pose proof (SIN_bound (0 + 2)). lra.
Qed.

(* ================================================================== *)
(** * The sequencer: runs of events                                     *)
(* ================================================================== *)

Lemma played_console_write (e : LogEntry) (w : World) :
  played (console_write e w) = played w ++ played_entry e.
Proof.
  unfold played, console_write. cbn [console].
  rewrite flat_map_app. cbn [flat_map]. now rewrite app_nil_r.
Qed.

Lemma update_played (time : num) (h : RobotHand) (w : World) :
  played (snd (Hand.update time h w)) = played w.
Proof.
  rewrite update_unfold. cbv zeta.
  destruct (updateLogic_frame time h w) as [_ (_ & _ & _ & K1)].
  set (s1 := Hand.updateLogic time h w) in *.
  destruct (updateLerp_frame (fst s1) (snd s1)) as (_ & _ & _ & _ & _ & E2).
  set (s2 := Hand.updateLerp (fst s1) (snd s1)) in *.
  destruct (resetWristOnNaN_spec (fst s2) (snd s2))
    as (_ & _ & _ & _ & _ & _ & _ & _ & _ & _ & R3 & R3').
  set (s3 := Hand.resetWristOnNaN (fst s2) (snd s2)) in *.
  destruct (applyToMesh_spec (fst s3) (snd s3)) as (_ & _ & _ & _ & _ & _ & _ & E4).
  rewrite E4. unfold played.
  destruct (wrist_has_NaN (wristRot (currentState (fst s2)))).
  - destruct (R3 eq_refl) as [_ ->]. rewrite flat_map_app. cbn [flat_map played_entry].
    rewrite app_nil_r. now rewrite E2, K1.
  - destruct (R3' eq_refl) as [_ ->]. now rewrite E2, K1.
Qed.

Lemma animate_hands_played (time : num) (a : RobotAvatar) (w : World) :
  played (snd (Avatar.animate_hands time a w)) = played w.
Proof.
  rewrite animate_hands_eq. cbv zeta. cbn [snd].
  now rewrite !update_played.
Qed.

Lemma enqueue_words (ws : list string) :
  forall a : RobotAvatar,
    let a' := fold_left
                (fun a word => Avatar.withQueue (animationQueue a ++ [word]) a) ws a in
    animationQueue a' = animationQueue a ++ ws /\
    isAnimating a' = isAnimating a /\
    currentAnimationEnd a' = currentAnimationEnd a.
Proof.
  induction ws as [|word ws IH]; intro a; cbn [fold_left].
  - now rewrite app_nil_r.
  - destruct (IH (Avatar.withQueue (animationQueue a ++ [word]) a)) as (Q & I & E).
    cbv zeta in *. rewrite Q, I, E. cbn [Avatar.withQueue animationQueue isAnimating
                                          currentAnimationEnd].
    now rewrite <- app_assoc.
Qed.

Lemma triggerAnimation_seq (gloss : string -> list string) (input : string)
    (a : RobotAvatar) (w : World) :
  let s := Avatar.triggerAnimation gloss input a w in
  animationQueue (fst s) = animationQueue a ++ gloss input /\
  isAnimating (fst s) = isAnimating a /\
  currentAnimationEnd (fst s) = currentAnimationEnd a /\
  snd s = w.
Proof.
  unfold Avatar.triggerAnimation. cbv zeta. cbn [fst snd].
  destruct (enqueue_words (gloss input) a) as (Q & I & E).
  repeat apply conj; try assumption. reflexivity.
Qed.

Lemma startAnimation_seq (type : string) (a : RobotAvatar) (w : World) :
  let s := Avatar.startAnimation type a w in
  isAnimating (fst s) = true /\
  animationQueue (fst s) = animationQueue a /\
  Date_readings (snd s) = Date_readings w /\
  played (snd s) = played w ++ [type] /\
  exists (k : nat) (d : Z),
    dateCalls (snd s) = S k /\ (dateCalls w <= k)%nat /\
    (d = 400 \/ d = 800)%Z /\
    currentAnimationEnd (fst s) = (Date_readings w k + d)%Z.
Proof.
  unfold Avatar.startAnimation, Avatar.startAnimation_dispatch. cbv zeta.
  destruct (startsWith type "CHAR_").
  - destruct (js_get _ ASL_ALPHABET) as [pose|].
    + destruct (poseHand_spec pose (rightHand (Avatar.withIsAnimating true a))
                  (console_write (console_log_Playing type) w)) as (_ & _ & _ & _ & E).
      destruct (Hand.poseHand pose _ _) as [r w1]. cbn [snd] in E. subst w1.
      destruct a as [l0 r0 q i e [d|]];
        (repeat apply conj; try reflexivity;
         [ apply played_console_write
         | exists (S (dateCalls w)), 400%Z; repeat apply conj;
           [reflexivity | cbn; lia | now left | reflexivity] ]).
    + destruct a as [l0 r0 q i e [d|]];
        (repeat apply conj; try reflexivity;
         [ apply played_console_write
         | exists (dateCalls w), 800%Z; repeat apply conj;
           [reflexivity | cbn; lia | now right | reflexivity] ]).
  - destruct a as [l0 r0 q i e [d|]];
      (repeat apply conj; try reflexivity;
       [ apply played_console_write
       | exists (S (S (dateCalls w))), 800%Z; repeat apply conj;
         [reflexivity | cbn; lia | now right | reflexivity] ]).
Qed.

Lemma begun_Some (a : RobotAvatar) (tok : string) :
  begun a = Some tok ->
  isAnimating a = false /\ truthy tok = true /\
  exists rest, animationQueue a = tok :: rest.
Proof.
  unfold begun. destruct (isAnimating a); [discriminate|].
  destruct (animationQueue a) as [|t rest]; [discriminate|].
  destruct (truthy t) eqn:T; [|discriminate].
  intros [= <-]. repeat split; trivial. now exists rest.
Qed.

Lemma animate_dequeue_begun (a : RobotAvatar) (w : World) (tok : string)
    (rest : list string) :
  isAnimating a = false -> truthy tok = true -> animationQueue a = tok :: rest ->
  Avatar.animate_dequeue a w = Avatar.startAnimation tok (Avatar.withQueue rest a) w.
Proof.
  intros I T Q. unfold Avatar.animate_dequeue. rewrite I, Q, T. reflexivity.
Qed.

Lemma animate_dequeue_idle (a : RobotAvatar) (w : World) :
  begun a = None ->
  let s := Avatar.animate_dequeue a w in
  snd s = w /\
  isAnimating (fst s) = isAnimating a /\
  currentAnimationEnd (fst s) = currentAnimationEnd a /\
  filter truthy (animationQueue (fst s)) = filter truthy (animationQueue a).
Proof.
  unfold begun, Avatar.animate_dequeue. cbv zeta.
  destruct (isAnimating a) eqn:I; cbn [negb andb].
  - intros _. cbn [fst snd]. repeat apply conj; trivial.
  - destruct (animationQueue a) as [|t rest] eqn:Q; cbn [length Nat.ltb Nat.leb].
    + intros _. cbn [fst snd]. rewrite Q. repeat apply conj; trivial.
    + destruct (truthy t) eqn:T; [discriminate|]. intros _.
      cbn [fst snd Avatar.withQueue animationQueue isAnimating currentAnimationEnd
           filter].
      rewrite T. repeat apply conj; trivial.
Qed.

Lemma animate_finish_seq (now : Z) (a : RobotAvatar) (w : World) :
  let s := Avatar.animate_finish now a w in
  animationQueue (fst s) = animationQueue a /\
  currentAnimationEnd (fst s) = currentAnimationEnd a /\
  isAnimating (fst s) = isAnimating a && negb (currentAnimationEnd a <? now)%Z /\
  Date_readings (snd s) = Date_readings w /\
  (dateCalls w <= dateCalls (snd s))%nat /\
  played (snd s) = played w.
Proof.
  unfold Avatar.animate_finish.
  destruct (isAnimating a) eqn:I; cbn [andb].
  - destruct (currentAnimationEnd a <? now)%Z; cbn [negb].
    + destruct (length (animationQueue (Avatar.withIsAnimating false a)) =? 0)%nat.
      * destruct a as [l r q i e [d|]]; cbn; repeat apply conj; trivial; lia.
      * cbn. repeat apply conj; trivial.
    + cbn. repeat apply conj; trivial.
  - cbn. repeat apply conj; trivial.
Qed.

(** What one frame does to the sequencer. *)
Lemma animate_seq (time : num) (a : RobotAvatar) (w : World) :
  let now := Date_readings w (dateCalls w) in
  let s1 := Avatar.animate_dequeue a (snd (Date_now w)) in
  let s := Avatar.animate time a w in
  animationQueue (fst s) = animationQueue (fst s1) /\
  currentAnimationEnd (fst s) = currentAnimationEnd (fst s1) /\
  isAnimating (fst s) =
    isAnimating (fst s1) && negb (currentAnimationEnd (fst s1) <? now)%Z /\
  Date_readings (snd s) = Date_readings (snd s1) /\
  (dateCalls (snd s1) <= dateCalls (snd s))%nat /\
  played (snd s) = played (snd s1).
Proof.
  cbv zeta. rewrite animate_eq. cbv zeta.
  set (s1 := Avatar.animate_dequeue a (snd (Date_now w))).
  destruct (animate_finish_seq (Date_readings w (dateCalls w)) (fst s1) (snd s1))
    as (Q2 & E2 & I2 & D2 & DC2 & P2).
  set (s2 := Avatar.animate_finish _ (fst s1) (snd s1)) in *.
  destruct (animate_hands_frame time (fst s2) (snd s2))
    as (_ & _ & Q3 & I3 & E3 & _ & D3 & DC3).
  rewrite Q3, I3, E3, D3, DC3, animate_hands_played.
  repeat apply conj; assumption.
Qed.

Lemma played_Date_now (w : World) : played (snd (Date_now w)) = played w.
Proof. reflexivity. Qed.

Lemma frame_fifo (time : num) (s : RobotAvatar * World) :
  let s' := Avatar.animate time (fst s) (snd s) in
  played (snd s') = played (snd s) ++ map slot_token (frame_slot s) /\
  map slot_token (frame_slot s) ++ filter truthy (animationQueue (fst s')) =
    filter truthy (animationQueue (fst s)).
Proof.
  cbv zeta.
  destruct (animate_seq time (fst s) (snd s)) as (Q & _ & _ & _ & _ & P).
  cbv zeta in Q, P. rewrite Q, P. unfold frame_slot.
  destruct (begun (fst s)) as [tok|] eqn:B.
  - destruct (begun_Some _ B) as (I & T & rest & Qa).
    rewrite (animate_dequeue_begun _ _ I T Qa).
    destruct (startAnimation_seq tok (Avatar.withQueue rest (fst s))
                (snd (Date_now (snd s)))) as (_ & Q1 & _ & P1 & _).
    cbv zeta in Q1, P1. rewrite Q1, P1, played_Date_now, Qa.
    cbn [map slot_token Avatar.withQueue animationQueue filter app]. rewrite T.
    split; reflexivity.
  - destruct (animate_dequeue_idle (fst s) (snd (Date_now (snd s))) B)
      as (W1 & _ & _ & F1).
    cbv zeta in W1, F1. rewrite W1, F1, played_Date_now.
    cbn [map app]. now rewrite app_nil_r.
Qed.








(** The end-to-end scenario: HELLO, then A, then B, one after the other. *)
Example end_to_end_slots :
  slots gloss0
    [Speak "HELLO CHAR_A CHAR_B";
     Frame 0; Frame 0; Frame 0; Frame 0; Frame 0; Frame 0; Frame 0; Frame 0;
     Frame 0; Frame 0; Frame 0; Frame 0; Frame 0; Frame 0; Frame 0; Frame 0;
     Frame 0; Frame 0; Frame 0; Frame 0]
    (newRobotAvatar (Some (mkSignDisplay "" "0")), world0)
  = [mkSlot "HELLO" 1300 2100; mkSlot "CHAR_A" 2500 2900; mkSlot "CHAR_B" 3300 3700].
Proof. vm_compute. reflexivity. Qed.

(* ================================================================== *)
(** * The world of the examples                                         *)
(* ================================================================== *)

Lemma world0_draws : draws_in_unit world0.
Proof. intro n. cbn [world0 Math_draws]. lra. Qed.

Lemma world0_clock : monotone_clock world0 /\ clock_unbounded world0.
Proof.
  split.
  - intros i j H. cbn [world0 Date_readings]. lia.
  - intro z. exists (Z.to_nat z). cbn [world0 Date_readings]. lia.
Qed.

(* ================================================================== *)
(** * Ranges                                                            *)
(* ================================================================== *)

Lemma catalog_keeps_range :
  Forall (fun e => keeps_range (snd e)) Hand.gestureCatalog.
Proof.
  unfold Hand.gestureCatalog.
  repeat (apply Forall_cons; [cbv beta iota delta [snd]; solve_keeps_range|]).
  apply Forall_nil.
Qed.

Lemma idleSway_keeps_range : keeps_range Hand.idleSway.
Proof.
  intros t h w D H.
  destruct h as [sd wr fs [[tx ty tz] [c1 c2 c3 c4 c5]] cur st at_].
  unfold Hand.idleSway, pose_in_range, wrist_in_range, curls_in_range,
         angle_in_range, curl_in_range.
  run_stmt. cbv beta iota delta [FingerName_eqb]. num_ops.
  cbv beta iota delta [ex ey ez wristRot fingerCurls thumb index middle ring pinky].
  in_range.
Qed.

Lemma defaultGesture_keeps_range (word : string) :
  keeps_range (Hand.defaultGesture word).
Proof.
  intros t h w D H.
  destruct h as [sd wr fs [[tx ty tz] [c1 c2 c3 c4 c5]] cur st at_].
  unfold Hand.defaultGesture, Hand.num_of_nat, pose_in_range, wrist_in_range,
         curls_in_range, angle_in_range, curl_in_range.
  destruct (option_map _ (Hand.charCodeAt0 word)) as [[|[|[|n]]]|];
    run_stmt; num_ops;
    cbv beta iota delta [ex ey ez wristRot fingerCurls thumb index middle ring pinky];
    in_range.
Qed.

Lemma updateLogic_keeps_range (t : R) (h : RobotHand) (w : World) :
  draws_in_unit w ->
  pose_in_range (targetState h) ->
  pose_in_range (targetState (fst (Hand.updateLogic (Fin t) h w))).
Proof.
  intros D H. unfold Hand.updateLogic.
  destruct (String.eqb (animState h) "IDLE" || String.eqb (animState h) "POSE").
  - now apply idleSway_keeps_range.
  - unfold Hand.select_case.
    destruct (js_get (animState h) Hand.gestureCatalog) as [g|] eqn:E.
    + apply js_get_In in E.
      pose proof catalog_keeps_range as F. rewrite Forall_forall in F.
      exact (F _ E t h w D H).
    + now apply defaultGesture_keeps_range.
Qed.

Lemma lerp_between (lo hi : R) (c t : num) :
  (exists r, c = Fin r /\ (lo <= r <= hi)%R) ->
  (exists r, t = Fin r /\ (lo <= r <= hi)%R) ->
  exists r, lerp c t (Fin 0.25) = Fin r /\ (lo <= r <= hi)%R.
Proof.
  intros [rc [-> Hc]] [rt [-> Ht]]. rewrite lerp_Fin.
  eexists. split; [reflexivity | lra].
Qed.

Lemma updateLerp_keeps_range (h : RobotHand) (w : World) :
  hand_in_range h -> hand_in_range (fst (Hand.updateLerp h w)).
Proof.
  intros [T C]. split.
  - now rewrite (proj1 (updateLerp_frame h w)).
  - destruct T as [(Tx & Ty & Tz) (T1 & T2 & T3 & T4 & T5)].
    destruct C as [(Cx & Cy & Cz) (C1 & C2 & C3 & C4 & C5)].
    pose proof (fun k => updateLerp_component k h w) as L.
    pose proof (L WristX) as Lx. pose proof (L WristY) as Ly.
    pose proof (L WristZ) as Lz. pose proof (L (Curl Thumb)) as L1.
    pose proof (L (Curl Index)) as L2. pose proof (L (Curl Middle)) as L3.
    pose proof (L (Curl Ring)) as L4. pose proof (L (Curl Pinky)) as L5.
    unfold component, getCurl in Lx, Ly, Lz, L1, L2, L3, L4, L5.
    unfold pose_in_range, wrist_in_range, curls_in_range, angle_in_range,
           curl_in_range.
    rewrite Lx, Ly, Lz, L1, L2, L3, L4, L5.
    repeat apply conj; now apply lerp_between.
Qed.

Lemma in_range_no_NaN (e : Euler) : wrist_in_range e -> wrist_has_NaN e = false.
Proof.
  intros ([x [Ex _]] & [y [Ey _]] & [z [Ez _]]).
  unfold wrist_has_NaN. now rewrite Ex, Ey, Ez.
Qed.

(** One [update] at an elapsed time that is a number: ranges are kept and the
    NaN guard stays silent. *)
Lemma update_keeps_range (t : R) (h : RobotHand) (w : World) :
  draws_in_unit w ->
  hand_in_range h ->
  hand_in_range (fst (Hand.update (Fin t) h w)) /\
  console (snd (Hand.update (Fin t) h w)) = console w.
Proof.
  intros D [T C]. rewrite update_unfold. cbv zeta.
  pose proof (updateLogic_keeps_range t h D T) as T1.
  destruct (updateLogic_frame (Fin t) h w) as [(_ & _ & _ & C1 & _) (_ & _ & _ & K1)].
  set (s1 := Hand.updateLogic (Fin t) h w) in *.
  assert (R1 : hand_in_range (fst s1)) by (split; [exact T1 | now rewrite C1]).
  pose proof (updateLerp_keeps_range (snd s1) R1) as R2.
  destruct (updateLerp_frame (fst s1) (snd s1)) as (_ & _ & _ & _ & _ & E2).
  set (s2 := Hand.updateLerp (fst s1) (snd s1)) in *.
  destruct (resetWristOnNaN_spec (fst s2) (snd s2))
    as (F3 & T3 & _ & _ & _ & _ & _ & _ & _ & _ & _ & N3).
  destruct (N3 (in_range_no_NaN (proj1 (proj2 R2)))) as [W3 K3].
  set (s3 := Hand.resetWristOnNaN (fst s2) (snd s2)) in *.
  destruct (applyToMesh_spec (fst s3) (snd s3)) as (_ & _ & _ & T4 & C4 & _ & _ & E4).
  set (s4 := Hand.applyToMesh (fst s3) (snd s3)) in *.
  split.
  - destruct R2 as [R2t [R2w R2c]]. split.
    + now rewrite T4, T3.
    + split; rewrite C4; [now rewrite W3 | now rewrite F3].
  - now rewrite E4, K3, E2, K1.
Qed.




Lemma ASL_ALPHABET_in_range (key : string) (pose : Curls) :
  js_get key ASL_ALPHABET = Some pose -> curls_in_range pose.
Proof.
  intro H. apply js_get_In in H.
  assert (F : Forall (fun e => curls_in_range (snd e)) ASL_ALPHABET).
  { unfold ASL_ALPHABET.
    repeat (apply Forall_cons;
            [ cbn [snd]; unfold curls_in_range, curl_in_range;
              cbn [thumb index middle ring pinky];
              repeat apply conj; (eexists; split; [reflexivity | lra]) | ]).
    apply Forall_nil. }
  rewrite Forall_forall in F. exact (F _ H).
Qed.

Lemma poseHand_keeps_range (pose : Curls) (h : RobotHand) (w : World) :
  curls_in_range pose -> hand_in_range h ->
  hand_in_range (fst (Hand.poseHand pose h w)).
Proof.
  intros P [T C].
  destruct (poseHand_spec pose h w) as (_ & F & Wr & Cu & _).
  split.
  - split; [rewrite Wr | now rewrite F].
    unfold wrist_in_range, angle_in_range. cbn [ex ey ez]. num_ops.
    repeat apply conj; (eexists; split; [reflexivity | lra]).
  - now rewrite Cu.
Qed.

Lemma hand_triggerAnimation_keeps_range (type : string) (h : RobotHand)
    (w : World) :
  hand_in_range h -> hand_in_range (fst (Hand.triggerAnimation type h w)).
Proof. intro H. exact H. Qed.

Lemma startAnimation_keeps_range (type : string) (a : RobotAvatar) (w : World) :
  avatar_in_range a ->
  avatar_in_range (fst (Avatar.startAnimation type a w)) /\
  Math_draws (snd (Avatar.startAnimation type a w)) = Math_draws w /\
  NaN_reports (snd (Avatar.startAnimation type a w)) = NaN_reports w.
Proof.
  intros [L R].
  unfold Avatar.startAnimation, Avatar.startAnimation_dispatch. cbv zeta.
  assert (N : NaN_reports (console_write (console_log_Playing type) w) = NaN_reports w).
  { unfold NaN_reports, console_write. cbn [console].
    rewrite flat_map_app. cbn [flat_map NaN_report app]. now rewrite app_nil_r. }
  destruct (startsWith type "CHAR_").
  - destruct (js_get _ ASL_ALPHABET) as [pose|] eqn:E.
    + pose proof (@poseHand_keeps_range pose (rightHand (Avatar.withIsAnimating true a))
                    (console_write (console_log_Playing type) w)
                    (@ASL_ALPHABET_in_range _ pose E) R) as R'.
      destruct (poseHand_spec pose (rightHand (Avatar.withIsAnimating true a))
                  (console_write (console_log_Playing type) w)) as (_ & _ & _ & _ & W').
      destruct (Hand.poseHand pose _ _) as [r w1]. cbn [fst snd] in R', W'. subst w1.
      destruct a as [l0 r0 q i e [d|]]; (split; [split; assumption | split; [reflexivity | exact N]]).
    + destruct a as [l0 r0 q i e [d|]]; (split; [split; assumption | split; [reflexivity | exact N]]).
  - destruct a as [l0 r0 q i e [d|]]; (split; [split; assumption | split; [reflexivity | exact N]]).
Qed.

Lemma animate_dequeue_keeps_range (a : RobotAvatar) (w : World) :
  avatar_in_range a ->
  avatar_in_range (fst (Avatar.animate_dequeue a w)) /\
  Math_draws (snd (Avatar.animate_dequeue a w)) = Math_draws w /\
  NaN_reports (snd (Avatar.animate_dequeue a w)) = NaN_reports w.
Proof.
  intro H. unfold Avatar.animate_dequeue.
  destruct (negb (isAnimating a) && (0 <? length (animationQueue a))%nat);
    [|split; [exact H | split; reflexivity]].
  destruct (animationQueue a) as [|nextAnim rest]; [split; [exact H | split; reflexivity]|].
  destruct (truthy nextAnim); [|split; [exact H | split; reflexivity]].
  now apply startAnimation_keeps_range.
Qed.

Lemma animate_finish_keeps_range (now : Z) (a : RobotAvatar) (w : World) :
  avatar_in_range a ->
  avatar_in_range (fst (Avatar.animate_finish now a w)) /\
  Math_draws (snd (Avatar.animate_finish now a w)) = Math_draws w /\
  NaN_reports (snd (Avatar.animate_finish now a w)) = NaN_reports w.
Proof.
  intro H. unfold Avatar.animate_finish.
  destruct (isAnimating a && (currentAnimationEnd a <? now)%Z); [|split; [exact H | split; reflexivity]].
  destruct (length (animationQueue (Avatar.withIsAnimating false a)) =? 0)%nat;
    [|split; [exact H | split; reflexivity]].
  destruct a as [l0 r0 q i e [d|]]; (split; [exact H | split; reflexivity]).
Qed.

Lemma animate_hands_keeps_range (t : R) (a : RobotAvatar) (w : World) :
  draws_in_unit w ->
  avatar_in_range a ->
  avatar_in_range (fst (Avatar.animate_hands (Fin t) a w)) /\
  Math_draws (snd (Avatar.animate_hands (Fin t) a w)) = Math_draws w /\
  NaN_reports (snd (Avatar.animate_hands (Fin t) a w)) = NaN_reports w.
Proof.
  intros D [L R]. rewrite animate_hands_eq. cbv zeta.
  destruct (update_keeps_range t D L) as [L' K1].
  destruct (update_frame (Fin t) (leftHand a) w) as (_ & _ & _ & _ & _ & _ & M1 & _).
  assert (D1 : draws_in_unit (snd (Hand.update (Fin t) (leftHand a) w)))
    by (unfold draws_in_unit; rewrite M1; exact D).
  destruct (update_keeps_range t D1 R) as [R' K2].
  destruct (update_frame (Fin t) (rightHand a)
              (snd (Hand.update (Fin t) (leftHand a) w)))
    as (_ & _ & _ & _ & _ & _ & M2 & _).
  cbn [fst snd]. split; [split; assumption|].
  split; [now rewrite M2, M1|].
  unfold NaN_reports. now rewrite K2, K1.
Qed.

Lemma animate_keeps_range (t : R) (a : RobotAvatar) (w : World) :
  draws_in_unit w ->
  avatar_in_range a ->
  avatar_in_range (fst (Avatar.animate (Fin t) a w)) /\
  Math_draws (snd (Avatar.animate (Fin t) a w)) = Math_draws w /\
  NaN_reports (snd (Avatar.animate (Fin t) a w)) = NaN_reports w.
Proof.
  intros D H. rewrite animate_eq. cbv zeta.
  destruct (animate_dequeue_keeps_range (snd (Date_now w)) H) as (H1 & M1 & N1).
  set (s1 := Avatar.animate_dequeue a (snd (Date_now w))) in *.
  destruct (animate_finish_keeps_range (Date_readings w (dateCalls w)) (snd s1) H1)
    as (H2 & M2 & N2).
  set (s2 := Avatar.animate_finish _ (fst s1) (snd s1)) in *.
  assert (D2 : draws_in_unit (snd s2))
    by (unfold draws_in_unit; rewrite M2, M1; exact D).
  destruct (animate_hands_keeps_range t D2 H2) as (H3 & M3 & N3).
  split; [exact H3|]. split.
  - now rewrite M3, M2, M1.
  - now rewrite N3, N2, N1.
Qed.

Lemma enqueue_words_hands (ws : list string) :
  forall a : RobotAvatar,
    let a' := fold_left
                (fun a word => Avatar.withQueue (animationQueue a ++ [word]) a) ws a in
    leftHand a' = leftHand a /\ rightHand a' = rightHand a /\
    signDisplay a' = signDisplay a.
Proof.
  induction ws as [|word ws IH]; intro a; cbn [fold_left]; [repeat apply conj; reflexivity|].
  destruct (IH (Avatar.withQueue (animationQueue a ++ [word]) a)) as (L & R & S).
  cbv zeta in *. now rewrite L, R, S.
Qed.

Lemma run_keeps_range (gloss : string -> list string) (evs : list Event) :
  forall s : RobotAvatar * World,
    draws_in_unit (snd s) ->
    Forall frame_time_is_number evs ->
    avatar_in_range (fst s) ->
    avatar_in_range (fst (run gloss evs s)) /\
    NaN_reports (snd (run gloss evs s)) = NaN_reports (snd s).
Proof.
  induction evs as [|e evs IH]; intros s D F H; [now split|].
  inversion F as [|? ? Fe Fr]; subst.
  unfold run in *. cbn [fold_left].
  destruct e as [input|[|t]]; cbn [step frame_time_is_number] in *.
  - destruct (enqueue_words_hands (gloss input) (fst s)) as (L & R & _).
    cbv zeta in L, R.
    destruct (IH (Avatar.triggerAnimation gloss input (fst s) (snd s)))
      as [H' N']; trivial.
    + unfold Avatar.triggerAnimation. cbn [fst]. unfold avatar_in_range.
      now rewrite L, R.
    + split; [exact H' | exact N'].
  - destruct Fe.
  - destruct (@animate_keeps_range t (fst s) (snd s) D H) as (H' & M' & N').
    destruct (IH (Avatar.animate (Fin t) (fst s) (snd s))) as [H'' N'']; trivial.
    + unfold draws_in_unit. rewrite M'. exact D.
    + split; [exact H''|]. now rewrite N'', N'.
Qed.

Lemma newRobotAvatar_in_range (display : option SignDisplay) :
  avatar_in_range (newRobotAvatar display).
Proof.
  unfold avatar_in_range, hand_in_range, pose_in_range, wrist_in_range,
         curls_in_range, angle_in_range, curl_in_range.
  cbn. repeat apply conj; (eexists; split; [reflexivity | lra]).
Qed.

(** X2.  Playback never leaves the range and never reports NaN.  From a new
    avatar, after any sequence of [triggerAnimation] calls and frames whose
    elapsed times are numbers, with [Math.random()] in [0, 1): the target and
    current wrist angles of both hands are within [-0.8, 0.8] radians, their
    target and current finger curls within [0, 1.5], and the console holds no
    NaN report that was not there at the start. *)
Theorem playback_keeps_hands_in_range (gloss : string -> list string)
    (evs : list Event) (display : option SignDisplay) (w : World) :
  draws_in_unit w ->
  Forall frame_time_is_number evs ->
  let final := run gloss evs (newRobotAvatar display, w) in
  avatar_in_range (fst final) /\
  NaN_reports (snd final) = NaN_reports w.
Proof.
  intros D F. cbv zeta.
  exact (@run_keeps_range gloss evs (newRobotAvatar display, w) D F
           (newRobotAvatar_in_range display)).
Qed.

Lemma playback_keeps_hands_in_range_witness :
  avatar_in_range
    (fst (run gloss0 [Speak "HELLO CHAR_A"; Frame 0; Frame 0.5]
              (newRobotAvatar None, world0))).
Proof.
  refine (proj1 (@playback_keeps_hands_in_range gloss0
                   [Speak "HELLO CHAR_A"; Frame 0; Frame 0.5] None world0
                   world0_draws _)).
  repeat (apply Forall_cons; [exact I|]). apply Forall_nil.
Defined.

(* ================================================================== *)
(** * What the gesture logic reads and writes                           *)
(* ================================================================== *)

Lemma catalog_sets_wrist :
  Forall (fun e => forall time h1 w1 h2 w2,
            wristRot (targetState (fst (snd e time h1 w1))) =
            wristRot (targetState (fst (snd e time h2 w2))))
         Hand.gestureCatalog.
Proof.
  unfold Hand.gestureCatalog.
  repeat (apply Forall_cons; [cbv beta iota delta [snd]; solve_sets_wrist|]).
  apply Forall_nil.
Qed.

Lemma catalog_ignores_targets :
  Forall (fun e => is_partialTag (fst e) = false ->
            forall time p h w, snd e time (withTarget p h) w = snd e time h w)
         Hand.gestureCatalog.
Proof.
  unfold Hand.gestureCatalog.
  repeat (apply Forall_cons;
          [ intro H; cbv beta iota delta [fst snd] in *;
            first [ solve_ignores_targets | (vm_compute in H; discriminate H) ] | ]).
  apply Forall_nil.
Qed.

Lemma catalog_keeps_world :
  Forall (fun e => fst e <> "KEYBOARD"%string ->
            forall time h w, snd (snd e time h w) = w)
         Hand.gestureCatalog.
Proof.
  unfold Hand.gestureCatalog.
  repeat (apply Forall_cons;
          [ intro H; cbv beta iota delta [fst snd] in *;
            first [ solve_keeps_world | (exfalso; apply H; reflexivity) ] | ]).
  apply Forall_nil.
Qed.

Lemma updateLogic_wrist (time : num) (h1 h2 : RobotHand) (w1 w2 : World) :
  animState h1 = animState h2 ->
  wristRot (targetState (fst (Hand.updateLogic time h1 w1))) =
  wristRot (targetState (fst (Hand.updateLogic time h2 w2))).
Proof.
  intro E. unfold Hand.updateLogic. rewrite E.
  destruct (String.eqb (animState h2) "IDLE" || String.eqb (animState h2) "POSE").
  - unfold Hand.idleSway. run_stmt. reflexivity.
  - unfold Hand.select_case.
    destruct (js_get (animState h2) Hand.gestureCatalog) as [g|] eqn:G.
    + apply js_get_In in G.
      pose proof catalog_sets_wrist as F. rewrite Forall_forall in F.
      exact (F _ G time h1 w1 h2 w2).
    + unfold Hand.defaultGesture.
      destruct (option_map _ (Hand.charCodeAt0 (animState h2))) as [[|[|[|n]]]|];
        run_stmt; reflexivity.
Qed.

(** X3.  For every tag, with no exception, the wrist target after a tick is a
    function of the tag and the elapsed time: every branch of [updateLogic]
    calls [setWrist], so no wrist target survives a tick, and the random draws
    of KEYBOARD touch the fingers only. *)
Theorem wrist_target_follows_tag_and_time (time : num) (h1 h2 : RobotHand)
    (w1 w2 : World) :
  animState h1 = animState h2 ->
  wristRot (targetState (fst (Hand.update time h1 w1))) =
  wristRot (targetState (fst (Hand.update time h2 w2))).
Proof.
  intro E. rewrite !update_targets. now apply updateLogic_wrist.
Qed.

Lemma wrist_target_follows_tag_and_time_witness :
  wristRot (targetState (fst (Hand.update 0
     (withAnimState "KEYBOARD" (newRobotHand left)) world0))) =
  wristRot (targetState (fst (Hand.update 0
     (withAnimState "KEYBOARD"
        (withTarget (mkPoseState (mkEuler 1 1 1) (mkCurls 1 1 1 1 1))
                    (newRobotHand right)))
     (mkWorld (fun _ => 0%Z) 7 (fun _ => 0.5%R) 3 [])))).
Proof.
  exact (@wrist_target_follows_tag_and_time 0
           (withAnimState "KEYBOARD" (newRobotHand left))
           (withAnimState "KEYBOARD"
              (withTarget (mkPoseState (mkEuler 1 1 1) (mkCurls 1 1 1 1 1))
                          (newRobotHand right)))
           world0 (mkWorld (fun _ => 0%Z) 7 (fun _ => 0.5%R) 3 []) eq_refl).
Defined.

Lemma updateLogic_ignores_targets (time : num) (p : PoseState) (h : RobotHand)
    (w : World) :
  is_partialTag (animState h) = false ->
  Hand.updateLogic time (withTarget p h) w = Hand.updateLogic time h w.
Proof.
  intro P. unfold Hand.updateLogic.
  change (animState (withTarget p h)) with (animState h).
  destruct (String.eqb (animState h) "IDLE" || String.eqb (animState h) "POSE").
  - unfold Hand.idleSway. run_stmt. reflexivity.
  - unfold Hand.select_case.
    destruct (js_get (animState h) Hand.gestureCatalog) as [g|] eqn:G.
    + apply js_get_In in G.
      pose proof catalog_ignores_targets as F. rewrite Forall_forall in F.
      exact (F _ G P time p h w).
    + unfold Hand.defaultGesture.
      destruct (option_map _ (Hand.charCodeAt0 (animState h))) as [[|[|[|n]]]|];
        run_stmt; reflexivity.
Qed.

Lemma update_ignores_targets (time : num) (p : PoseState) (h : RobotHand)
    (w : World) :
  is_partialTag (animState h) = false ->
  Hand.update time (withTarget p h) w = Hand.update time h w.
Proof.
  intro P. rewrite !update_unfold. cbv zeta.
  now rewrite (updateLogic_ignores_targets time p h w P).
Qed.

(** X4.  For every tag but the nine of [partialTags], whatever [setFace],
    [setWrist] or [poseHand] wrote on the targets is gone at the next tick:
    [update] after the call gives the same hand and the same world as
    [update] without it ([poseHand] apart from the state POSE it sets). *)
Theorem setters_do_not_survive_a_tick (time : num) (h : RobotHand) (w w' : World) :
  is_partialTag (animState h) = false ->
  (forall (finger : FingerName) (curl : num),
      Hand.update time (fst (Hand.setFace finger curl h w')) w = Hand.update time h w) /\
  (forall x y z : num,
      Hand.update time (fst (Hand.setWrist x y z h w')) w = Hand.update time h w) /\
  (forall pose : Curls,
      Hand.update time (fst (Hand.poseHand pose h w')) w =
      Hand.update time (withAnimState "POSE" h) w).
Proof.
  intro P. split; [|split].
  - intros finger curl. exact (update_ignores_targets time _ h w P).
  - intros x y z. exact (update_ignores_targets time _ h w P).
  - intro pose.
    assert (E : fst (Hand.poseHand pose h w') =
                withTarget (mkPoseState (mkEuler (- 0.2) 0 0) pose)
                           (withAnimState "POSE" h)).
    { unfold Hand.poseHand. run_stmt. destruct pose. reflexivity. }
    rewrite E. apply update_ignores_targets. reflexivity.
Qed.

Lemma setters_do_not_survive_a_tick_witness :
  Hand.update 0 (fst (Hand.setFace Index 1.5 (newRobotHand right) world0)) world0 =
  Hand.update 0 (newRobotHand right) world0.
Proof.
  exact (proj1 (@setters_do_not_survive_a_tick 0 (newRobotHand right) world0 world0
                  eq_refl) Index 1.5).
Defined.

Lemma updateLogic_keeps_world (time : num) (h : RobotHand) (w : World) :
  animState h <> "KEYBOARD"%string ->
  snd (Hand.updateLogic time h w) = w.
Proof.
  intro N. unfold Hand.updateLogic.
  destruct (String.eqb (animState h) "IDLE" || String.eqb (animState h) "POSE").
  - apply (idleSway_pure time h w h w).
  - unfold Hand.select_case.
    destruct (js_get (animState h) Hand.gestureCatalog) as [g|] eqn:G.
    + apply js_get_In in G.
      pose proof catalog_keeps_world as F. rewrite Forall_forall in F.
      exact (F _ G N time h w).
    + apply (defaultGesture_pure (animState h) time h w h w).
Qed.

Lemma update_randomCalls (time : num) (h : RobotHand) (w : World) :
  randomCalls (snd (Hand.update time h w)) =
  randomCalls (snd (Hand.updateLogic time h w)).
Proof.
  rewrite update_unfold. cbv zeta.
  set (s1 := Hand.updateLogic time h w).
  destruct (updateLerp_frame (fst s1) (snd s1)) as (_ & _ & _ & _ & _ & E2).
  set (s2 := Hand.updateLerp (fst s1) (snd s1)) in *.
  destruct (resetWristOnNaN_spec (fst s2) (snd s2))
    as (_ & _ & _ & _ & _ & _ & _ & _ & _ & R3 & _).
  set (s3 := Hand.resetWristOnNaN (fst s2) (snd s2)) in *.
  destruct (applyToMesh_spec (fst s3) (snd s3)) as (_ & _ & _ & _ & _ & _ & _ & E4).
  now rewrite E4, R3, E2.
Qed.

(** X5.  A tick of a hand never reads the wall clock, and it draws random
    numbers only in state KEYBOARD, where it draws exactly four, one for each
    of index, middle, ring and pinky; every other tag leaves the stream of
    draws where it was. *)
Theorem tick_draws_only_for_KEYBOARD (time : num) (h : RobotHand) (w : World) :
  let w' := snd (Hand.update time h w) in
  dateCalls w' = dateCalls w /\
  Date_readings w' = Date_readings w /\
  Math_draws w' = Math_draws w /\
  randomCalls w' =
    (if String.eqb (animState h) "KEYBOARD" then randomCalls w + 4
     else randomCalls w)%nat.
Proof.
  cbv zeta.
  destruct (update_frame time h w) as (_ & _ & _ & _ & D & DC & M & _).
  repeat apply conj; trivial.
  rewrite update_randomCalls.
  destruct (String.eqb_spec (animState h) "KEYBOARD") as [E|N].
  - now apply updateLogic_KEYBOARD.
  - now rewrite updateLogic_keeps_world.
Qed.

Lemma putSegments_shape (f : FingerName) (curl : num)
    (fs : list (FingerName * list num)) (segments : list num) :
  Hand.fingerObj f fs = Some segments ->
  map (fun e => (fst e, length (snd e)))
      (Hand.putSegments f (map (fun _ => curl) segments) fs) =
  map (fun e => (fst e, length (snd e))) fs.
Proof.
  induction fs as [|[g old] rest IH]; [discriminate|].
  cbn [Hand.fingerObj Hand.putSegments].
  destruct (FingerName_eqb g f).
  - intros [= <-]. cbn [map fst snd]. now rewrite length_map.
  - intro H. cbn [map fst snd]. now rewrite (IH H).
Qed.

Lemma applyFinger_skeleton (f : FingerName) (h : RobotHand) (w : World) :
  skeleton (fst (Hand.applyFinger f h w)) = skeleton h.
Proof.
  unfold Hand.applyFinger, skeleton.
  destruct (Hand.fingerObj f (fingers h)) as [segments|] eqn:E; [|reflexivity].
  cbn [fst fingers]. now apply putSegments_shape.
Qed.

Lemma applyToMesh_skeleton (h : RobotHand) (w : World) :
  skeleton (fst (Hand.applyToMesh h w)) = skeleton h.
Proof.
  unfold Hand.applyToMesh, forEach. cbn [fold_right].
  rewrite !seq_eq. unfold skip. cbn [fst snd].
  rewrite !applyFinger_skeleton. reflexivity.
Qed.

Lemma update_skeleton (time : num) (h : RobotHand) (w : World) :
  skeleton (fst (Hand.update time h w)) = skeleton h.
Proof.
  rewrite update_unfold. cbv zeta. rewrite applyToMesh_skeleton.
  destruct (updateLogic_frame time h w) as [(_ & _ & F1 & _) _].
  set (s1 := Hand.updateLogic time h w) in *.
  destruct (updateLerp_frame (fst s1) (snd s1)) as (_ & _ & _ & _ & F2 & _).
  set (s2 := Hand.updateLerp (fst s1) (snd s1)) in *.
  destruct (resetWristOnNaN_spec (fst s2) (snd s2)) as (_ & _ & _ & F3 & _).
  unfold skeleton. now rewrite F3, F2, F1.
Qed.

(** X6.  After every [update], whatever the tag and the numbers: the wrist
    joint holds the current wrist rotation and every segment of every finger
    the hand has holds that finger's current curl, so the mesh shows the
    current state and nothing else; the skeleton keeps its fingers, their
    order and their numbers of segments; the side, the animation state and
    its start time are as before. *)
Theorem update_writes_the_current_pose (time : num) (h : RobotHand) (w : World) :
  let h' := fst (Hand.update time h w) in
  wrist h' = wristRot (currentState h') /\
  (forall (f : FingerName) (segments : list num),
      Hand.fingerObj f (fingers h) = Some segments ->
      Hand.fingerObj f (fingers h') =
        Some (repeat (getCurl f (fingerCurls (currentState h'))) (length segments))) /\
  (forall f : FingerName,
      Hand.fingerObj f (fingers h) = None -> Hand.fingerObj f (fingers h') = None) /\
  skeleton h' = skeleton h /\
  side h' = side h /\ animState h' = animState h /\
  animStartTime h' = animStartTime h.
Proof.
  cbv zeta.
  destruct (update_frame time h w) as (A & AS & S & _ & _ & _ & _ & Wr & Fg).
  repeat apply conj; trivial.
  - intros f segments E. rewrite Fg, E. cbn [option_map]. f_equal.
    clear. induction segments as [|s segments IH]; [reflexivity|].
    cbn [map length repeat]. now rewrite IH.
  - intros f E. now rewrite Fg, E.
  - apply update_skeleton.
Qed.

Lemma update_writes_the_current_pose_witness :
  Hand.fingerObj Index (fingers (newRobotHand right)) = Some [Fin 0; Fin 0; Fin 0] /\
  Hand.fingerObj Index
    (fingers (fst (Hand.update 0 (withAnimState "HELLO" (newRobotHand right)) world0)))
  = Some (repeat
            (getCurl Index
               (fingerCurls (currentState
                  (fst (Hand.update 0 (withAnimState "HELLO" (newRobotHand right))
                                    world0)))))
            3).
Proof.
  split; [reflexivity|].
  exact (proj1 (proj2 (@update_writes_the_current_pose 0
                         (withAnimState "HELLO" (newRobotHand right)) world0))
           Index [Fin 0; Fin 0; Fin 0] eq_refl).
Defined.

(* ================================================================== *)
(** * Letter tokens                                                     *)
(* ================================================================== *)

Lemma upper_upper (c : ascii) : upper_ascii (upper_ascii c) = upper_ascii c.
Proof. all_ascii c; reflexivity. Qed.

Lemma upper_lower (c : ascii) : upper_ascii (lower_ascii c) = upper_ascii c.
Proof. all_ascii c; reflexivity. Qed.

Lemma upper_keeps_underscore (c : ascii) :
  Ascii.eqb (upper_ascii c) "_" = Ascii.eqb c "_".
Proof. all_ascii c; reflexivity. Qed.

Lemma lower_keeps_underscore (c : ascii) :
  Ascii.eqb (lower_ascii c) "_" = Ascii.eqb c "_".
Proof. all_ascii c; reflexivity. Qed.

Lemma map_string_compose (f g k : ascii -> ascii) (s : string) :
  (forall c, f (g c) = k c) ->
  map_string f (map_string g s) = map_string k s.
Proof.
  intro H. induction s as [|c s IH]; [reflexivity|].
  cbn [map_string]. now rewrite H, IH.
Qed.

Lemma split_map_string (f : ascii -> ascii) (sep : ascii) (s : string) :
  (forall c, Ascii.eqb (f c) sep = Ascii.eqb c sep) ->
  split sep (map_string f s) = map (map_string f) (split sep s).
Proof.
  intro H. induction s as [|c s IH]; [reflexivity|].
  cbn [map_string split]. rewrite H, IH.
  destruct (Ascii.eqb c sep); [reflexivity|].
  destruct (split sep s); reflexivity.
Qed.

Lemma letter_of_map_string (f : ascii -> ascii) (s : string) :
  (forall c, Ascii.eqb (f c) "_" = Ascii.eqb c "_") ->
  letter_of (map_string f s) = map_string f (letter_of s).
Proof.
  intro H. unfold letter_of. rewrite (split_map_string f "_" s H).
  now destruct (split "_" s).
Qed.

Lemma letter_token (rest : string) :
  startsWith ("CHAR_" ++ rest) "CHAR_" = true /\
  nth 1 (split "_" ("CHAR_" ++ rest)) EmptyString = letter_of rest.
Proof.
  split.
  - unfold startsWith. cbn. now destruct rest.
  - unfold letter_of. cbn [append split Ascii.eqb Bool.eqb].
    destruct (split "_" rest); reflexivity.
Qed.

Lemma dispatch_letter (rest : string) (a : RobotAvatar) (w : World) :
  Avatar.startAnimation_dispatch ("CHAR_" ++ rest) a w =
    let char := toUpperCase (letter_of rest) in
    match js_get (toLowerCase char) ASL_ALPHABET with
    | Some pose =>
        Avatar.mkStarted
          (Avatar.withHands
             (fst (Hand.triggerAnimation "IDLE" (leftHand a) w))
             (fst (Hand.poseHand pose (rightHand a) w)) a)
          (snd (Hand.triggerAnimation "IDLE" (leftHand a) w)) 400 char
    | None => Avatar.mkStarted a w 800 char
    end.
Proof.
  destruct (letter_token rest) as [P L].
  unfold Avatar.startAnimation_dispatch. rewrite P, L. cbv zeta.
  destruct (js_get _ ASL_ALPHABET) as [pose|]; [|reflexivity].
  destruct (poseHand_spec pose (rightHand a) w) as (_ & _ & _ & _ & E).
  destruct (Hand.poseHand pose (rightHand a) w) as [r w1]. cbn [snd fst] in *.
  now subst w1.
Qed.

(** X7.  Letter tokens are read without regard to case: CHAR_ followed by an
    ASCII text, by the text in upper case or by the text in lower case set the
    same hands, the same duration and the same display text. *)
Theorem fingerspelling_ignores_case (rest : string) (a : RobotAvatar) (w : World) :
  is_ASCII rest = true ->
  Avatar.startAnimation_dispatch ("CHAR_" ++ toUpperCase rest) a w =
    Avatar.startAnimation_dispatch ("CHAR_" ++ rest) a w /\
  Avatar.startAnimation_dispatch ("CHAR_" ++ toLowerCase rest) a w =
    Avatar.startAnimation_dispatch ("CHAR_" ++ rest) a w.
Proof.
  intros _. rewrite !dispatch_letter. cbv zeta. unfold toUpperCase, toLowerCase.
  rewrite (letter_of_map_string upper_ascii rest upper_keeps_underscore).
  rewrite (letter_of_map_string lower_ascii rest lower_keeps_underscore).
  rewrite (map_string_compose upper_ascii upper_ascii upper_ascii _ upper_upper).
  rewrite (map_string_compose upper_ascii lower_ascii upper_ascii _ upper_lower).
  split; reflexivity.
Qed.

Lemma fingerspelling_ignores_case_witness :
  Avatar.startAnimation_dispatch "CHAR_B" (newRobotAvatar None) world0 =
  Avatar.startAnimation_dispatch "CHAR_b" (newRobotAvatar None) world0.
Proof.
  exact (proj1 (@fingerspelling_ignores_case "b" (newRobotAvatar None) world0
                  eq_refl)).
Defined.





(* ================================================================== *)
(** * The sequencer: what a frame leaves alone                          *)
(* ================================================================== *)

(** X9.  A gesture in progress is not interrupted: a frame that finds playback
    running and the wall clock not past the recorded end leaves playback
    running with the same end, the queue, the tags of both hands and the sign
    display as they were, and announces nothing; and [triggerAnimation] of the
    avatar, whenever it is called, appends to the queue and changes nothing
    else. *)
Theorem playing_token_is_not_interrupted (time : num) (a : RobotAvatar) (w : World) :
  isAnimating a = true ->
  (Date_readings w (dateCalls w) <= currentAnimationEnd a)%Z ->
  let a' := fst (Avatar.animate time a w) in
  isAnimating a' = true /\
  currentAnimationEnd a' = currentAnimationEnd a /\
  animationQueue a' = animationQueue a /\
  animState (leftHand a') = animState (leftHand a) /\
  animState (rightHand a') = animState (rightHand a) /\
  signDisplay a' = signDisplay a /\
  played (snd (Avatar.animate time a w)) = played w /\
  (forall (gloss : string -> list string) (input : string),
      let b := fst (Avatar.triggerAnimation gloss input a w) in
      animationQueue b = animationQueue a ++ gloss input /\
      isAnimating b = isAnimating a /\
      currentAnimationEnd b = currentAnimationEnd a /\
      leftHand b = leftHand a /\ rightHand b = rightHand a /\
      signDisplay b = signDisplay a /\
      snd (Avatar.triggerAnimation gloss input a w) = w).
Proof.
  intros I E. cbv zeta.
  assert (S1 : Avatar.animate_dequeue a (snd (Date_now w)) = (a, snd (Date_now w)))
    by (unfold Avatar.animate_dequeue; now rewrite I).
  assert (S2 : Avatar.animate_finish (Date_readings w (dateCalls w)) a (snd (Date_now w))
               = (a, snd (Date_now w))).
  { unfold Avatar.animate_finish. rewrite I.
    replace (currentAnimationEnd a <? Date_readings w (dateCalls w))%Z with false
      by (symmetry; apply Z.ltb_ge; lia).
    reflexivity. }
  rewrite animate_eq. cbv zeta. rewrite S1. cbn [fst snd]. rewrite S2. cbn [fst snd].
  destruct (animate_hands_frame time a (snd (Date_now w)))
    as (L & R & Q & I' & E' & S & _).
  rewrite animate_hands_played.
  repeat apply conj; try congruence; try reflexivity.
  intros gloss input. cbv zeta.
  destruct (triggerAnimation_seq gloss input a w) as (Q1 & I1 & E1 & W1).
  destruct (enqueue_words_hands (gloss input) a) as (L1 & R1 & D1).
  repeat apply conj; assumption.
Qed.

Lemma playing_token_is_not_interrupted_witness :
  isAnimating
    (fst (Avatar.animate 0
            (mkRobotAvatar (withAnimState "HELLO" (newRobotHand left))
                           (withAnimState "HELLO" (newRobotHand right))
                           ["WORLD"]%string true 1400 None)
            world0)) = true.
Proof.
  refine (proj1 (@playing_token_is_not_interrupted 0
                   (mkRobotAvatar (withAnimState "HELLO" (newRobotHand left))
                                  (withAnimState "HELLO" (newRobotHand right))
                                  ["WORLD"]%string true 1400 None)
                   world0 eq_refl _)).
  cbn [world0 Date_readings dateCalls currentAnimationEnd]. lia.
Defined.

Lemma startAnimation_lockstep (type : string) (a : RobotAvatar) (w : World) :
  lockstep a -> lockstep (fst (Avatar.startAnimation type a w)).
Proof.
  intro H. unfold Avatar.startAnimation, Avatar.startAnimation_dispatch. cbv zeta.
  destruct (startsWith type "CHAR_").
  - destruct (js_get _ ASL_ALPHABET) as [pose|].
    + destruct (poseHand_spec pose (rightHand (Avatar.withIsAnimating true a))
                  (console_write (console_log_Playing type) w)) as (P & _).
      destruct (Hand.poseHand pose _ _) as [r w1]. cbn [fst] in P.
      right. destruct a as [l0 r0 q i e [d|]]; (split; [reflexivity | exact P]).
    + destruct a as [l0 r0 q i e [d|]]; exact H.
  - left. destruct a as [l0 r0 q i e [d|]]; reflexivity.
Qed.

Lemma animate_lockstep (time : num) (a : RobotAvatar) (w : World) :
  lockstep a -> lockstep (fst (Avatar.animate time a w)).
Proof.
  intro H. rewrite animate_eq. cbv zeta.
  assert (H1 : lockstep (fst (Avatar.animate_dequeue a (snd (Date_now w))))).
  { unfold Avatar.animate_dequeue.
    destruct (negb (isAnimating a) && (0 <? length (animationQueue a))%nat);
      [|exact H].
    destruct (animationQueue a) as [|nextAnim rest]; [exact H|].
    destruct (truthy nextAnim); [|exact H].
    now apply startAnimation_lockstep. }
  set (s1 := Avatar.animate_dequeue a (snd (Date_now w))) in *.
  assert (H2 : lockstep (fst (Avatar.animate_finish (Date_readings w (dateCalls w))
                                (fst s1) (snd s1)))).
  { unfold Avatar.animate_finish.
    destruct (isAnimating (fst s1) && (currentAnimationEnd (fst s1) <? _)%Z);
      [|exact H1].
    destruct (length (animationQueue (Avatar.withIsAnimating false (fst s1))) =? 0)%nat;
      [|exact H1].
    left. destruct (fst s1) as [l0 r0 q i e [d|]]; reflexivity. }
  set (s2 := Avatar.animate_finish _ (fst s1) (snd s1)) in *.
  destruct (animate_hands_frame time (fst s2) (snd s2)) as (L & R & _).
  unfold lockstep in *. now rewrite L, R.
Qed.

(** X10.  The hands move in lockstep: after any sequence of calls and frames
    from a new avatar, either both hands have the same animation state, or
    the left hand is IDLE and the right hand is in the state POSE of a
    fingerspelled letter. *)
Theorem hands_stay_in_lockstep (gloss : string -> list string)
    (evs : list Event) (display : option SignDisplay) (w : World) :
  lockstep (fst (run gloss evs (newRobotAvatar display, w))).
Proof.
  assert (G : forall s : RobotAvatar * World,
             lockstep (fst s) -> lockstep (fst (run gloss evs s))).
  { induction evs as [|e evs IH]; intros s H; [exact H|].
    unfold run in *. cbn [fold_left]. apply IH.
    destruct e as [input|time]; cbn [step].
    - destruct (enqueue_words_hands (gloss input) (fst s)) as (L & R & _).
      cbv zeta in L, R. unfold Avatar.triggerAnimation. cbn [fst].
      unfold lockstep in *. now rewrite L, R.
    - now apply animate_lockstep. }
  apply G. left. reflexivity.
Qed.



Lemma startAnimation_word (type : string) (a : RobotAvatar) (w : World) :
  startsWith type "CHAR_" = false ->
  animState (leftHand (fst (Avatar.startAnimation type a w))) = type /\
  animState (rightHand (fst (Avatar.startAnimation type a w))) = type.
Proof.
  intro S. unfold Avatar.startAnimation, Avatar.startAnimation_dispatch. cbv zeta.
  rewrite S. destruct a as [l0 r0 q i e [d|]]; split; reflexivity.
Qed.

(** X12.  A word token drives both hands alike.  With a wall clock that never
    runs backwards, the frame that begins a token not starting with CHAR_
    leaves both hands in the state named by the token; and for every token
    but the nine of [partialTags] the two hands have the same target pose
    after that frame, the one a tick at that elapsed time computes for any
    hand in that state: the hands differ by their mesh, not by their
    targets. *)
Theorem word_token_drives_both_hands (time : num) (a : RobotAvatar) (w : World)
    (tok : string) :
  monotone_clock w ->
  begun a = Some tok ->
  startsWith tok "CHAR_" = false ->
  let a' := fst (Avatar.animate time a w) in
  animState (leftHand a') = tok /\
  animState (rightHand a') = tok /\
  (is_partialTag tok = false ->
   targetState (leftHand a') = targetState (rightHand a') /\
   forall (h : RobotHand) (w0 : World),
     animState h = tok ->
     targetState (rightHand a') = targetState (fst (Hand.update time h w0))).
Proof.
  intros M B S. cbv zeta.
  destruct (begun_Some _ B) as (Ia & T & rest & Qa).
  rewrite animate_eq. cbv zeta.
  rewrite (animate_dequeue_begun _ (snd (Date_now w)) Ia T Qa).
  destruct (startAnimation_seq tok (Avatar.withQueue rest a) (snd (Date_now w)))
    as (I1 & _ & _ & _ & k & dur & _ & K & Hd & E1).
  cbv zeta in I1, E1.
  destruct (startAnimation_word tok (Avatar.withQueue rest a) (snd (Date_now w)) S)
    as [L1 R1].
  set (s1 := Avatar.startAnimation tok (Avatar.withQueue rest a) (snd (Date_now w))) in *.
  assert (S2 : Avatar.animate_finish (Date_readings w (dateCalls w)) (fst s1) (snd s1)
               = (fst s1, snd s1)).
  { unfold Avatar.animate_finish. rewrite I1, E1. cbn [andb].
    cbn [Date_now snd Date_readings dateCalls] in K |- *.
    assert (N : (Date_readings w (dateCalls w) <= Date_readings w k)%Z)
      by (apply M; lia).
    replace (Date_readings w k + dur <? Date_readings w (dateCalls w))%Z with false
      by (symmetry; apply Z.ltb_ge; lia).
    reflexivity. }
  rewrite S2. cbn [fst snd].
  destruct (animate_hands_frame time (fst s1) (snd s1)) as (L3 & R3 & _).
  cbv zeta in L3, R3.
  split; [now rewrite L3 | split; [now rewrite R3|]].
  intro P. rewrite animate_hands_eq. cbv zeta. cbn [fst Avatar.withHands leftHand rightHand].
  rewrite !update_targets. split.
  - now apply (@updateLogic_pure_targets tok).
  - intros h w0 E. rewrite update_targets. now apply (@updateLogic_pure_targets tok).
Qed.

Lemma word_token_drives_both_hands_witness :
  targetState
    (leftHand (fst (Avatar.animate 0.5
       (mkRobotAvatar (newRobotHand left) (newRobotHand right)
                      ["HELLO"]%string false 0 None) world0))) =
  targetState
    (rightHand (fst (Avatar.animate 0.5
       (mkRobotAvatar (newRobotHand left) (newRobotHand right)
                      ["HELLO"]%string false 0 None) world0))).
Proof.
  exact (proj1 (proj2 (proj2 (@word_token_drives_both_hands 0.5
                   (mkRobotAvatar (newRobotHand left) (newRobotHand right)
                                  ["HELLO"]%string false 0 None)
                   world0 "HELLO" (proj1 world0_clock) eq_refl eq_refl)) eq_refl)).
Defined.

(* ================================================================== *)
(** * The sequencer: the queue drains                                   *)
(* ================================================================== *)

Lemma frames_of_S (times : nat -> num) (n : nat) (s : RobotAvatar * World) :
  frames_of times (S n) s =
  frames_of (fun i => times (S i)) n (Avatar.animate (times 0%nat) (fst s) (snd s)).
Proof.
  unfold frames_of, frames. cbn [List.seq map fold_left].
  now rewrite <- seq_shift, map_map.
Qed.

Lemma animate_clock (time : num) (a : RobotAvatar) (w : World) :
  Date_readings (snd (Avatar.animate time a w)) = Date_readings w /\
  (S (dateCalls w) <= dateCalls (snd (Avatar.animate time a w)))%nat.
Proof.
  destruct (animate_seq time a w) as (_ & _ & _ & D & DC & _). cbv zeta in D, DC.
  rewrite D.
  destruct (begun a) as [tok|] eqn:B.
  - destruct (begun_Some _ B) as (Ia & T & rest & Qa).
    rewrite (animate_dequeue_begun _ (snd (Date_now w)) Ia T Qa) in *.
    destruct (startAnimation_seq tok (Avatar.withQueue rest a) (snd (Date_now w)))
      as (_ & _ & D1 & _ & k & d & DC1 & K & _).
    cbv zeta in D1, DC1. cbn [Date_now snd dateCalls] in K.
    rewrite D1. split; [reflexivity | lia].
  - destruct (animate_dequeue_idle a (snd (Date_now w)) B) as (W1 & _).
    cbv zeta in W1. rewrite W1 in *. split; [reflexivity | exact DC].
Qed.

(** A frame while a token plays: it waits, or it finishes the token. *)
Lemma animate_while_playing (time : num) (a : RobotAvatar) (w : World) :
  isAnimating a = true ->
  let a' := fst (Avatar.animate time a w) in
  animationQueue a' = animationQueue a /\
  currentAnimationEnd a' = currentAnimationEnd a /\
  played (snd (Avatar.animate time a w)) = played w /\
  ((Date_readings w (dateCalls w) <= currentAnimationEnd a)%Z ->
   isAnimating a' = true) /\
  ((currentAnimationEnd a < Date_readings w (dateCalls w))%Z ->
   isAnimating a' = false /\ (animationQueue a = [] -> at_rest a')).
Proof.
  intro I. cbv zeta.
  destruct (animate_seq time a w) as (Q & E & I' & _ & _ & P). cbv zeta in Q, E, I', P.
  assert (S1 : Avatar.animate_dequeue a (snd (Date_now w)) = (a, snd (Date_now w)))
    by (unfold Avatar.animate_dequeue; now rewrite I).
  rewrite S1 in *. cbn [fst snd] in *.
  repeat apply conj; trivial.
  - intro L. rewrite I', I. cbn [andb].
    replace (currentAnimationEnd a <? Date_readings w (dateCalls w))%Z with false
      by (symmetry; apply Z.ltb_ge; lia).
    reflexivity.
  - intro L. split.
    + rewrite I', I. cbn [andb]. apply Z.ltb_lt in L. now rewrite L.
    + intro Qe.
      rewrite animate_eq. cbv zeta. rewrite S1. cbn [fst snd].
      destruct (@animate_finish_drain _ a (snd (Date_now w)) I Qe L)
        as (I1 & L1 & R1 & Q1 & D1).
      set (s2 := Avatar.animate_finish _ a _) in *.
      destruct (animate_hands_frame time (fst s2) (snd s2))
        as (L3 & R3 & Q3 & I3 & _ & S3 & _).
      unfold at_rest, visibleSign. rewrite L3, R3, Q3, I3, S3, D1.
      destruct (signDisplay a) as [d|];
        cbn [option_map opacity String.eqb Ascii.eqb Bool.eqb];
        repeat apply conj; trivial.
Qed.

(** A frame that begins a token. *)
Lemma animate_begins (time : num) (a : RobotAvatar) (w : World) (tok : string)
    (rest : list string) :
  monotone_clock w ->
  isAnimating a = false -> truthy tok = true -> animationQueue a = tok :: rest ->
  let a' := fst (Avatar.animate time a w) in
  isAnimating a' = true /\
  animationQueue a' = rest /\
  played (snd (Avatar.animate time a w)) = played w ++ [tok].
Proof.
  intros M Ia T Qa. cbv zeta.
  destruct (animate_seq time a w) as (Q & E & I & _ & _ & P). cbv zeta in Q, E, I, P.
  assert (DW : Date_readings (snd (Date_now w)) = Date_readings w) by reflexivity.
  assert (DCW : dateCalls (snd (Date_now w)) = S (dateCalls w)) by reflexivity.
  assert (PW : played (snd (Date_now w)) = played w) by reflexivity.
  set (w0 := snd (Date_now w)) in *. clearbody w0.
  rewrite (animate_dequeue_begun _ w0 Ia T Qa) in *.
  destruct (startAnimation_seq tok (Avatar.withQueue rest a) w0)
    as (I1 & Q1 & _ & P1 & k & d & _ & K & Hd & E1).
  cbv zeta in I1, Q1, P1, E1.
  rewrite Q, P, I, I1, Q1, P1, E1, DW, PW. cbn [andb Avatar.withQueue animationQueue].
  assert (N : (Date_readings w (dateCalls w) <= Date_readings w k)%Z)
    by (apply M; lia).
  replace (Date_readings w k + d <? Date_readings w (dateCalls w))%Z with false
    by (symmetry; apply Z.ltb_ge; lia).
  repeat apply conj; reflexivity.
Qed.

Lemma animate_at_rest_played (time : num) (a : RobotAvatar) (w : World) :
  at_rest a -> played (snd (Avatar.animate time a w)) = played w.
Proof.
  intros (I & _ & _ & _ & Q).
  destruct (frame_fifo time (a, w)) as [P _]. cbv zeta in P. cbn [fst snd] in P.
  rewrite P. unfold frame_slot, begun. cbn [fst]. rewrite I, Q.
  cbn [map]. now rewrite app_nil_r.
Qed.

Lemma frames_of_at_rest (times : nat -> num) (n : nat) :
  forall s : RobotAvatar * World,
    at_rest (fst s) ->
    at_rest (fst (frames_of times n s)) /\
    played (snd (frames_of times n s)) = played (snd s).
Proof.
  revert times. induction n as [|n IH]; intros times s H; [now split|].
  rewrite frames_of_S.
  destruct (IH (fun i => times (S i))
               (Avatar.animate (times 0%nat) (fst s) (snd s))
               (animate_at_rest (times 0%nat) (snd s) H)) as [R P].
  split; [exact R|]. rewrite P. now apply animate_at_rest_played.
Qed.

Lemma eventually_after_frame (times : nat -> num) (s s1 : RobotAvatar * World)
    (P : RobotAvatar * World -> Prop) :
  s1 = Avatar.animate (times 0%nat) (fst s) (snd s) ->
  (exists N, forall n, (N <= n)%nat -> P (frames_of (fun i => times (S i)) n s1)) ->
  exists N, forall n, (N <= n)%nat -> P (frames_of times n s).
Proof.
  intros -> [N H]. exists (S N). intros n L.
  destruct n as [|n]; [lia|]. rewrite frames_of_S. apply H. lia.
Qed.

Section Drain.

Variable readings : nat -> Z.
Hypothesis readings_monotone :
  forall i j : nat, (i <= j)%nat -> (readings i <= readings j)%Z.
Hypothesis readings_unbounded :
  forall z : Z, exists k : nat, (z < readings k)%Z.

(** While a token plays with nothing queued behind it. *)
Lemma last_token_drains (n : nat) :
  forall (times : nat -> num) (a : RobotAvatar) (w : World),
    Date_readings w = readings ->
    isAnimating a = true ->
    animationQueue a = [] ->
    (currentAnimationEnd a < readings (dateCalls w + n))%Z ->
    eventually_drained times (a, w).
Proof.
  induction n as [|n IH]; intros times a w D I Q E.
  - destruct (animate_while_playing (times 0%nat) a w I) as (_ & _ & P1 & _ & F).
    cbv zeta in P1, F.
    rewrite Nat.add_0_r, <- D in E. destruct (F E) as [_ R]. specialize (R Q).
    apply (eventually_after_frame times (a, w) (s1 := Avatar.animate (times 0%nat) a w));
      [reflexivity|].
    exists 0%nat. intros k _.
    destruct (frames_of_at_rest (fun i => times (S i)) k _ R) as [R' P'].
    split; [exact R'|]. cbn [fst snd]. now rewrite P', P1, Q, app_nil_r.
  - destruct (animate_while_playing (times 0%nat) a w I) as (Q1 & E1 & P1 & Wt & F).
    cbv zeta in Q1, E1, P1, Wt, F.
    destruct (animate_clock (times 0%nat) a w) as [D1 DC1].
    apply (eventually_after_frame times (a, w) (s1 := Avatar.animate (times 0%nat) a w));
      [reflexivity|].
    destruct (Z_lt_le_dec (currentAnimationEnd a) (Date_readings w (dateCalls w)))
      as [Lt|Le].
    + destruct (F Lt) as [_ R]. specialize (R Q).
      exists 0%nat. intros k _.
      destruct (frames_of_at_rest (fun i => times (S i)) k _ R) as [R' P'].
      split; [exact R'|]. cbn [fst snd]. now rewrite P', P1, Q, app_nil_r.
    + specialize (Wt Le).
      set (s1 := Avatar.animate (times 0%nat) a w) in *.
      destruct (IH (fun i => times (S i)) (fst s1) (snd s1)) as [N H].
      * now rewrite D1.
      * exact Wt.
      * now rewrite Q1.
      * rewrite E1.
        assert (readings (dateCalls w + S n) <= readings (dateCalls (snd s1) + n))%Z
          by (apply readings_monotone; lia).
        lia.
      * exists N. intros k L. destruct (H k L) as [R P].
        replace (frames_of (fun i => times (S i)) k s1)
          with (frames_of (fun i => times (S i)) k (fst s1, snd s1))
          by now destruct s1.
        split; [exact R|]. rewrite P. cbn [fst snd]. now rewrite P1, Q1.
Qed.

(** While a token plays, whatever is queued behind it. *)
Lemma playing_drains (queue : list string) :
  forall (n : nat) (times : nat -> num) (a : RobotAvatar) (w : World),
    Date_readings w = readings ->
    isAnimating a = true ->
    animationQueue a = queue ->
    Forall (fun tok => truthy tok = true) queue ->
    (currentAnimationEnd a < readings (dateCalls w + n))%Z ->
    eventually_drained times (a, w).
Proof.
  induction queue as [|tok rest IHq]; intros n times a w D I Q T E.
  - now apply (last_token_drains n).
  - revert times a w D I Q E.
    induction n as [|n IHn]; intros times a w D I Q E.
    + (* the token finishes in this frame, the next frame begins [tok] *)
      destruct (animate_while_playing (times 0%nat) a w I) as (Q1 & _ & P1 & _ & F).
      cbv zeta in Q1, P1, F.
      rewrite Nat.add_0_r, <- D in E. destruct (F E) as [I1 _].
      destruct (animate_clock (times 0%nat) a w) as [D1 _].
      apply (eventually_after_frame times (a, w)
               (s1 := Avatar.animate (times 0%nat) a w)); [reflexivity|].
      set (s1 := Avatar.animate (times 0%nat) a w) in *.
      apply Forall_cons_iff in T. destruct T as [Tt Tr].
      assert (M1 : monotone_clock (snd s1))
        by (unfold monotone_clock; rewrite D1, D; exact readings_monotone).
      rewrite Q in Q1.
      destruct (animate_begins (times 1%nat) (fst s1) M1 I1 Tt Q1) as (I2 & Q2 & P2).
      cbv zeta in I2, Q2, P2.
      destruct (animate_clock (times 1%nat) (fst s1) (snd s1)) as [D2 _].
      apply (eventually_after_frame (fun i => times (S i)) s1
               (s1 := Avatar.animate (times 1%nat) (fst s1) (snd s1))); [reflexivity|].
      set (s2 := Avatar.animate (times 1%nat) (fst s1) (snd s1)) in *.
      destruct (readings_unbounded (currentAnimationEnd (fst s2))) as [K HK].
      destruct (IHq K (fun i => times (S (S i))) (fst s2) (snd s2)) as [N H].
      * now rewrite D2, D1.
      * exact I2.
      * exact Q2.
      * exact Tr.
      * assert (readings K <= readings (dateCalls (snd s2) + K))%Z
          by (apply readings_monotone; lia).
        lia.
      * exists N. intros k L. destruct (H k L) as [R P].
        replace (frames_of (fun i => times (S (S i))) k s2)
          with (frames_of (fun i => times (S (S i))) k (fst s2, snd s2))
          by now destruct s2.
        split; [exact R|]. rewrite P. cbn [fst snd].
        now rewrite P2, P1, Q2, Q, <- app_assoc.
    + destruct (animate_while_playing (times 0%nat) a w I) as (Q1 & E1 & P1 & Wt & _).
      cbv zeta in Q1, E1, P1, Wt.
      destruct (animate_clock (times 0%nat) a w) as [D1 DC1].
      destruct (Z_lt_le_dec (currentAnimationEnd a) (Date_readings w (dateCalls w)))
        as [Lt|Le].
      * apply (IHn times a w D I Q).
        assert (readings (dateCalls w) <= readings (dateCalls w + n))%Z
          by (apply readings_monotone; lia).
        rewrite D in Lt. lia.
      * specialize (Wt Le).
        apply (eventually_after_frame times (a, w)
                 (s1 := Avatar.animate (times 0%nat) a w)); [reflexivity|].
        set (s1 := Avatar.animate (times 0%nat) a w) in *.
        destruct (IHn (fun i => times (S i)) (fst s1) (snd s1)) as [N H].
        -- now rewrite D1.
        -- exact Wt.
        -- now rewrite Q1.
        -- rewrite E1.
           assert (readings (dateCalls w + S n) <= readings (dateCalls (snd s1) + n))%Z
             by (apply readings_monotone; lia).
           lia.
        -- exists N. intros k L. destruct (H k L) as [R P].
           replace (frames_of (fun i => times (S i)) k s1)
             with (frames_of (fun i => times (S i)) k (fst s1, snd s1))
             by now destruct s1.
           split; [exact R|]. rewrite P. cbn [fst snd]. now rewrite P1, Q1.
Qed.

End Drain.

(** X13.  The queue drains.  With a wall clock that never runs backwards and
    passes every instant, from any state in which a token is playing or the
    queue is not empty, and no queued token is the empty string: for every
    schedule of elapsed times there is a number of frames after which, with no
    further call of [triggerAnimation], every queued token has been begun, in
    queue order, and the avatar is at rest (nothing playing, both hands IDLE,
    nothing visible in the sign display, the queue empty), and it stays so. *)
Theorem queue_drains (times : nat -> num) (a : RobotAvatar) (w : World) :
  monotone_clock w ->
  clock_unbounded w ->
  Forall (fun tok => truthy tok = true) (animationQueue a) ->
  isAnimating a = true \/ animationQueue a <> [] ->
  exists N : nat, forall n : nat, (N <= n)%nat ->
    at_rest (fst (frames_of times n (a, w))) /\
    played (snd (frames_of times n (a, w))) = played w ++ animationQueue a.
Proof.
  intros M U T H.
  assert (G : eventually_drained times (a, w)).
  { destruct (isAnimating a) eqn:I.
    - destruct (U (currentAnimationEnd a)) as [K HK].
      apply (@playing_drains (Date_readings w) M U (animationQueue a) K times a w
               eq_refl I eq_refl T).
      assert (Date_readings w K <= Date_readings w (dateCalls w + K))%Z
        by (apply M; lia).
      lia.
    - destruct H as [H|H]; [discriminate H|].
      destruct (animationQueue a) as [|tok rest] eqn:Q; [now elim H|].
      apply Forall_cons_iff in T. destruct T as [Tt Tr].
      destruct (animate_begins (times 0%nat) a M I Tt Q) as (I1 & Q1 & P1).
      cbv zeta in I1, Q1, P1.
      destruct (animate_clock (times 0%nat) a w) as [D1 _].
      apply (eventually_after_frame times (a, w)
               (s1 := Avatar.animate (times 0%nat) a w)); [reflexivity|].
      set (s1 := Avatar.animate (times 0%nat) a w) in *.
      destruct (U (currentAnimationEnd (fst s1))) as [K HK].
      destruct (@playing_drains (Date_readings w) M U rest K
                  (fun i => times (S i)) (fst s1) (snd s1))
        as [N HN]; trivial.
      + assert (Date_readings w K <= Date_readings w (dateCalls (snd s1) + K))%Z
          by (apply M; lia).
        lia.
      + exists N. intros k L. destruct (HN k L) as [R P].
        replace (frames_of (fun i => times (S i)) k s1)
          with (frames_of (fun i => times (S i)) k (fst s1, snd s1))
          by now destruct s1.
        split; [exact R|]. rewrite P. cbn [fst snd].
        now rewrite P1, Q1, Q, <- app_assoc. }
  exact G.
Qed.

Lemma queue_drains_witness :
  exists N : nat, forall n : nat, (N <= n)%nat ->
    at_rest (fst (frames_of (fun _ => Fin 0) n
       (mkRobotAvatar (newRobotHand left) (newRobotHand right)
                      ["HELLO"; "CHAR_A"]%string false 0 None, world0))) /\
    played (snd (frames_of (fun _ => Fin 0) n
       (mkRobotAvatar (newRobotHand left) (newRobotHand right)
                      ["HELLO"; "CHAR_A"]%string false 0 None, world0)))
    = played world0 ++ ["HELLO"; "CHAR_A"]%string.
Proof.
  refine (@queue_drains (fun _ => Fin 0)
           (mkRobotAvatar (newRobotHand left) (newRobotHand right)
                          ["HELLO"; "CHAR_A"]%string false 0 None)
           world0 (proj1 world0_clock) (proj2 world0_clock) _ (or_intror _)).
  - apply Forall_cons; [reflexivity|]. apply Forall_cons; [reflexivity|].
    apply Forall_nil.
  - discriminate.
Defined.
